(** * Agape backend: authorization and booking lifecycle

    A shallow embedding of the Express handlers of the Agape backend
    (middleware/auth.js, middleware/adminAuth.js, routes/auth.routes.js,
    routes/admin.routes.js, routes/bookings.routes.js, models/Booking.js,
    models/User.js) together with the properties of its specification.

    Conventions of the embedding.
    - JavaScript strings are [string]s of ASCII characters; characters
      above 127 carry no case and are not white space.
    - JavaScript numbers are exact integers ([Num z]) or [NaN].
    - A Mongo collection is a finite map from the document's [_id]
      (its hexadecimal string) to the document. The id of a path,
      [req.params.id], is the client's spelling of an id, which the
      store call casts to that string ([castObjectId]); the id of a
      verified token is the string the server signed, that of the
      user's [_id].
    - A plain JavaScript object is a finite map from property names to
      values; [delete o.k] is map deletion.
    - Handlers are functions from the request and the collections to a
      response and the collections afterwards; a handler that returns
      before [save] returns the collections it received.
    - Facilities of the host (JWT signing, bcrypt, Date parsing, the
      syntax and the cast of ObjectIds, the database's reading of a
      [skip] or [limit] that is [NaN]) are the fields of the class
      [Host]. *)

From Stdlib Require Import ZArith Lia Ascii DecimalString.
From stdpp Require Import base option list sorting gmap strings.

Local Open Scope Z_scope.

(** ** JavaScript core *)

Module JS.

(** Numbers: the result of [parseInt], [Math.max], [Number(..)]. *)
Inductive number : Type :=
| NaN
| Num (z : Z).

(** The scalar values a JSON request body can hold in one field;
    [VUndefined] is an absent field. *)
Inductive value : Type :=
| VUndefined
| VNull
| VBool (b : bool)
| VNum (z : Z)
| VStr (s : string).

#[global] Instance number_eq_dec : EqDecision number.
Proof. solve_decision. Defined.

#[global] Instance value_eq_dec : EqDecision value.
Proof. solve_decision. Defined.

(** ToBoolean. *)
Definition truthy (v : value) : bool :=
  match v with
  | VUndefined | VNull => false
  | VBool b => b
  | VNum z => negb (z =? 0)
  | VStr s => negb (bool_decide (s = ""))
  end.

(** Destructuring default: [{ x = d } = body] uses [d] only for an
    absent field. *)
Definition default_to (d : value) (v : value) : value :=
  match v with
  | VUndefined => d
  | _ => v
  end.

(** [a || d] on a query-string parameter. *)
Definition or_str (a : option string) (d : string) : string :=
  match a with
  | Some s => if bool_decide (s = "") then d else s
  | None => d
  end.

Definition code (c : ascii) : nat := nat_of_ascii c.

Definition is_upper (c : ascii) : bool :=
  (65 <=? code c)%nat && (code c <=? 90)%nat.

Definition is_lower (c : ascii) : bool :=
  (97 <=? code c)%nat && (code c <=? 122)%nat.

Definition is_digit (c : ascii) : bool :=
  (48 <=? code c)%nat && (code c <=? 57)%nat.

(** White space and line terminators (TAB, LF, VT, FF, CR, SP). *)
Definition is_white (c : ascii) : bool :=
  ((9 <=? code c)%nat && (code c <=? 13)%nat) || (code c =? 32)%nat.

Definition lower_char (c : ascii) : ascii :=
  if is_upper c then ascii_of_nat (code c + 32) else c.

Definition upper_char (c : ascii) : ascii :=
  if is_lower c then ascii_of_nat (code c - 32) else c.

(** String.prototype.toLowerCase *)
Fixpoint toLowerCase (s : string) : string :=
  match s with
  | EmptyString => EmptyString
  | String c s' => String (lower_char c) (toLowerCase s')
  end.

Fixpoint trimStart (s : string) : string :=
  match s with
  | EmptyString => EmptyString
  | String c s' => if is_white c then trimStart s' else s
  end.

Fixpoint trimEnd (s : string) : string :=
  match s with
  | EmptyString => EmptyString
  | String c s' =>
      match trimEnd s' with
      | EmptyString => if is_white c then EmptyString else String c EmptyString
      | t => String c t
      end
  end.

(** String.prototype.trim *)
Definition trim (s : string) : string := trimEnd (trimStart s).

Definition digit_val (c : ascii) : Z := Z.of_nat (code c - 48).

(** The longest prefix of decimal digits, folded into its value;
    [None] when there is no digit. *)
Fixpoint digits_from (acc : option Z) (s : string) : option Z :=
  match s with
  | EmptyString => acc
  | String c s' =>
      if is_digit c
      then digits_from (Some (10 * default 0 acc + digit_val c)) s'
      else acc
  end.

(** [parseInt(s, 10)]: skip leading white space, read an optional sign,
    then the longest run of decimal digits; [NaN] without a digit. *)
Definition parseInt (s : string) : number :=
  let t := trimStart s in
  let '(sign, u) :=
    match t with
    | String "-"%char u => (-1, u)
    | String "+"%char u => (1, u)
    | _ => (1, t)
    end in
  match digits_from None u with
  | Some n => Num (sign * n)
  | None => NaN
  end.

(** [Math.max] and [Math.min] of two arguments: [NaN] if either is. *)
Definition Math_max (a b : number) : number :=
  match a, b with
  | Num x, Num y => Num (Z.max x y)
  | _, _ => NaN
  end.

Definition Math_min (a b : number) : number :=
  match a, b with
  | Num x, Num y => Num (Z.min x y)
  | _, _ => NaN
  end.

(** StringToNumber on the integer literals: optional white space around
    an optionally signed run of decimal digits; the empty or blank string
    is 0. Other spellings (fractions, exponents, hexadecimal, Infinity)
    denote numbers outside [Z] and are not covered: they read as [NaN]. *)
Fixpoint all_digits (s : string) : bool :=
  match s with
  | EmptyString => true
  | String c s' => is_digit c && all_digits s'
  end.

Definition unsigned_literal (s : string) : number :=
  match s with
  | EmptyString => NaN
  | _ => if all_digits s
         then match digits_from None s with Some n => Num n | None => NaN end
         else NaN
  end.

Definition StringToNumber (s : string) : number :=
  match trim s with
  | EmptyString => Num 0
  | String "-"%char u => match unsigned_literal u with Num n => Num (- n) | NaN => NaN end
  | String "+"%char u => unsigned_literal u
  | t => unsigned_literal t
  end.

(** TimeClip: a time value is a number of milliseconds of magnitude at
    most 8.64e15. *)
Definition TimeClip (n : Z) : number :=
  if Z.abs n <=? 8640000000000000 then Num n else NaN.

End JS.

Import JS.

(** ** Regular expressions

    The handlers build their search filter with [new RegExp(pattern, "i")].
    The pattern language is modelled on the fragment made of literal
    characters, escaped syntax characters, [.], the quantifiers [*], [+],
    [?], alternation and groups; a pattern outside the fragment, or one
    that is a syntax error, has no regular expression ([None]). *)

Module RegExp.

(** SyntaxCharacter of the pattern grammar: ^ $ \ . * + ? ( ) [ ] { } | *)
Definition syntax_chars : list ascii :=
  ["^"; "$"; "\"; "."; "*"; "+"; "?"; "("; ")"; "["; "]"; "{"; "}"; "|"]%char.

Definition is_syntax (c : ascii) : bool := bool_decide (c ∈ syntax_chars).

Inductive token : Type :=
| TLit (c : ascii)     (* a character that stands for itself *)
| TSyn (c : ascii).    (* an unescaped syntax character *)

(** Lexing: a backslash followed by a syntax character is that character
    taken literally (IdentityEscape); other escapes are not modelled. *)
Fixpoint tokens (p : string) : option (list token) :=
  match p with
  | EmptyString => Some []
  | String c p' =>
      if bool_decide (c = "\"%char)
      then match p' with
           | EmptyString => None
           | String e p'' =>
               if is_syntax e then cons (TLit e) <$> tokens p'' else None
           end
      else cons (if is_syntax c then TSyn c else TLit c) <$> tokens p'
  end.

Inductive regex : Type :=
| Void
| Eps
| Lit (c : ascii)
| Any
| Cat (r1 r2 : regex)
| Alt (r1 r2 : regex)
| Star (r : regex).

(** Disjunction := Alternative ('|' Disjunction)?
    Alternative := Term*
    Term        := Atom ('*' | '+' | '?')?
    Atom        := literal | '.' | '(' Disjunction ')' *)
Fixpoint parse_alt (fuel : nat) (ts : list token) : option (regex * list token) :=
  match fuel with
  | O => None
  | S fuel =>
      match parse_seq fuel ts with
      | Some (r, TSyn "|"%char :: ts') =>
          match parse_alt fuel ts' with
          | Some (r', ts'') => Some (Alt r r', ts'')
          | None => None
          end
      | other => other
      end
  end
with parse_seq (fuel : nat) (ts : list token) : option (regex * list token) :=
  match fuel with
  | O => None
  | S fuel =>
      match ts with
      | [] => Some (Eps, [])
      | TSyn "|"%char :: _ => Some (Eps, ts)
      | TSyn ")"%char :: _ => Some (Eps, ts)
      | _ =>
          match parse_term fuel ts with
          | Some (r, ts') =>
              match parse_seq fuel ts' with
              | Some (r', ts'') => Some (Cat r r', ts'')
              | None => None
              end
          | None => None
          end
      end
  end
with parse_term (fuel : nat) (ts : list token) : option (regex * list token) :=
  match fuel with
  | O => None
  | S fuel =>
      match parse_atom fuel ts with
      | Some (r, TSyn "*"%char :: ts') => Some (Star r, ts')
      | Some (r, TSyn "+"%char :: ts') => Some (Cat r (Star r), ts')
      | Some (r, TSyn "?"%char :: ts') => Some (Alt r Eps, ts')
      | other => other
      end
  end
with parse_atom (fuel : nat) (ts : list token) : option (regex * list token) :=
  match fuel with
  | O => None
  | S fuel =>
      match ts with
      | TLit c :: ts' => Some (Lit c, ts')
      | TSyn "."%char :: ts' => Some (Any, ts')
      | TSyn "("%char :: ts' =>
          match parse_alt fuel ts' with
          | Some (r, TSyn ")"%char :: ts'') => Some (r, ts'')
          | _ => None
          end
      | _ => None
      end
  end.

Definition parse (ts : list token) : option regex :=
  match parse_alt (4 * length ts + 4) ts with
  | Some (r, []) => Some r
  | _ => None
  end.

(** A compiled expression: its syntax tree and the [i] flag. *)
Record regexp : Type := { source : regex; ignoreCase : bool }.

(** [new RegExp(pattern, flags)] with [flags] either empty or ["i"]. *)
Definition RegExp_new (pattern : string) (i : bool) : option regexp :=
  ts ← tokens pattern;
  r ← parse ts;
  Some {| source := r; ignoreCase := i |}.

(** Canonicalize: with the [i] flag characters are compared after
    upper-casing. *)
Definition canonicalize (i : bool) (c : ascii) : ascii :=
  if i then upper_char c else c.

Definition same_char (i : bool) (c a : ascii) : bool :=
  bool_decide (canonicalize i c = canonicalize i a).

Definition is_line_terminator (c : ascii) : bool :=
  (code c =? 10)%nat || (code c =? 13)%nat.

Fixpoint nullable (r : regex) : bool :=
  match r with
  | Void | Lit _ | Any => false
  | Eps | Star _ => true
  | Cat r1 r2 => nullable r1 && nullable r2
  | Alt r1 r2 => nullable r1 || nullable r2
  end.

(** What remains of [r] to be matched after reading [a]. *)
Fixpoint deriv (i : bool) (a : ascii) (r : regex) : regex :=
  match r with
  | Void | Eps => Void
  | Lit c => if same_char i c a then Eps else Void
  | Any => if is_line_terminator a then Void else Eps
  | Cat r1 r2 =>
      Alt (Cat (deriv i a r1) r2) (if nullable r1 then deriv i a r2 else Void)
  | Alt r1 r2 => Alt (deriv i a r1) (deriv i a r2)
  | Star r1 => Cat (deriv i a r1) (Star r1)
  end.

(** Some prefix of [s] is matched by [r]. *)
Fixpoint matches_prefix (i : bool) (r : regex) (s : list ascii) : bool :=
  nullable r ||
  match s with
  | [] => false
  | a :: s' => matches_prefix i (deriv i a r) s'
  end.

(** Some substring of [s] is matched by [r]: an unanchored search. *)
Fixpoint search (i : bool) (r : regex) (s : list ascii) : bool :=
  matches_prefix i r s ||
  match s with
  | [] => false
  | _ :: s' => search i r s'
  end.

(** [re.test(text)], which is also how the store applies a regular
    expression to a string field. *)
Definition test (re : regexp) (text : string) : bool :=
  search (ignoreCase re) (source re) (String.list_ascii_of_string text).

(** [q.replace(/[.*+?^${}()|[\]\\]/g, "\\$&")]: every character of the
    class is replaced by a backslash followed by itself. *)
Definition escape_class : list ascii :=
  ["."; "*"; "+"; "?"; "^"; "$"; "{"; "}"; "("; ")"; "|"; "["; "]"; "\"]%char.

Fixpoint escapeRegExp (q : string) : string :=
  match q with
  | EmptyString => EmptyString
  | String c q' =>
      if bool_decide (c ∈ escape_class)
      then String "\"%char (String c (escapeRegExp q'))
      else String c (escapeRegExp q')
  end.

(** The literal expression for a sequence of characters. *)
Fixpoint literal (cs : list ascii) : regex :=
  match cs with
  | [] => Eps
  | c :: cs' => Cat (Lit c) (literal cs')
  end.




End RegExp.

(** ** Documents, plain objects and the host *)

(** A property of a plain object as it is serialised in a response. *)
Inductive prop : Type :=
| PNull
| PStr (s : string)
| PBool (b : bool)
| PNum (n : Z)
| PDate (t : Z)
| POid (id : string).

(** A plain JavaScript object. *)
Abbreviation obj := (gmap string prop).

Definition nullable_date (d : option Z) : prop :=
  match d with
  | Some t => PDate t
  | None => PNull
  end.

(** models/User.js *)
Module User.

Inductive Role : Type := member | admin.

#[global] Instance Role_eq_dec : EqDecision Role.
Proof. solve_decision. Defined.

Definition role_name (r : Role) : string :=
  match r with
  | member => "member"
  | admin => "admin"
  end.

Record doc : Type := {
  _id : string;
  firstName : string;
  lastName : string;
  username : string;
  email : string;
  phone : string;
  country : string;
  passwordHash : string;
  dob : string;
  gender : string;
  role : Role;
  isBanned : bool;
  banReason : string;
  bannedUntil : option Z;
  createdAt : Z;
  updatedAt : Z
}.

(** The schema's setters: [trim], and [lowercase] for the email. They
    run on the values of a new document, of an update and of a query. *)
Definition set_trimmed (s : string) : string := trim s.
Definition set_email (s : string) : string := trim (toLowerCase s).

(** [required: true] on a String path. *)
Definition required (s : string) : bool := negb (bool_decide (s = "")).

Definition validate (u : doc) : bool :=
  required (firstName u) && required (lastName u) && required (username u) &&
  required (email u) && required (phone u) && required (country u) &&
  required (passwordHash u) && required (dob u) && required (gender u).

(** [doc.toObject()] and a [lean()] result: the stored fields. *)
Definition toObject (u : doc) : obj :=
  list_to_map [
    ("_id", POid (_id u));
    ("firstName", PStr (firstName u));
    ("lastName", PStr (lastName u));
    ("username", PStr (username u));
    ("email", PStr (email u));
    ("phone", PStr (phone u));
    ("country", PStr (country u));
    ("passwordHash", PStr (passwordHash u));
    ("dob", PStr (dob u));
    ("gender", PStr (gender u));
    ("role", PStr (role_name (role u)));
    ("isBanned", PBool (isBanned u));
    ("banReason", PStr (banReason u));
    ("bannedUntil", nullable_date (bannedUntil u));
    ("createdAt", PDate (createdAt u));
    ("updatedAt", PDate (updatedAt u));
    ("__v", PNum 0)
  ].

(** The projection of [populate("user", "firstName lastName email username")]. *)
Definition public (u : doc) : obj :=
  list_to_map [
    ("_id", POid (_id u));
    ("firstName", PStr (firstName u));
    ("lastName", PStr (lastName u));
    ("email", PStr (email u));
    ("username", PStr (username u))
  ].

End User.

(** models/Booking.js *)
Module Booking.

Inductive Type_ : Type := appointment | session | callback.

Inductive Status : Type := pending | approved | cancelled | rescheduled.

#[global] Instance Type_eq_dec : EqDecision Type_.
Proof. solve_decision. Defined.

#[global] Instance Status_eq_dec : EqDecision Status.
Proof. solve_decision. Defined.

Definition status_name (s : Status) : string :=
  match s with
  | pending => "pending"
  | approved => "approved"
  | cancelled => "cancelled"
  | rescheduled => "rescheduled"
  end.

(** A String path that is not required holds a string or null; a Date
    path holds a valid time value or null. *)
Record doc : Type := {
  _id : string;
  user : string;
  type : Type_;
  duration : Z;
  platform : string;
  platformDetails : option string;
  scheduledAt : Z;
  status : Status;
  notes : option string;
  adminNote : option string;
  rescheduledTo : option Z;
  createdAt : Z;
  updatedAt : Z
}.

#[global] Instance doc_eq_dec : EqDecision doc.
Proof. solve_decision. Defined.

(** The [enum] validator of [type], after the cast to String. *)
Definition type_of_string (s : string) : option Type_ :=
  if bool_decide (s = "appointment") then Some appointment
  else if bool_decide (s = "session") then Some session
  else if bool_decide (s = "callback") then Some callback
  else None.

End Booking.

(** The collections. *)
Abbreviation users := (gmap string User.doc).
Abbreviation bookings := (gmap string Booking.doc).

(** What a failed store call throws. *)
Inductive thrown : Type :=
| CastError
| ValidationError
| DuplicateKey (key : string).

(** The decoded token: [{ id, email, username, role }]; a claim may be
    absent from a token signed elsewhere with the same secret. *)
Record payload : Type := {
  id : option string;
  p_email : option string;
  p_username : option string;
  p_role : option string
}.

(** The host: jsonwebtoken with the configured secret and expiry, bcrypt
    with the configured rounds, Date parsing and printing, the syntax of
    ObjectIds, and the database's reading of a [skip] or a [limit] that
    is not a number. [jwt_verify] is [None] when verification throws.

    [castObjectId i] is the hexadecimal form of the ObjectId that the
    valid id [i] is cast to. A document is stored under that form of its
    id, and an id can be spelled in more than one way: Mongoose casts the
    id of a path, [req.params.id], before it looks the document up.

    [skip_NaN] is the number of documents the database skips when [skip]
    is [NaN], and [limit_NaN] the number it lets through when [limit] is
    [NaN] ([None]: all of them). *)
Class Host : Type := {
  jwt_sign : payload → string;
  jwt_verify : string → option payload;
  bcrypt_hash : string → string;
  bcrypt_compare : string → string → bool;
  Date_parse : string → number;
  toISOString : Z → string;
  ObjectId_isValid : string → bool;
  castObjectId : string → string;
  skip_NaN : nat;
  limit_NaN : option nat
}.

(** ** Casts of Mongoose and conversions of the language *)

(** Number.prototype.toString for an integer. *)
Definition Number_toString (n : Z) : string :=
  NilZero.string_of_int (Z.to_int n).

(** The cast of a String path: [null] stays [null], an absent value takes
    the schema default, other scalars are printed. *)
Definition castString (dflt : option string) (v : value) : option string :=
  match v with
  | VUndefined => dflt
  | VNull => None
  | VBool b => Some (if b then "true" else "false")
  | VNum n => Some (Number_toString n)
  | VStr s => Some s
  end.

(** The cast of a Number path ([castNumber]): the empty string and null
    give null ([inr None]), strings and booleans go through [Number(..)],
    and a value that is not a number is a CastError. *)
Definition castNumber (v : value) : thrown + option Z :=
  match v with
  | VUndefined | VNull => inr None
  | VNum n => inr (Some n)
  | VBool b => inr (Some (if b then 1 else 0))
  | VStr s =>
      if bool_decide (s = "") then inr None
      else match StringToNumber s with
           | Num n => inr (Some n)
           | NaN => inl CastError
           end
  end.

Section Dates.
Context `{Host}.

(** [new Date(v).getTime()] for a scalar [v]: a string is parsed, other
    values are converted to a number and clipped. *)
Definition new_Date (v : value) : number :=
  match v with
  | VStr s => Date_parse s
  | VNum n => TimeClip n
  | VBool b => Num (if b then 1 else 0)
  | VNull => Num 0
  | VUndefined => NaN
  end.

End Dates.

(** ** Store operations *)

Section Store.
Context {D : Type}.

(** [Model.findById(id)] for the hexadecimal form of a well-formed id. *)
Definition findById (c : gmap string D) (i : string) : option D := c !! i.

(** [Model.findOne(filter)]: the first document that satisfies it. *)
Definition findOne (P : D → Prop) `{!∀ d, Decision (P d)}
    (c : gmap string D) : option D :=
  (λ x, x.2.2) <$> list_find (λ kv, P kv.2) (map_to_list c).

(** [Model.find(filter)] and [Model.countDocuments(filter)]. *)
Definition find (P : D → bool) (c : gmap string D) : list D :=
  filter (λ d, Is_true (P d)) ((map_to_list c).*2).

Definition countDocuments (P : D → bool) (c : gmap string D) : nat :=
  length (find P c).

End Store.

(** ** Responses *)

(** [meta] of a listing. *)
Module Meta.
Record t : Type := {
  page : number;
  limit : number;
  total : Z;
  pages : number
}.
End Meta.

(** The JSON bodies the handlers send. *)
Inductive body : Type :=
| Message (message : string)
| BanNotice (message : string) (reason : string) (until : option string)
| UserBody (message : option string) (user : option obj)
| LoginBody (message : string) (token : string) (user : option obj)
| BookingBody (message : string) (booking : Booking.doc) (populated : option obj)
| BookingPage (page_of_bookings : list (Booking.doc * option obj)) (meta : Meta.t)
| UserPage (page_of_users : list obj) (meta : Meta.t)
| BanState (message : string) (target : string) (isBanned : bool)
    (banReason : string) (bannedUntil : option Z)
| RoleState (message : string) (target : string) (role : User.Role).

Record response : Type := { status : Z; json : body }.

(** [res.status(code).json({ message })] *)
Definition fail (code : Z) (message : string) : response :=
  {| status := code; json := Message message |}.

(** [res.json(b)]: status 200. *)
Definition ok (b : body) : response := {| status := 200; json := b |}.

(** The user object of a response, if it carries one. *)
Definition user_of (r : response) : option obj :=
  match json r with
  | UserBody _ u | LoginBody _ _ u => u
  | _ => None
  end.

Definition token_of (r : response) : option string :=
  match json r with
  | LoginBody _ t _ => Some t
  | _ => None
  end.

(** ** middleware/auth.js and middleware/adminAuth.js *)

Module Middleware.
Section Guards.
Context `{Host}.

Fixpoint one_line (s : string) : bool :=
  match s with
  | EmptyString => true
  | String c s' => negb (RegExp.is_line_terminator c) && one_line s'
  end.

(** [header.match(/^Bearer (.+)$/)]: the captured group. *)
Definition bearer (header : string) : option string :=
  match header with
  | String "B" (String "e" (String "a" (String "r" (String "e" (String "r"
      (String " " t)))))) =>
      if negb (bool_decide (t = "")) && one_line t then Some t else None
  | _ => None
  end.

(** The outcome of a guard: a response, or [next()] with what the guard
    attached to the request ([req.user], and [req.userDoc] for the admin
    guard). *)
Inductive outcome : Type :=
| Rejected (r : response)
| Next (user : payload) (userDoc : option User.doc).

Definition auth (authorization : option string) : outcome :=
  match bearer (or_str authorization "") with
  | None => Rejected (fail 401 "Unauthorized")
  | Some token =>
      match jwt_verify token with
      | Some p => Next p None
      | None => Rejected (fail 401 "Invalid or expired token")
      end
  end.

(** [!payload?.id] *)
Definition claimed_id (p : payload) : option string :=
  match id p with
  | Some i => if bool_decide (i = "") then None else Some i
  | None => None
  end.

Definition adminAuth (authorization : option string) (us : users) : outcome :=
  match bearer (or_str authorization "") with
  | None => Rejected (fail 401 "Unauthorized")
  | Some token =>
      match jwt_verify token with
      | None => Rejected (fail 401 "Invalid or expired token")
      | Some p =>
          match claimed_id p with
          | None => Rejected (fail 401 "Unauthorized")
          | Some i =>
              (* [User.findById] throws a CastError on a malformed id,
                 which the same [catch] turns into 401 *)
              if negb (ObjectId_isValid i)
              then Rejected (fail 401 "Invalid or expired token")
              else
                match findById us i with
                | None => Rejected (fail 401 "Unauthorized")
                | Some u =>
                    if bool_decide (User.role u ≠ User.admin)
                    then Rejected (fail 403 "Forbidden: admin only")
                    else Next p (Some u)
                end
          end
      end
  end.

End Guards.
End Middleware.

(** ** Writes to the users collection *)

Section UserWrites.

(** The unique indexes on [email] and [username], and the key [_id]. *)
Definition violates (us : users) (u : User.doc) : option thrown :=
  if bool_decide (is_Some
       (findOne (λ d, User.email d = User.email u ∧ User._id d ≠ User._id u) us))
  then Some (DuplicateKey "email")
  else if bool_decide (is_Some
       (findOne (λ d, User.username d = User.username u ∧ User._id d ≠ User._id u) us))
  then Some (DuplicateKey "username")
  else None.

(** [new User(..).save()] *)
Definition insertUser (us : users) (u : User.doc) : thrown + users :=
  if negb (User.validate u) then inl ValidationError
  else if bool_decide (is_Some (us !! User._id u)) then inl (DuplicateKey "_id")
  else match violates us u with
       | Some e => inl e
       | None => inr (<[User._id u := u]> us)
       end.

(** [User.findByIdAndUpdate(id, update, { new: true })] for the
    hexadecimal form of a well-formed id: the updated document, or null when there is none. [valid] is the
    check of the update validators ([runValidators]); without that option
    it is [λ _, true]. *)
Definition findByIdAndUpdate (valid : User.doc → bool) (us : users) (i : string)
    (update : User.doc → User.doc) : thrown + (option User.doc * users) :=
  match us !! i with
  | None => inr (None, us)
  | Some u =>
      let u' := update u in
      if negb (valid u') then inl ValidationError
      else match violates us u' with
           | Some e => inl e
           | None => inr (Some u', <[i := u']> us)
           end
  end.

(** [User.findByIdAndDelete(id)] for the hexadecimal form of a
    well-formed id. *)
Definition findByIdAndDelete (us : users) (i : string) : option User.doc * users :=
  (us !! i, delete i us).

End UserWrites.

(** ** routes/auth.routes.js *)

Module AuthRoutes.
Section Handlers.
Context `{Host}.

Definition sanitizeUser (userDoc : option User.doc) : option obj :=
  match userDoc with
  | None => None
  | Some d => Some (delete "passwordHash" (User.toObject d))
  end.

(** The body of a registration; a field is a string or absent. *)
Record registration : Type := {
  r_firstName : option string;
  r_lastName : option string;
  r_username : option string;
  r_email : option string;
  r_phone : option string;
  r_country : option string;
  r_password : option string;
  r_dob : option string;
  r_gender : option string
}.

Definition empty (s : string) : bool := bool_decide (s = "").

(** POST /api/users/register. [oid] is the ObjectId given to the new
    document and [now] the time of the save. *)
Definition register (b : registration) (oid : string) (now : Z) (us : users)
    : response * users :=
  let firstName := default "" (r_firstName b) in
  let lastName := default "" (r_lastName b) in
  let username := default "" (r_username b) in
  let email := default "" (r_email b) in
  let phone := default "" (r_phone b) in
  let country := default "" (r_country b) in
  let password := default "" (r_password b) in
  let dob := default "" (r_dob b) in
  let gender := default "" (r_gender b) in
  if empty firstName || empty lastName || empty username || empty email ||
     empty phone || empty country || empty password || empty dob || empty gender
  then (fail 400 "Missing required fields.", us)
  else if Z.of_nat (String.length password) <? 8
  then (fail 400 "Password must be at least 8 characters.", us)
  else if bool_decide (is_Some
       (findOne (λ d, User.email d = User.set_email (toLowerCase email)) us))
  then (fail 409 "Email already registered.", us)
  else if bool_decide (is_Some
       (findOne (λ d, User.username d = User.set_trimmed username) us))
  then (fail 409 "Username already taken.", us)
  else
    let passwordHash := bcrypt_hash password in
    let newUser := {|
      User._id := oid;
      User.firstName := User.set_trimmed firstName;
      User.lastName := User.set_trimmed lastName;
      User.username := User.set_trimmed username;
      User.email := User.set_email (toLowerCase email);
      User.phone := User.set_trimmed phone;
      User.country := User.set_trimmed country;
      User.passwordHash := passwordHash;
      User.dob := dob;
      User.gender := gender;
      User.role := User.member;
      User.isBanned := false;
      User.banReason := "";
      User.bannedUntil := None;
      User.createdAt := now;
      User.updatedAt := now |} in
    match insertUser us newUser with
    | inr us' =>
        ({| status := 201;
            json := UserBody (Some "Account created.") (sanitizeUser (Some newUser)) |},
         us')
    | inl (DuplicateKey key) => (fail 409 (key +:+ " already exists."), us)
    | inl _ => (fail 500 "Server error during signup.", us)
    end.

(** POST /api/users/login: the handler registered first, which answers
    every request (the second registration of the same path is never
    reached). *)
Definition login (email password : option string) (us : users) : response :=
  let email := default "" email in
  let password := default "" password in
  if empty email || empty password
  then fail 400 "Email and password required."
  else
    let normalizedEmail := trim (toLowerCase email) in
    match findOne (λ d, User.email d = User.set_email normalizedEmail) us with
    | None => fail 401 "Invalid credentials."
    | Some user =>
        if User.isBanned user then
          let until := toISOString <$> User.bannedUntil user in
          {| status := 403;
             json := BanNotice "Account is banned."
                       (if empty (User.banReason user) then "No reason provided"
                        else User.banReason user)
                       until |}
        else if negb (bcrypt_compare password (User.passwordHash user))
        then fail 401 "Invalid credentials."
        else
          let token := jwt_sign {|
            id := Some (User._id user);
            p_email := Some (User.email user);
            p_username := Some (User.username user);
            p_role := Some (User.role_name (User.role user)) |} in
          ok (LoginBody "Login successful." token (sanitizeUser (Some user)))
    end.

(** GET /api/users/me, behind [auth]. *)
Definition me (req_user : payload) (us : users) : response :=
  match Middleware.claimed_id req_user with
  | None => fail 401 "Unauthorized"
  | Some userId =>
      if negb (ObjectId_isValid userId) then fail 500 "Server error"
      else match findById us userId with
           | None => fail 404 "User not found"
           | Some user => ok (UserBody None (sanitizeUser (Some user)))
           end
  end.

(** The fields of the allow-list found in the body of PUT /me; each is a
    string or absent. *)
Record updates : Type := {
  u_firstName : option string;
  u_lastName : option string;
  u_username : option string;
  u_email : option string;
  u_phone : option string;
  u_country : option string;
  u_dob : option string;
  u_gender : option string
}.

Definition given (o : option string) : bool :=
  match o with
  | Some s => negb (empty s)
  | None => false
  end.

(** The update applied to the stored document, with the schema's setters,
    and the new [updatedAt]. *)
Definition apply_updates (up : updates) (now : Z) (u : User.doc) : User.doc := {|
  User._id := User._id u;
  User.firstName := from_option User.set_trimmed (User.firstName u) (u_firstName up);
  User.lastName := from_option User.set_trimmed (User.lastName u) (u_lastName up);
  User.username := from_option User.set_trimmed (User.username u) (u_username up);
  User.email := from_option User.set_email (User.email u) (u_email up);
  User.phone := from_option User.set_trimmed (User.phone u) (u_phone up);
  User.country := from_option User.set_trimmed (User.country u) (u_country up);
  User.passwordHash := User.passwordHash u;
  User.dob := default (User.dob u) (u_dob up);
  User.gender := default (User.gender u) (u_gender up);
  User.role := User.role u;
  User.isBanned := User.isBanned u;
  User.banReason := User.banReason u;
  User.bannedUntil := User.bannedUntil u;
  User.createdAt := User.createdAt u;
  User.updatedAt := now |}.

(** The update validators ([runValidators]) check the paths that are set. *)
Definition validate_update (up : updates) (u : User.doc) : bool :=
  (bool_decide (u_firstName up = None) || User.required (User.firstName u)) &&
  (bool_decide (u_lastName up = None) || User.required (User.lastName u)) &&
  (bool_decide (u_username up = None) || User.required (User.username u)) &&
  (bool_decide (u_email up = None) || User.required (User.email u)) &&
  (bool_decide (u_phone up = None) || User.required (User.phone u)) &&
  (bool_decide (u_country up = None) || User.required (User.country u)) &&
  (bool_decide (u_dob up = None) || User.required (User.dob u)) &&
  (bool_decide (u_gender up = None) || User.required (User.gender u)).

(** PUT /api/users/me, behind [auth]. A malformed [userId] makes the
    first store call throw, whichever it is. *)
Definition updateSelf (req_user : payload) (up : updates) (now : Z) (us : users)
    : response * users :=
  match Middleware.claimed_id req_user with
  | None => (fail 401 "Unauthorized", us)
  | Some userId =>
      if negb (ObjectId_isValid userId) then (fail 500 "Server error", us)
      else if given (u_email up) &&
         bool_decide (is_Some (findOne
           (λ d, User.email d = User.set_email (toLowerCase (default "" (u_email up)))
                 ∧ User._id d ≠ userId) us))
      then (fail 409 "Email already in use.", us)
      else if given (u_username up) &&
         bool_decide (is_Some (findOne
           (λ d, User.username d = User.set_trimmed (default "" (u_username up))
                 ∧ User._id d ≠ userId) us))
      then (fail 409 "Username already in use.", us)
      else
        match findByIdAndUpdate (validate_update up) us userId (apply_updates up now) with
        | inl _ => (fail 500 "Server error", us)
        | inr (None, _) => (fail 404 "User not found", us)
        | inr (Some user, us') =>
            (ok (UserBody (Some "Profile updated") (sanitizeUser (Some user))), us')
        end
  end.

End Handlers.
End AuthRoutes.

(** ** Listings *)

(** The query string of a listing: each parameter is a string or absent. *)
Record query : Type := {
  q_q : option string;
  q_page : option string;
  q_limit : option string;
  q_status : option string
}.

(** [(page - 1) * limit] *)
Definition skip_of (page limit : number) : number :=
  match page, limit with
  | Num p, Num l => Num ((p - 1) * l)
  | _, _ => NaN
  end.

(** [Math.ceil(count / limit)] for a positive [limit]. *)
Definition ceil_div (count limit : Z) : Z := - ((- count) / limit).

(** [Math.ceil(count / limit)] for the [limit] of a listing, which is
    [NaN] or at least 5. *)
Definition pages_of (count : Z) (limit : number) : number :=
  match limit with
  | Num l => Num (ceil_div count l)
  | NaN => NaN
  end.

(** The order of [.sort({ createdAt: -1 })]. *)
Definition newest_first {D : Type} (createdAt : D → Z) (a b : D) : Prop :=
  createdAt b ≤ createdAt a.

#[global] Instance newest_first_dec {D : Type} (createdAt : D → Z) :
  RelDecision (newest_first createdAt).
Proof. intros a b. unfold newest_first. apply _. Defined.

#[global] Instance newest_first_total {D : Type} (createdAt : D → Z) :
  Total (newest_first createdAt).
Proof. intros a b. unfold newest_first. lia. Qed.

#[global] Instance newest_first_trans {D : Type} (createdAt : D → Z) :
  Transitive (newest_first createdAt).
Proof. intros a b c. unfold newest_first. lia. Qed.

Section Cursor.
Context `{Host} {D : Type}.

(** [.sort({ createdAt: -1 }).skip(skip).limit(limit)]: the two numbers
    go to the database as they are, [NaN] included. *)
Definition page_slice (createdAt : D → Z) (skip limit : number) (l : list D)
    : list D :=
  let sorted := merge_sort (newest_first createdAt) l in
  let rest :=
    drop (match skip with Num sk => Z.to_nat sk | NaN => skip_NaN end) sorted in
  match limit with
  | Num n => take (Z.to_nat n) rest
  | NaN => match limit_NaN with Some n => take n rest | None => rest end
  end.

End Cursor.

Definition matches_field (re : RegExp.regexp) (field : option string) : bool :=
  match field with
  | Some s => RegExp.test re s
  | None => false
  end.


(** ** routes/admin.routes.js *)

Module AdminRoutes.
Section Handlers.
Context `{Host}.

(** What GET /api/admin/users hands to the store. *)
Record plan : Type := {
  page : number;
  limit : number;
  skip : number;
  filter : option RegExp.regexp     (* the expression of [$or], if any *)
}.

(** The head of the handler, up to the store call; [None] when
    [new RegExp] throws. *)
Definition users_plan (query : query) : option plan :=
  let q := trim (or_str (q_q query) "") in
  let page := Math_max (Num 1) (parseInt (or_str (q_page query) "1")) in
  let limit :=
    Math_min (Num 100) (Math_max (Num 5) (parseInt (or_str (q_limit query) "20"))) in
  let skip := skip_of page limit in
  if bool_decide (q = "")
  then Some {| page := page; limit := limit; skip := skip; filter := None |}
  else
    re ← RegExp.RegExp_new (RegExp.escapeRegExp q) true;
    Some {| page := page; limit := limit; skip := skip; filter := Some re |}.

(** [$or] over email, username, firstName, lastName, phone. *)
Definition user_matches (f : option RegExp.regexp) (u : User.doc) : bool :=
  match f with
  | None => true
  | Some re =>
      RegExp.test re (User.email u) || RegExp.test re (User.username u) ||
      RegExp.test re (User.firstName u) || RegExp.test re (User.lastName u) ||
      RegExp.test re (User.phone u)
  end.

(** [users.map((u) => { delete u.passwordHash; return u; })] on the lean
    documents. *)
Definition hide_sensitive (found : list User.doc) : list obj :=
  (λ u, delete "passwordHash" (User.toObject u)) <$> found.

(** GET /api/admin/users. A [page] or a [limit] that is [NaN] goes to
    the database and into [meta] as it is. *)
Definition listUsers (query : query) (us : users) : response :=
  match users_plan query with
  | None => fail 500 "Server error"
  | Some pl =>
      let found :=
        page_slice User.createdAt (skip pl) (limit pl)
          (find (user_matches (filter pl)) us) in
      let count := Z.of_nat (countDocuments (user_matches (filter pl)) us) in
      ok (UserPage (hide_sensitive found)
            {| Meta.page := page pl; Meta.limit := limit pl; Meta.total := count;
               Meta.pages := pages_of count (limit pl) |})
  end.

(** DELETE /api/admin/users/:id; [req_user] is the token payload that
    [adminAuth] attached, and [target] the id as the path spells it. The
    handler compares the two as strings; the store call casts [target]. *)
Definition deleteUser (req_user : payload) (target : string) (us : users)
    : response * users :=
  if negb (ObjectId_isValid target) then (fail 400 "Invalid user id", us)
  else if bool_decide (id req_user = Some target)
  then (fail 400 "Cannot delete your own admin account.", us)
  else
    match findByIdAndDelete us (castObjectId target) with
    | (None, _) => (fail 404 "User not found", us)
    | (Some _, us') => (ok (Message "User deleted."), us')
    end.

(** The ban written by POST /api/admin/users/:id/ban. *)
Definition ban (reason : string) (until : option Z) (now : Z) (u : User.doc)
    : User.doc := {|
  User._id := User._id u;
  User.firstName := User.firstName u;
  User.lastName := User.lastName u;
  User.username := User.username u;
  User.email := User.email u;
  User.phone := User.phone u;
  User.country := User.country u;
  User.passwordHash := User.passwordHash u;
  User.dob := User.dob u;
  User.gender := User.gender u;
  User.role := User.role u;
  User.isBanned := true;
  User.banReason := reason;
  User.bannedUntil := until;
  User.createdAt := User.createdAt u;
  User.updatedAt := now |}.

(** POST /api/admin/users/:id/ban with body [{ reason, until }]. *)
Definition banUser (req_user : payload) (target : string) (reason until : value)
    (now : Z) (us : users) : response * users :=
  if negb (ObjectId_isValid target) then (fail 400 "Invalid user id", us)
  else if bool_decide (id req_user = Some target)
  then (fail 400 "Cannot ban yourself.", us)
  else
    let reason := default_to (VStr "") reason in
    let until := default_to VNull until in
    let bannedUntil := if truthy until then Some (new_Date until) else None in
    (* [reason || "No reason provided"], then the cast of the String path *)
    let banReason :=
      default "No reason provided"
        (castString None (if truthy reason then reason else VStr "No reason provided")) in
    match bannedUntil with
    | Some NaN => (fail 500 "Server error", us)     (* CastError on an invalid Date *)
    | _ =>
        let until_t := match bannedUntil with Some (Num t) => Some t | _ => None end in
        match findByIdAndUpdate (λ _, true) us (castObjectId target)
                (ban banReason until_t now) with
        | inl _ => (fail 500 "Server error", us)
        | inr (None, _) => (fail 404 "User not found", us)
        | inr (Some user, us') =>
            (ok (BanState "User banned." (User._id user) (User.isBanned user)
                   (User.banReason user) (User.bannedUntil user)), us')
        end
    end.

Definition with_role (r : User.Role) (now : Z) (u : User.doc) : User.doc := {|
  User._id := User._id u;
  User.firstName := User.firstName u;
  User.lastName := User.lastName u;
  User.username := User.username u;
  User.email := User.email u;
  User.phone := User.phone u;
  User.country := User.country u;
  User.passwordHash := User.passwordHash u;
  User.dob := User.dob u;
  User.gender := User.gender u;
  User.role := r;
  User.isBanned := User.isBanned u;
  User.banReason := User.banReason u;
  User.bannedUntil := User.bannedUntil u;
  User.createdAt := User.createdAt u;
  User.updatedAt := now |}.

(** [["member", "admin"].includes(role)] *)
Definition role_of_value (v : value) : option User.Role :=
  match v with
  | VStr s =>
      if bool_decide (s = "member") then Some User.member
      else if bool_decide (s = "admin") then Some User.admin
      else None
  | _ => None
  end.

(** PATCH /api/admin/users/:id/role with body [{ role }]. *)
Definition setRole (req_user : payload) (target : string) (role : value)
    (now : Z) (us : users) : response * users :=
  match role_of_value role with
  | None => (fail 400 "Invalid role", us)
  | Some r =>
      if negb (ObjectId_isValid target) then (fail 400 "Invalid user id", us)
      else if bool_decide (id req_user = Some target) && bool_decide (r ≠ User.admin)
      then (fail 400 "Cannot remove admin role from yourself.", us)
      else
        match findByIdAndUpdate (λ _, true) us (castObjectId target)
                (with_role r now) with
        | inl _ => (fail 500 "Server error", us)
        | inr (None, _) => (fail 404 "User not found", us)
        | inr (Some user, us') =>
            (ok (RoleState "Role updated." (User._id user) (User.role user)), us')
        end
  end.

End Handlers.
End AdminRoutes.

(** ** routes/bookings.routes.js *)

Module BookingRoutes.
Section Handlers.
Context `{Host}.

(** The body of POST /api/bookings; each field is a JSON scalar or absent. *)
Record creation : Type := {
  c_type : value;
  c_duration : value;
  c_platform : value;
  c_platformDetails : value;
  c_scheduledAt : value;
  c_notes : value
}.

(** [new Booking({ .. })] followed by the validation of [save()]: the
    casts of the schema, [required] and [enum]. The arguments are the
    values the handler passes to the constructor. *)
Definition build (oid userId : string) (type duration platform platformDetails : value)
    (scheduledAt : Z) (notes : value) (now : Z) : thrown + Booking.doc :=
  match castString None type ≫= Booking.type_of_string with
  | None => inl ValidationError
  | Some ty =>
      match castNumber duration with
      | inl _ | inr None => inl ValidationError
      | inr (Some minutes) =>
          match castString None platform with
          | None => inl ValidationError
          | Some pf =>
              if bool_decide (pf = "") then inl ValidationError
              else inr {|
                Booking._id := oid;
                Booking.user := userId;
                Booking.type := ty;
                Booking.duration := minutes;
                Booking.platform := pf;
                Booking.platformDetails := castString (Some "") platformDetails;
                Booking.scheduledAt := scheduledAt;
                Booking.status := Booking.pending;
                Booking.notes := castString (Some "") notes;
                Booking.adminNote := Some "";
                Booking.rescheduledTo := None;
                Booking.createdAt := now;
                Booking.updatedAt := now |}
          end
      end
  end.

(** POST /api/bookings, behind [auth]. [oid] is the ObjectId given to the
    new document and [now] the time of the save. *)
Definition create (req_user : payload) (b : creation) (oid : string) (now : Z)
    (bs : bookings) : response * bookings :=
  match Middleware.claimed_id req_user with
  | None => (fail 401 "Unauthorized", bs)
  | Some userId =>
      let type := c_type b in
      let duration := c_duration b in
      let platform := c_platform b in
      let platformDetails := default_to (VStr "") (c_platformDetails b) in
      let scheduledAt := c_scheduledAt b in
      let notes := default_to (VStr "") (c_notes b) in
      if negb (truthy type) || negb (truthy duration) || negb (truthy platform) ||
         negb (truthy scheduledAt)
      then (fail 400 "Missing required fields.", bs)
      else
        match new_Date scheduledAt with
        | NaN => (fail 400 "Invalid scheduledAt date.", bs)
        | Num scheduledDate =>
            (* [mongoose.Types.ObjectId(userId)] throws on a malformed id *)
            if negb (ObjectId_isValid userId)
            then (fail 500 "Server error creating booking", bs)
            else
              match build oid userId type duration platform platformDetails
                      scheduledDate notes now with
              | inl _ => (fail 500 "Server error creating booking", bs)
              | inr booking =>
                  if bool_decide (is_Some (bs !! oid))
                  then (fail 500 "Server error creating booking", bs)
                  else ({| status := 201;
                           json := BookingBody "Booking created" booking None |},
                        <[oid := booking]> bs)
              end
        end
  end.

(** The filter of GET /api/admin/bookings. *)
Record filter : Type := {
  f_status : option string;
  f_or : option RegExp.regexp
}.

Record plan : Type := {
  page : number;
  limit : number;
  skip : number;
  conditions : filter
}.

(** The head of the admin listing, up to the store call; [None] when
    [new RegExp] throws. *)
Definition bookings_plan (query : query) : option plan :=
  let q := trim (or_str (q_q query) "") in
  let page := Math_max (Num 1) (parseInt (or_str (q_page query) "1")) in
  let limit :=
    Math_min (Num 100) (Math_max (Num 5) (parseInt (or_str (q_limit query) "50"))) in
  let skip := skip_of page limit in
  let status :=
    match q_status query with
    | Some s => if bool_decide (s = "") then None else Some s
    | None => None
    end in
  if bool_decide (q = "")
  then Some {| page := page; limit := limit; skip := skip;
               conditions := {| f_status := status; f_or := None |} |}
  else
    re ← RegExp.RegExp_new (RegExp.escapeRegExp q) true;
    Some {| page := page; limit := limit; skip := skip;
            conditions := {| f_status := status; f_or := Some re |} |}.

(** A booking satisfies the filter: [status] equal to the requested one,
    and [$or] over notes, platformDetails, platform. *)
Definition booking_matches (f : filter) (b : Booking.doc) : bool :=
  match f_status f with
  | None => true
  | Some s => bool_decide (Booking.status_name (Booking.status b) = s)
  end &&
  match f_or f with
  | None => true
  | Some re =>
      matches_field re (Booking.notes b) ||
      matches_field re (Booking.platformDetails b) ||
      RegExp.test re (Booking.platform b)
  end.

(** [populate("user", "firstName lastName email username")] *)
Definition populate (us : users) (b : Booking.doc) : option obj :=
  User.public <$> us !! Booking.user b.

(** GET /api/admin/bookings, behind [adminAuth]. A [page] or a [limit]
    that is [NaN] goes to the database and into [meta] as it is. *)
Definition adminList (query : query) (us : users) (bs : bookings) : response :=
  match bookings_plan query with
  | None => fail 500 "Server error"
  | Some pl =>
      let found :=
        page_slice Booking.createdAt (skip pl) (limit pl)
          (find (booking_matches (conditions pl)) bs) in
      let count := Z.of_nat (countDocuments (booking_matches (conditions pl)) bs) in
      ok (BookingPage ((λ b, (b, populate us b)) <$> found)
            {| Meta.page := page pl; Meta.limit := limit pl; Meta.total := count;
               Meta.pages := pages_of count (limit pl) |})
  end.

(** The assignments of one branch of PATCH /api/admin/bookings/:id. *)
Definition assign (st : Booking.Status) (note : option string) (to : option Z)
    (b : Booking.doc) : Booking.doc := {|
  Booking._id := Booking._id b;
  Booking.user := Booking.user b;
  Booking.type := Booking.type b;
  Booking.duration := Booking.duration b;
  Booking.platform := Booking.platform b;
  Booking.platformDetails := Booking.platformDetails b;
  Booking.scheduledAt := Booking.scheduledAt b;
  Booking.status := st;
  Booking.notes := Booking.notes b;
  Booking.adminNote := note;
  Booking.rescheduledTo := to;
  Booking.createdAt := Booking.createdAt b;
  Booking.updatedAt := Booking.updatedAt b |}.

(** The branch on [action]: the booking as assigned in memory, or the
    response of an early return. *)
Definition transition (action adminNote rescheduledTo : value) (booking : Booking.doc)
    : response + Booking.doc :=
  if bool_decide (action = VStr "approve")
  then inr (assign Booking.approved (castString None adminNote) None booking)
  else if bool_decide (action = VStr "cancel")
  then inr (assign Booking.cancelled (castString None adminNote) None booking)
  else if bool_decide (action = VStr "reschedule")
  then
    let dt := if truthy rescheduledTo then Some (new_Date rescheduledTo) else None in
    match dt with
    | Some (Num t) =>
        inr (assign Booking.rescheduled (castString None adminNote) (Some t) booking)
    | _ => inl (fail 400 "Invalid rescheduledTo date")
    end
  else inl (fail 400 "Invalid action").

(** [booking.save()] of a loaded document: written, with a new
    [updatedAt], when an assignment changed it. *)
Definition save (now : Z) (before after : Booking.doc) : Booking.doc :=
  if bool_decide (after = before) then before
  else {|
    Booking._id := Booking._id after;
    Booking.user := Booking.user after;
    Booking.type := Booking.type after;
    Booking.duration := Booking.duration after;
    Booking.platform := Booking.platform after;
    Booking.platformDetails := Booking.platformDetails after;
    Booking.scheduledAt := Booking.scheduledAt after;
    Booking.status := Booking.status after;
    Booking.notes := Booking.notes after;
    Booking.adminNote := Booking.adminNote after;
    Booking.rescheduledTo := Booking.rescheduledTo after;
    Booking.createdAt := Booking.createdAt after;
    Booking.updatedAt := now |}.

(** PATCH /api/admin/bookings/:id with body
    [{ action, adminNote, rescheduledTo }], behind [adminAuth];
    [bookingId] is the id as the path spells it, which [findById] casts. *)
Definition adminTransition (bookingId : string) (action adminNote rescheduledTo : value)
    (now : Z) (us : users) (bs : bookings) : response * bookings :=
  if negb (ObjectId_isValid bookingId) then (fail 400 "Invalid booking id", bs)
  else
    let adminNote := default_to (VStr "") adminNote in
    let rescheduledTo := default_to VNull rescheduledTo in
    match findById bs (castObjectId bookingId) with
    | None => (fail 404 "Booking not found", bs)
    | Some booking =>
        match transition action adminNote rescheduledTo booking with
        | inl r => (r, bs)
        | inr assigned =>
            let saved := save now booking assigned in
            (ok (BookingBody "Booking updated" saved (populate us saved)),
             <[castObjectId bookingId := saved]> bs)
        end
    end.

End Handlers.
End BookingRoutes.

(** ** Invariants and sample data *)

(** [rescheduledTo] is set only while the booking is rescheduled. *)
Definition consistent (b : Booking.doc) : Prop :=
  is_Some (Booking.rescheduledTo b) → Booking.status b = Booking.rescheduled.

Definition all_consistent (bs : bookings) : Prop :=
  map_Forall (λ _ b, consistent b) bs.

(** The collections of bookings that the two writing handlers can
    produce, one request after the other, from the empty collection. *)
Section Reachability.
Context `{Host}.

Inductive step : bookings → bookings → Prop :=
| step_create req_user b oid now bs :
    step bs (BookingRoutes.create req_user b oid now bs).2
| step_moderate bookingId action adminNote rescheduledTo now us bs :
    step bs (BookingRoutes.adminTransition bookingId action adminNote
               rescheduledTo now us bs).2.

Definition reachable (bs : bookings) : Prop := rtc step ∅ bs.

End Reachability.

(** [o] is the document [u] as a plain object without its credential:
    [passwordHash] is absent and every other property is the stored one. *)
Definition sanitized_copy_of (o : obj) (u : User.doc) : Prop :=
  o !! "passwordHash" = None ∧
  ∀ k, k ≠ "passwordHash" → o !! k = User.toObject u !! k.

Module Sample.

Definition is_hex (c : ascii) : bool :=
  is_digit c || ((97 <=? code c)%nat && (code c <=? 102)%nat) ||
  ((65 <=? code c)%nat && (code c <=? 70)%nat).

Fixpoint all_hex (s : string) : bool :=
  match s with
  | EmptyString => true
  | String c s' => is_hex c && all_hex s'
  end.

(** The hexadecimal digit of a number below 16, in lower case. *)
Definition hex_digit (n : nat) : ascii :=
  ascii_of_nat (if (n <? 10)%nat then 48 + n else 87 + n).

(** The bytes of a string in hexadecimal. *)
Fixpoint hex_of_bytes (s : string) : string :=
  match s with
  | EmptyString => EmptyString
  | String c s' =>
      String (hex_digit (code c / 16)) (String (hex_digit (code c mod 16))
        (hex_of_bytes s'))
  end.

(** A host for closed examples. A token is the text [signed:] followed
    by the id it asserts; a hash is the text [bcrypt:] followed by the
    password; a date is either the one instant below or invalid. An
    ObjectId is written with 24 hexadecimal digits in either case, or
    with 12 characters, which are its bytes; its hexadecimal form is in
    lower case. The database reads a [NaN] as 0: nothing is skipped, and
    a limit of 0 is no limit. *)
Definition host : Host := {|
  jwt_sign p := "signed:" +:+ default "" (id p);
  jwt_verify t :=
    match t with
    | String "s" (String "i" (String "g" (String "n" (String "e" (String "d"
        (String ":" i)))))) =>
        Some {| id := Some i; p_email := None; p_username := None; p_role := None |}
    | _ => None
    end;
  bcrypt_hash pw := "bcrypt:" +:+ pw;
  bcrypt_compare pw h := bool_decide (h = "bcrypt:" +:+ pw);
  Date_parse s :=
    if bool_decide (s = "2030-01-01T00:00:00.000Z") then Num 1893456000000 else NaN;
  toISOString t :=
    if bool_decide (t = 1893456000000) then "2030-01-01T00:00:00.000Z"
    else Number_toString t;
  ObjectId_isValid s :=
    bool_decide (String.length s = 12%nat) ||
    (bool_decide (String.length s = 24%nat) && all_hex s);
  castObjectId s :=
    if bool_decide (String.length s = 12%nat) then hex_of_bytes s else toLowerCase s;
  skip_NaN := 0;
  limit_NaN := None
|}.

Definition ada_id : string := "64b7f0c2a1d3e4f5a6b7c8d9".
Definition bob_id : string := "64b7f0c2a1d3e4f5a6b7c8da".

(** An administrator who has been banned. *)
Definition ada : User.doc := {|
  User._id := ada_id;
  User.firstName := "Ada";
  User.lastName := "Byron";
  User.username := "ada";
  User.email := "ada@example.org";
  User.phone := "+100";
  User.country := "UK";
  User.passwordHash := "bcrypt:correct horse";
  User.dob := "1815-12-10";
  User.gender := "f";
  User.role := User.admin;
  User.isBanned := true;
  User.banReason := "abuse";
  User.bannedUntil := Some 1893456000000;
  User.createdAt := 1000;
  User.updatedAt := 2000 |}.

(** A member in good standing. *)
Definition bob : User.doc := {|
  User._id := bob_id;
  User.firstName := "Bob";
  User.lastName := "Stone";
  User.username := "bob";
  User.email := "bob@example.org";
  User.phone := "+200";
  User.country := "FR";
  User.passwordHash := "bcrypt:hunter2hunter2";
  User.dob := "1990-01-01";
  User.gender := "m";
  User.role := User.member;
  User.isBanned := false;
  User.banReason := "";
  User.bannedUntil := None;
  User.createdAt := 3000;
  User.updatedAt := 3000 |}.

Definition people : users := <[ada_id := ada]> (<[bob_id := bob]> ∅).

Definition booking_id : string := "64b7f0c2a1d3e4f5a6b7c8e0".

(** A booking of Bob's that was rescheduled. *)
Definition moved : Booking.doc := {|
  Booking._id := booking_id;
  Booking.user := bob_id;
  Booking.type := Booking.session;
  Booking.duration := 30;
  Booking.platform := "zoom";
  Booking.platformDetails := Some "";
  Booking.scheduledAt := 1800000000000;
  Booking.status := Booking.rescheduled;
  Booking.notes := Some "first a.*b session";
  Booking.adminNote := Some "moved";
  Booking.rescheduledTo := Some 1893456000000;
  Booking.createdAt := 4000;
  Booking.updatedAt := 5000 |}.

Definition agenda : bookings := <[booking_id := moved]> ∅.

Definition of_id (i : string) : payload :=
  {| id := Some i; p_email := None; p_username := None; p_role := None |}.

(** A request for a booking with the given [duration]. *)
Definition wanted (duration : value) : BookingRoutes.creation := {|
  BookingRoutes.c_type := VStr "session";
  BookingRoutes.c_duration := duration;
  BookingRoutes.c_platform := VStr "zoom";
  BookingRoutes.c_platformDetails := VUndefined;
  BookingRoutes.c_scheduledAt := VStr "2030-01-01T00:00:00.000Z";
  BookingRoutes.c_notes := VUndefined
|}.

Definition fresh_id : string := "64b7f0c2a1d3e4f5a6b7c8e1".

(** The authorization headers of Ada and of Bob. *)
Definition ada_header : option string :=
  Some "Bearer signed:64b7f0c2a1d3e4f5a6b7c8d9".

Definition bob_header : option string :=
  Some "Bearer signed:64b7f0c2a1d3e4f5a6b7c8da".

End Sample.

(** ** The other handlers of the routers *)

#[global] Instance user_doc_eq_dec : EqDecision User.doc.
Proof. solve_decision. Defined.

(** [user.save()] of a loaded document: every path is validated; the
    document is written, with a new [updatedAt], when an assignment
    changed it. *)
Definition stamped (now : Z) (u : User.doc) : User.doc := {|
  User._id := User._id u;
  User.firstName := User.firstName u;
  User.lastName := User.lastName u;
  User.username := User.username u;
  User.email := User.email u;
  User.phone := User.phone u;
  User.country := User.country u;
  User.passwordHash := User.passwordHash u;
  User.dob := User.dob u;
  User.gender := User.gender u;
  User.role := User.role u;
  User.isBanned := User.isBanned u;
  User.banReason := User.banReason u;
  User.bannedUntil := User.bannedUntil u;
  User.createdAt := User.createdAt u;
  User.updatedAt := now |}.

Definition saveUser (now : Z) (us : users) (i : string) (before after : User.doc)
    : thrown + users :=
  if negb (User.validate after) then inl ValidationError
  else if bool_decide (after = before) then inr us
  else match violates us after with
       | Some e => inl e
       | None => inr (<[i := stamped now after]> us)
       end.

(** A reply is one of the responses above or one of two more bodies. *)
Inductive reply : Type :=
| Plain (r : response)
| Unbanned (message : string) (target : string) (isBanned : bool)
    (* 200 [{ message, user: { id, isBanned } }] *)
| OwnBookings (bookings : list Booking.doc).
    (* 200 [{ bookings }] *)

Definition reply_status (r : reply) : Z :=
  match r with
  | Plain r => status r
  | Unbanned _ _ _ | OwnBookings _ => 200
  end.

(** routes/auth.routes.js, continued *)
Module Account.
Section Handlers.
Context `{Host}.

Definition with_passwordHash (h : string) (u : User.doc) : User.doc := {|
  User._id := User._id u;
  User.firstName := User.firstName u;
  User.lastName := User.lastName u;
  User.username := User.username u;
  User.email := User.email u;
  User.phone := User.phone u;
  User.country := User.country u;
  User.passwordHash := h;
  User.dob := User.dob u;
  User.gender := User.gender u;
  User.role := User.role u;
  User.isBanned := User.isBanned u;
  User.banReason := User.banReason u;
  User.bannedUntil := User.bannedUntil u;
  User.createdAt := User.createdAt u;
  User.updatedAt := User.updatedAt u |}.

(** POST /api/users/change-password with body
    [{ oldPassword, newPassword }], behind [auth]. *)
Definition changePassword (req_user : payload) (oldPassword newPassword : option string)
    (now : Z) (us : users) : response * users :=
  match Middleware.claimed_id req_user with
  | None => (fail 401 "Unauthorized", us)
  | Some userId =>
      let oldPassword := default "" oldPassword in
      let newPassword := default "" newPassword in
      if AuthRoutes.empty oldPassword || AuthRoutes.empty newPassword
      then (fail 400 "Old and new passwords required.", us)
      else if Z.of_nat (String.length newPassword) <? 8
      then (fail 400 "New password must be at least 8 characters.", us)
      else if negb (ObjectId_isValid userId) then (fail 500 "Server error", us)
      else
        match findById us userId with
        | None => (fail 404 "User not found", us)
        | Some user =>
            if negb (bcrypt_compare oldPassword (User.passwordHash user))
            then (fail 401 "Old password incorrect.", us)
            else
              match saveUser now us userId user
                      (with_passwordHash (bcrypt_hash newPassword) user) with
              | inl _ => (fail 500 "Server error", us)
              | inr us' => (ok (Message "Password updated."), us')
              end
        end
  end.

(** DELETE /api/users/delete, behind [auth]. *)
Definition deleteSelf (req_user : payload) (us : users) : response * users :=
  match Middleware.claimed_id req_user with
  | None => (fail 401 "Unauthorized", us)
  | Some userId =>
      if negb (ObjectId_isValid userId) then (fail 500 "Server error", us)
      else (ok (Message "Account deleted."), (findByIdAndDelete us userId).2)
  end.

(** The second registration of POST /api/users/login, at the end of the
    file: no [trim] of the email and no role in the token. *)
Definition login_again (email password : option string) (us : users) : response :=
  let email := default "" email in
  let password := default "" password in
  if AuthRoutes.empty email || AuthRoutes.empty password
  then fail 400 "Email and password required."
  else
    match findOne (λ d, User.email d = User.set_email (toLowerCase email)) us with
    | None => fail 401 "Invalid credentials."
    | Some user =>
        if User.isBanned user then
          let until := toISOString <$> User.bannedUntil user in
          {| status := 403;
             json := BanNotice "Account is banned."
                       (if AuthRoutes.empty (User.banReason user)
                        then "No reason provided" else User.banReason user)
                       until |}
        else if negb (bcrypt_compare password (User.passwordHash user))
        then fail 401 "Invalid credentials."
        else
          let token := jwt_sign {|
            id := Some (User._id user);
            p_email := Some (User.email user);
            p_username := Some (User.username user);
            p_role := None |} in
          ok (LoginBody "Login successful." token (AuthRoutes.sanitizeUser (Some user)))
    end.

End Handlers.
End Account.

(** routes/admin.routes.js, continued *)
Module Moderation.
Section Handlers.
Context `{Host}.

(** The update [{ isBanned: false, banReason: "", bannedUntil: null }]. *)
Definition lifted (now : Z) (u : User.doc) : User.doc := {|
  User._id := User._id u;
  User.firstName := User.firstName u;
  User.lastName := User.lastName u;
  User.username := User.username u;
  User.email := User.email u;
  User.phone := User.phone u;
  User.country := User.country u;
  User.passwordHash := User.passwordHash u;
  User.dob := User.dob u;
  User.gender := User.gender u;
  User.role := User.role u;
  User.isBanned := false;
  User.banReason := "";
  User.bannedUntil := None;
  User.createdAt := User.createdAt u;
  User.updatedAt := now |}.

(** POST /api/admin/users/:id/unban; [target] is the id as the path spells
    it. *)
Definition unbanUser (target : string) (now : Z) (us : users) : reply * users :=
  if negb (ObjectId_isValid target) then (Plain (fail 400 "Invalid user id"), us)
  else
    match findByIdAndUpdate (λ _, true) us (castObjectId target) (lifted now) with
    | inl _ => (Plain (fail 500 "Server error"), us)
    | inr (None, _) => (Plain (fail 404 "User not found"), us)
    | inr (Some user, us') =>
        (Unbanned "User unbanned." (User._id user) (User.isBanned user), us')
    end.

End Handlers.
End Moderation.

(** routes/bookings.routes.js, continued *)
Module Own.
Section Handlers.
Context `{Host}.

(** GET /api/bookings/me, behind [auth]: [find({ user: userId })], which
    throws on a malformed id, newest first. *)
Definition listOwn (req_user : payload) (bs : bookings) : reply :=
  match Middleware.claimed_id req_user with
  | None => Plain (fail 401 "Unauthorized")
  | Some userId =>
      if negb (ObjectId_isValid userId) then Plain (fail 500 "Server error")
      else
        OwnBookings
          (merge_sort (newest_first Booking.createdAt)
             (find (λ b, bool_decide (Booking.user b = userId)) bs))
  end.

End Handlers.
End Own.

(** ** The routes: a guard, then the handler *)

Module Router.
Section Routes.
Context `{Host}.

(** A middleware that answers ends the request; one that calls [next()]
    hands [req.user] to the handler. *)
Definition behind {A : Type} (o : Middleware.outcome) (stop : response → A)
    (next : payload → A) : A :=
  match o with
  | Middleware.Rejected r => stop r
  | Middleware.Next p _ => next p
  end.

(** [router.get("/me", auth, ..)] and the like. *)
Definition GET_me (authorization : option string) (us : users) : response :=
  behind (Middleware.auth authorization) (λ r, r) (λ p, AuthRoutes.me p us).

Definition PUT_me (authorization : option string) (up : AuthRoutes.updates)
    (now : Z) (us : users) : response * users :=
  behind (Middleware.auth authorization) (λ r, (r, us))
    (λ p, AuthRoutes.updateSelf p up now us).

Definition POST_change_password (authorization : option string)
    (oldPassword newPassword : option string) (now : Z) (us : users)
    : response * users :=
  behind (Middleware.auth authorization) (λ r, (r, us))
    (λ p, Account.changePassword p oldPassword newPassword now us).

Definition DELETE_delete (authorization : option string) (us : users)
    : response * users :=
  behind (Middleware.auth authorization) (λ r, (r, us))
    (λ p, Account.deleteSelf p us).

Definition POST_bookings (authorization : option string) (b : BookingRoutes.creation)
    (oid : string) (now : Z) (bs : bookings) : response * bookings :=
  behind (Middleware.auth authorization) (λ r, (r, bs))
    (λ p, BookingRoutes.create p b oid now bs).

Definition GET_bookings_me (authorization : option string) (bs : bookings) : reply :=
  behind (Middleware.auth authorization) Plain (λ p, Own.listOwn p bs).

(** [router.use(adminAuth)], then the admin handlers. *)
Definition DELETE_admin_user (authorization : option string) (target : string)
    (us : users) : response * users :=
  behind (Middleware.adminAuth authorization us) (λ r, (r, us))
    (λ p, AdminRoutes.deleteUser p target us).

Definition POST_admin_ban (authorization : option string) (target : string)
    (reason until : value) (now : Z) (us : users) : response * users :=
  behind (Middleware.adminAuth authorization us) (λ r, (r, us))
    (λ p, AdminRoutes.banUser p target reason until now us).

Definition POST_admin_unban (authorization : option string) (target : string)
    (now : Z) (us : users) : reply * users :=
  behind (Middleware.adminAuth authorization us) (λ r, (Plain r, us))
    (λ _, Moderation.unbanUser target now us).

Definition PATCH_admin_role (authorization : option string) (target : string)
    (role : value) (now : Z) (us : users) : response * users :=
  behind (Middleware.adminAuth authorization us) (λ r, (r, us))
    (λ p, AdminRoutes.setRole p target role now us).

Definition GET_admin_users (authorization : option string) (query : query)
    (us : users) : response :=
  behind (Middleware.adminAuth authorization us) (λ r, r)
    (λ _, AdminRoutes.listUsers query us).

Definition GET_admin_bookings (authorization : option string) (query : query)
    (us : users) (bs : bookings) : response :=
  behind (Middleware.adminAuth authorization us) (λ r, r)
    (λ _, BookingRoutes.adminList query us bs).

Definition PATCH_admin_booking (authorization : option string) (bookingId : string)
    (action adminNote rescheduledTo : value) (now : Z) (us : users) (bs : bookings)
    : response * bookings :=
  behind (Middleware.adminAuth authorization us) (λ r, (r, bs))
    (λ _, BookingRoutes.adminTransition bookingId action adminNote rescheduledTo
            now us bs).

End Routes.
End Router.

(** ** The users collection as the indexes keep it *)

(** Every document sits under its own [_id]. *)
Definition keyed (us : users) : Prop :=
  ∀ i u, us !! i = Some u → User._id u = i.

(** A unique index on the field [f]. *)
Definition unique_by (f : User.doc → string) (us : users) : Prop :=
  ∀ i j u v, us !! i = Some u → us !! j = Some v → f u = f v → i = j.

Definition well_formed (us : users) : Prop :=
  keyed us ∧ unique_by User.email us ∧ unique_by User.username us.

(** The collections of users that the writing handlers can produce, one
    request after the other, from the empty collection. *)
Section Accounts_reachable.
Context `{Host}.

Inductive writes : users → users → Prop :=
| w_register b oid now us :
    writes us (AuthRoutes.register b oid now us).2
| w_updateSelf req_user up now us :
    writes us (AuthRoutes.updateSelf req_user up now us).2
| w_changePassword req_user old new now us :
    writes us (Account.changePassword req_user old new now us).2
| w_deleteSelf req_user us :
    writes us (Account.deleteSelf req_user us).2
| w_deleteUser req_user target us :
    writes us (AdminRoutes.deleteUser req_user target us).2
| w_banUser req_user target reason until now us :
    writes us (AdminRoutes.banUser req_user target reason until now us).2
| w_unbanUser target now us :
    writes us (Moderation.unbanUser target now us).2
| w_setRole req_user target role now us :
    writes us (AdminRoutes.setRole req_user target role now us).2.

Definition attainable (us : users) : Prop := rtc writes ∅ us.

End Accounts_reachable.

(** More sample data: a registration form, and a profile update. *)
Module Fixture.

Definition carol_id : string := "64b7f0c2a1d3e4f5a6b7c8db".

Definition carol_form : AuthRoutes.registration := {|
  AuthRoutes.r_firstName := Some "Carol";
  AuthRoutes.r_lastName := Some "Diaz";
  AuthRoutes.r_username := Some "carol";
  AuthRoutes.r_email := Some " Carol@Example.org";
  AuthRoutes.r_phone := Some "+300";
  AuthRoutes.r_country := Some "ES";
  AuthRoutes.r_password := Some "s3cretpass";
  AuthRoutes.r_dob := Some "2000-02-02";
  AuthRoutes.r_gender := Some "f"
|}.

(** The same person again, the email in capitals. *)
Definition carol_again : AuthRoutes.registration := {|
  AuthRoutes.r_firstName := Some "Carol";
  AuthRoutes.r_lastName := Some "Diaz";
  AuthRoutes.r_username := Some "carol2";
  AuthRoutes.r_email := Some "CAROL@EXAMPLE.ORG ";
  AuthRoutes.r_phone := Some "+300";
  AuthRoutes.r_country := Some "ES";
  AuthRoutes.r_password := Some "an0therpass";
  AuthRoutes.r_dob := Some "2000-02-02";
  AuthRoutes.r_gender := Some "f"
|}.

(** An update that asks for the given email and nothing else. *)
Definition new_email (e : string) : AuthRoutes.updates := {|
  AuthRoutes.u_firstName := None;
  AuthRoutes.u_lastName := None;
  AuthRoutes.u_username := None;
  AuthRoutes.u_email := Some e;
  AuthRoutes.u_phone := None;
  AuthRoutes.u_country := None;
  AuthRoutes.u_dob := None;
  AuthRoutes.u_gender := None
|}.


(** A second person. *)
Definition dave_id : string := "64b7f0c2a1d3e4f5a6b7c8dc".

Definition dave_form : AuthRoutes.registration := {|
  AuthRoutes.r_firstName := Some "Dave";
  AuthRoutes.r_lastName := Some "Eng";
  AuthRoutes.r_username := Some "dave";
  AuthRoutes.r_email := Some "dave@example.org";
  AuthRoutes.r_phone := Some "+400";
  AuthRoutes.r_country := Some "DE";
  AuthRoutes.r_password := Some "d4vepassword";
  AuthRoutes.r_dob := Some "1999-03-03";
  AuthRoutes.r_gender := Some "m"
|}.

(** Seven members, created one after the other. *)
Definition digit (n : nat) : string := String (ascii_of_nat (48 + n)) "".

Definition member_no (n : nat) : User.doc := {|
  User._id := "64b7f0c2a1d3e4f5a6b7c90" +:+ digit n;
  User.firstName := "Member";
  User.lastName := digit n;
  User.username := "member" +:+ digit n;
  User.email := "member" +:+ digit n +:+ "@example.org";
  User.phone := "+500";
  User.country := "IT";
  User.passwordHash := "bcrypt:password" +:+ digit n;
  User.dob := "1980-01-01";
  User.gender := "f";
  User.role := User.member;
  User.isBanned := false;
  User.banReason := "";
  User.bannedUntil := None;
  User.createdAt := 9000 + Z.of_nat n;
  User.updatedAt := 9000 + Z.of_nat n |}.

Definition crowd : users :=
  list_to_map ((λ n, (User._id (member_no n), member_no n)) <$> seq 0 7).

(** The page [page] of a listing, five to the page. *)
Definition page_no (page : string) : query :=
  {| q_q := None; q_page := Some page; q_limit := Some "5"; q_status := None |}.

End Fixture.

(** * Properties *)

(** Case analysis along the branches of a handler; a branch that returns
    early without a user object, or without a write, is closed at once. *)
Ltac branches :=
  repeat (case_match; try (intros [= <- <-]; discriminate)).

Create HintDb booking.

(** ** Pagination *)

Section Pagination.

Lemma page_of_number (n : Z) :
  Math_max (Num 1) (Num n) = Num (Z.max 1 n) ∧ 1 ≤ Z.max 1 n.
Proof. split; [reflexivity | lia]. Qed.

Lemma limit_of_number (n : Z) :
  Math_min (Num 100) (Math_max (Num 5) (Num n)) = Num (Z.min 100 (Z.max 5 n)) ∧
  5 ≤ Z.min 100 (Z.max 5 n) ≤ 100.
Proof. split; [reflexivity | lia]. Qed.

(** When [page] and [limit] read as integers, both listings clamp them. *)
Lemma users_plan_clamps (query : query) (p l : Z) :
  parseInt (or_str (q_page query) "1") = Num p →
  parseInt (or_str (q_limit query) "20") = Num l →
  ∀ pl, AdminRoutes.users_plan query = Some pl →
    AdminRoutes.page pl = Num (Z.max 1 p) ∧
    AdminRoutes.limit pl = Num (Z.min 100 (Z.max 5 l)).
Proof.
  intros Hp Hl pl. unfold AdminRoutes.users_plan. rewrite Hp, Hl.
  case_bool_decide; [intros [= <-]; auto|].
  destruct (RegExp.RegExp_new _ _); simpl; [intros [= <-]; auto | discriminate].
Qed.

Lemma bookings_plan_clamps (query : query) (p l : Z) :
  parseInt (or_str (q_page query) "1") = Num p →
  parseInt (or_str (q_limit query) "50") = Num l →
  ∀ pl, BookingRoutes.bookings_plan query = Some pl →
    BookingRoutes.page pl = Num (Z.max 1 p) ∧
    BookingRoutes.limit pl = Num (Z.min 100 (Z.max 5 l)).
Proof.
  intros Hp Hl pl. unfold BookingRoutes.bookings_plan. rewrite Hp, Hl.
  case_bool_decide; [intros [= <-]; auto|].
  destruct (RegExp.RegExp_new _ _); simpl; [intros [= <-]; auto | discriminate].
Qed.

(** The examples of the specification, and the defaults. *)
Lemma pagination_examples :
  let ask page limit :=
    {| q_q := None; q_page := page; q_limit := limit; q_status := None |} in
  (BookingRoutes.limit <$> BookingRoutes.bookings_plan (ask None (Some "1000")) = Some (Num 100)) ∧
  (BookingRoutes.limit <$> BookingRoutes.bookings_plan (ask None (Some "1")) = Some (Num 5)) ∧
  (BookingRoutes.limit <$> BookingRoutes.bookings_plan (ask None None) = Some (Num 50)) ∧
  (BookingRoutes.page <$> BookingRoutes.bookings_plan (ask (Some "0") None) = Some (Num 1)) ∧
  (BookingRoutes.page <$> BookingRoutes.bookings_plan (ask (Some "-3") None) = Some (Num 1)) ∧
  (AdminRoutes.limit <$> AdminRoutes.users_plan (ask None (Some "1000")) = Some (Num 100)) ∧
  (AdminRoutes.limit <$> AdminRoutes.users_plan (ask None (Some "1")) = Some (Num 5)) ∧
  (AdminRoutes.limit <$> AdminRoutes.users_plan (ask None None) = Some (Num 20)) ∧
  (AdminRoutes.page <$> AdminRoutes.users_plan (ask (Some "-3") None) = Some (Num 1)).
Proof. repeat split; vm_compute; reflexivity. Qed.

(** C7, at the input where the code departs from it. A [page] or [limit]
    that does not start with a number is read as [NaN] by [parseInt], and
    [Math.max] and [Math.min] return [NaN] when an argument is [NaN]: the
    effective page of [?page=abc] is [NaN], not a number that is at least
    1, and the effective limit of [?limit=abc] is [NaN], not a number of
    the interval from 5 to 100, in both listings. *)
Theorem pagination_not_clamped_on_NaN :
  let ask page limit :=
    {| q_q := None; q_page := page; q_limit := limit; q_status := None |} in
  (BookingRoutes.page <$> BookingRoutes.bookings_plan (ask (Some "abc") None) = Some NaN) ∧
  (BookingRoutes.limit <$> BookingRoutes.bookings_plan (ask None (Some "abc")) = Some NaN) ∧
  (AdminRoutes.page <$> AdminRoutes.users_plan (ask (Some "abc") None) = Some NaN) ∧
  (AdminRoutes.limit <$> AdminRoutes.users_plan (ask None (Some "abc")) = Some NaN).
Proof. repeat split; vm_compute; reflexivity. Qed.

End Pagination.

(** ** Search *)

Section Search.
Import RegExp.

Lemma escape_class_syntax (c : ascii) :
  bool_decide (c ∈ escape_class) = is_syntax c.
Proof.
  unfold is_syntax. apply bool_decide_ext.
  unfold escape_class, syntax_chars. rewrite !elem_of_cons, !elem_of_nil. tauto.
Qed.

(** After escaping, the pattern is read as the characters of [q], each
    one standing for itself. *)
Lemma tokens_escapeRegExp (q : string) :
  tokens (escapeRegExp q) = Some (TLit <$> String.list_ascii_of_string q).
Proof.
  induction q as [|c q IH]; [reflexivity|].
  cbn [escapeRegExp String.list_ascii_of_string fmap list_fmap].
  destruct (bool_decide (c ∈ escape_class)) eqn:Hc.
  - cbn [tokens]. rewrite bool_decide_true by reflexivity.
    rewrite <- escape_class_syntax, Hc, IH. reflexivity.
  - cbn [tokens]. rewrite bool_decide_false.
    + rewrite <- escape_class_syntax, Hc, IH. reflexivity.
    + intros ->. apply bool_decide_eq_false in Hc. apply Hc.
      unfold escape_class. rewrite !elem_of_cons. tauto.
Qed.

Lemma parse_seq_literal (cs : list ascii) (n : nat) :
  (length cs + 3 ≤ n)%nat →
  parse_seq n (TLit <$> cs) = Some (literal cs, []).
Proof.
  revert n. induction cs as [|c cs IH]; intros n Hn.
  - destruct n; [simpl in Hn; lia | reflexivity].
  - destruct n as [|[|[|n]]]; try (simpl in Hn; lia).
    assert (Hrest : parse_seq (S (S n)) (TLit <$> cs) = Some (literal cs, []))
      by (apply IH; simpl in *; lia).
    change (parse_seq (S (S (S n))) (TLit <$> c :: cs))
      with (match parse_term (S (S n)) (TLit c :: (TLit <$> cs)) with
            | Some (r, ts') =>
                match parse_seq (S (S n)) ts' with
                | Some (r', ts'') => Some (Cat r r', ts'')
                | None => None
                end
            | None => None
            end).
    assert (Hterm : parse_term (S (S n)) (TLit c :: (TLit <$> cs))
                    = Some (Lit c, TLit <$> cs)).
    { change (parse_term (S (S n)) (TLit c :: (TLit <$> cs)))
        with (match Some (Lit c, TLit <$> cs) with
              | Some (r, TSyn "*"%char :: ts') => Some (Star r, ts')
              | Some (r, TSyn "+"%char :: ts') => Some (Cat r (Star r), ts')
              | Some (r, TSyn "?"%char :: ts') => Some (Alt r Eps, ts')
              | other => other
              end).
      destruct cs; reflexivity. }
    rewrite Hterm, Hrest. reflexivity.
Qed.

Lemma parse_literal (cs : list ascii) :
  parse (TLit <$> cs) = Some (literal cs).
Proof.
  unfold parse. rewrite length_fmap.
  replace (4 * length cs + 4)%nat with (S (4 * length cs + 3)) by lia.
  cbn [parse_alt]. rewrite parse_seq_literal by lia. reflexivity.
Qed.

(** The expression built from an escaped query always exists: it is the
    literal expression of the query. *)
Lemma RegExp_new_escaped (q : string) :
  RegExp_new (escapeRegExp q) true
  = Some {| source := literal (String.list_ascii_of_string q); ignoreCase := true |}.
Proof.
  unfold RegExp_new. rewrite tokens_escapeRegExp. simpl.
  rewrite parse_literal. reflexivity.
Qed.













End Search.

(** ** Bookings *)

Section BookingLifecycle.
Context `{Host}.
Import BookingRoutes.

Lemma all_consistent_empty : all_consistent ∅.
Proof. apply map_Forall_empty. Qed.

Lemma all_consistent_insert (bs : bookings) (i : string) (b : Booking.doc) :
  all_consistent bs → consistent b → all_consistent (<[i := b]> bs).
Proof. intros Hbs Hb. by apply map_Forall_insert_2. Qed.

(** What [build] puts in a new document. *)
Lemma build_inr oid userId type duration platform platformDetails scheduledAt notes now b :
  build oid userId type duration platform platformDetails scheduledAt notes now = inr b →
  Booking.status b = Booking.pending ∧ Booking.rescheduledTo b = None ∧
  Booking.user b = userId ∧ Booking.scheduledAt b = scheduledAt ∧
  castNumber duration = inr (Some (Booking.duration b)).
Proof.
  unfold build. intros Hb. repeat case_match; simplify_eq. auto.
Qed.

(** A creation that answers 201 stored the document it built and
    answered with it; any other answer left the collection as it was. *)
Lemma create_201 (req_user : payload) (b : creation) (oid : string) (now : Z)
    (bs : bookings) (r : response) (bs' : bookings) :
  create req_user b oid now bs = (r, bs') →
  status r = 201 →
  ∃ userId scheduledDate booking,
    Middleware.claimed_id req_user = Some userId ∧
    truthy (c_type b) = true ∧ truthy (c_duration b) = true ∧
    truthy (c_platform b) = true ∧ truthy (c_scheduledAt b) = true ∧
    new_Date (c_scheduledAt b) = Num scheduledDate ∧
    build oid userId (c_type b) (c_duration b) (c_platform b)
      (default_to (VStr "") (c_platformDetails b)) scheduledDate
      (default_to (VStr "") (c_notes b)) now = inr booking ∧
    r = {| status := 201; json := BookingBody "Booking created" booking None |} ∧
    bs' = <[oid := booking]> bs.
Proof.
  unfold create. intros Hc Hr.
  destruct (Middleware.claimed_id req_user) as [userId|];
    [|simplify_eq; discriminate].
  destruct (negb (truthy (c_type b)) || negb (truthy (c_duration b))
            || negb (truthy (c_platform b)) || negb (truthy (c_scheduledAt b)))
    eqn:Hpresent; [simplify_eq; discriminate|].
  rewrite !orb_false_iff, !negb_false_iff in Hpresent.
  destruct Hpresent as [[[Ht Hd] Hp] Hs].
  destruct (new_Date (c_scheduledAt b)) as [|scheduledDate];
    [simplify_eq; discriminate|].
  destruct (negb (ObjectId_isValid userId)); [simplify_eq; discriminate|].
  destruct (build _ _ _ _ _ _ _ _ _) as [e|booking] eqn:Hb;
    [simplify_eq; discriminate|].
  case_bool_decide; [simplify_eq; discriminate|].
  simplify_eq. exists userId, scheduledDate, booking. auto 10.
Qed.

Lemma create_not_201 (req_user : payload) (b : creation) (oid : string) (now : Z)
    (bs : bookings) (r : response) (bs' : bookings) :
  create req_user b oid now bs = (r, bs') →
  status r ≠ 201 →
  bs' = bs.
Proof.
  unfold create. intros Hc Hr.
  repeat (case_match; simplify_eq; try done).
Qed.

Lemma assign_consistent st note to b :
  (is_Some to → st = Booking.rescheduled) → consistent (assign st note to b).
Proof. intros Hst. unfold consistent. simpl. exact Hst. Qed.

Lemma transition_inr action adminNote rescheduledTo booking assigned :
  transition action adminNote rescheduledTo booking = inr assigned →
  consistent assigned.
Proof.
  unfold transition. intros Ht.
  repeat (case_bool_decide || case_match); simplify_eq;
    apply assign_consistent; first [by intros [? [=]] | done].
Qed.

Lemma save_fields now before after :
  Booking.status (save now before after) = Booking.status after ∧
  Booking.rescheduledTo (save now before after) = Booking.rescheduledTo after ∧
  Booking.adminNote (save now before after) = Booking.adminNote after.
Proof. unfold save. case_bool_decide; simplify_eq; auto. Qed.

Lemma save_consistent now before after :
  consistent after → consistent (save now before after).
Proof.
  unfold consistent. destruct (save_fields now before after) as (-> & -> & _). auto.
Qed.

#[local] Hint Resolve all_consistent_empty all_consistent_insert
  transition_inr save_consistent : booking.

(** The three successful branches of the moderation of a stored booking. *)
Lemma adminTransition_saved (bookingId : string) (action adminNote rescheduledTo : value)
    (now : Z) (us : users) (bs : bookings) (b assigned : Booking.doc) :
  ObjectId_isValid bookingId = true →
  bs !! castObjectId bookingId = Some b →
  transition action (default_to (VStr "") adminNote)
    (default_to VNull rescheduledTo) b = inr assigned →
  adminTransition bookingId action adminNote rescheduledTo now us bs
  = (ok (BookingBody "Booking updated" (save now b assigned)
           (populate us (save now b assigned))),
     <[castObjectId bookingId := save now b assigned]> bs).
Proof.
  intros Hid Hb Ht. unfold adminTransition, findById.
  rewrite Hid, Hb. simpl. rewrite Ht. reflexivity.
Qed.

Lemma create_consistent req_user b oid now (bs : bookings) :
  all_consistent bs → all_consistent (create req_user b oid now bs).2.
Proof.
  intros Hinv. destruct (create req_user b oid now bs) as [r bs'] eqn:Hc.
  destruct (decide (status r = 201)) as [Hr|Hr]; simpl.
  - destruct (create_201 _ _ _ _ _ _ _ Hc Hr)
      as (userId & sd & booking & _ & _ & _ & _ & _ & _ & Hb & _ & ->).
    apply build_inr in Hb as (_ & Hto & _).
    apply all_consistent_insert; [done|].
    unfold consistent. rewrite Hto. by intros [? [=]].
  - by rewrite (create_not_201 _ _ _ _ _ _ _ Hc Hr).
Qed.

Lemma adminTransition_consistent bookingId action adminNote rescheduledTo now us
    (bs : bookings) :
  all_consistent bs →
  all_consistent (adminTransition bookingId action adminNote rescheduledTo now us bs).2.
Proof.
  intros Hinv. unfold adminTransition, findById.
  destruct (negb (ObjectId_isValid bookingId)); [done|].
  destruct (bs !! castObjectId bookingId) as [b|]; [|done].
  destruct (transition _ _ _ _) as [e|assigned] eqn:Ht; simpl;
    eauto with booking.
Qed.

Lemma reachable_consistent (bs : bookings) : reachable bs → all_consistent bs.
Proof.
  unfold reachable. revert bs.
  apply (rtc_ind_r (λ bs, all_consistent bs) ∅); [apply all_consistent_empty|].
  intros bs1 bs2 _ Hstep IH.
  destruct Hstep; [by apply create_consistent | by apply adminTransition_consistent].
Qed.

(** A request by a caller with a well-formed id, for one of the three
    types, with a duration that is a number other than 0, a platform
    that is a non-empty string and a date that parses, is answered 201,
    and the booking is stored under the new id. *)
Lemma create_succeeds (req_user : payload) (userId : string) (b : creation)
    (oid : string) (now : Z) (bs : bookings) (s : string) (ty : Booking.Type_)
    (n : Z) (pf : string) (t : Z) :
  Middleware.claimed_id req_user = Some userId → ObjectId_isValid userId = true →
  bs !! oid = None →
  c_type b = VStr s → Booking.type_of_string s = Some ty →
  c_duration b = VNum n → n ≠ 0 →
  c_platform b = VStr pf → pf ≠ "" →
  truthy (c_scheduledAt b) = true → new_Date (c_scheduledAt b) = Num t →
  ∃ booking,
    create req_user b oid now bs
    = ({| status := 201; json := BookingBody "Booking created" booking None |},
       <[oid := booking]> bs) ∧
    Booking._id booking = oid ∧ Booking.user booking = userId ∧
    Booking.type booking = ty ∧ Booking.duration booking = n ∧
    Booking.platform booking = pf ∧ Booking.scheduledAt booking = t ∧
    Booking.status booking = Booking.pending ∧
    Booking.rescheduledTo booking = None.
Proof.
  intros Hi Hok Hfree Hty Hs Hd Hn Hpf Hne Htruthy Ht.
  assert (Hs' : s ≠ "") by (intros ->; discriminate Hs).
  unfold create. rewrite Hi, Hty, Hd, Hpf, Htruthy, Ht, Hok.
  cbn [truthy]. rewrite (bool_decide_false (s = "")), (bool_decide_false (pf = ""))
    by done.
  assert ((n =? 0) = false) as -> by (by apply Z.eqb_neq).
  cbn [negb orb].
  unfold build. cbn [castString castNumber mbind option_bind]. rewrite Hs.
  rewrite (bool_decide_false (pf = "")) by done.
  rewrite Hfree. rewrite bool_decide_false by (by intros [? [=]]).
  eexists. split; [reflexivity|]. done.
Qed.

(** C3. Every collection of bookings that creations and moderations
    produce from the empty one has [rescheduledTo] set only on bookings
    whose status is rescheduled, and each operation keeps that property
    of any collection that has it. A well-formed creation is answered
    201, and a creation that is answered 201 stores a booking with
    status pending and [rescheduledTo] null. On a stored booking,
    [approve] succeeds and stores status approved with [rescheduledTo]
    null, whatever it was; [cancel] stores status cancelled with
    [rescheduledTo] null; [reschedule] with a value that is a valid
    timestamp [t] stores status rescheduled with [rescheduledTo] equal
    to [t]. Each of the three records the note. The booking is the one
    whose id the path spells, in whatever spelling. *)
Theorem rescheduledTo_only_while_rescheduled :
  (∀ bs, reachable bs → all_consistent bs) ∧
  ∀ bs : bookings, all_consistent bs →
  (∀ req_user b oid now r bs',
     create req_user b oid now bs = (r, bs') →
     all_consistent bs' ∧
     (status r = 201 →
      ∃ booking, bs' !! oid = Some booking ∧
        Booking.status booking = Booking.pending ∧
        Booking.rescheduledTo booking = None)) ∧
  (∀ req_user userId b oid now s ty n pf t,
     Middleware.claimed_id req_user = Some userId → ObjectId_isValid userId = true →
     bs !! oid = None →
     c_type b = VStr s → Booking.type_of_string s = Some ty →
     c_duration b = VNum n → n ≠ 0 →
     c_platform b = VStr pf → pf ≠ "" →
     truthy (c_scheduledAt b) = true → new_Date (c_scheduledAt b) = Num t →
     ∃ booking,
       create req_user b oid now bs
       = ({| status := 201; json := BookingBody "Booking created" booking None |},
          <[oid := booking]> bs) ∧
       Booking.status booking = Booking.pending ∧
       Booking.rescheduledTo booking = None) ∧
  (∀ bookingId action adminNote rescheduledTo now us r bs',
     adminTransition bookingId action adminNote rescheduledTo now us bs = (r, bs') →
     all_consistent bs') ∧
  (∀ bookingId b adminNote rescheduledTo now us,
     ObjectId_isValid bookingId = true →
     bs !! castObjectId bookingId = Some b →
     let note := castString None (default_to (VStr "") adminNote) in
     (∃ b',
        adminTransition bookingId (VStr "approve") adminNote rescheduledTo now us bs
        = (ok (BookingBody "Booking updated" b' (populate us b')),
           <[castObjectId bookingId := b']> bs) ∧
        Booking.status b' = Booking.approved ∧ Booking.rescheduledTo b' = None ∧
        Booking.adminNote b' = note) ∧
     (∃ b',
        adminTransition bookingId (VStr "cancel") adminNote rescheduledTo now us bs
        = (ok (BookingBody "Booking updated" b' (populate us b')),
           <[castObjectId bookingId := b']> bs) ∧
        Booking.status b' = Booking.cancelled ∧ Booking.rescheduledTo b' = None ∧
        Booking.adminNote b' = note) ∧
     (∀ t, truthy rescheduledTo = true → new_Date rescheduledTo = Num t →
        ∃ b',
          adminTransition bookingId (VStr "reschedule") adminNote rescheduledTo now us bs
          = (ok (BookingBody "Booking updated" b' (populate us b')),
             <[castObjectId bookingId := b']> bs) ∧
          Booking.status b' = Booking.rescheduled ∧
          Booking.rescheduledTo b' = Some t ∧
          Booking.adminNote b' = note)).
Proof.
  split; [exact reachable_consistent|].
  intros bs Hinv. split; [|split; [|split]].
  - intros req_user b oid now r bs' Hc. split.
    + change bs' with (r, bs').2. rewrite <- Hc. by apply create_consistent.
    + intros Hr.
      destruct (create_201 _ _ _ _ _ _ _ Hc Hr)
        as (userId & sd & booking & _ & _ & _ & _ & _ & _ & Hb & _ & ->).
      apply build_inr in Hb as (Hst & Hto & _).
      exists booking. by rewrite lookup_insert_eq.
  - intros req_user userId b oid now s ty n pf t Hi Hok Hfree Hty Hs Hd Hn Hpf Hne
      Htruthy Ht.
    destruct (create_succeeds req_user userId b oid now bs s ty n pf t)
      as (booking & Hc & _ & _ & _ & _ & _ & _ & Hst & Hto); try done.
    by exists booking.
  - intros bookingId action adminNote rescheduledTo now us r bs' Ht.
    change bs' with (r, bs').2. rewrite <- Ht. by apply adminTransition_consistent.
  - intros bookingId b adminNote rescheduledTo now us Hid Hb note.
    split; [|split].
    + eexists. split; [by apply adminTransition_saved|].
      apply save_fields.
    + eexists. split; [by apply adminTransition_saved|].
      apply save_fields.
    + intros t Htruthy Hdate. eexists. split.
      * apply adminTransition_saved; [done | done|].
        unfold transition.
        rewrite bool_decide_false by discriminate.
        rewrite bool_decide_false by discriminate.
        rewrite bool_decide_true by reflexivity.
        assert (default_to VNull rescheduledTo = rescheduledTo) as ->
          by (by destruct rescheduledTo).
        rewrite Htruthy, Hdate. reflexivity.
      * apply save_fields.
Qed.

(** C4. A moderation request with an id that is not well formed fails
    with 400; with a well-formed id of no booking it fails with 404; on a
    stored booking, [reschedule] without [rescheduledTo], or with one
    that is falsy or not a valid timestamp, fails with 400, and an action
    other than approve, cancel and reschedule fails with 400. In each
    case the collection is returned as it was, so the booking keeps its
    status, adminNote and rescheduledTo. The booking is the one whose id
    the path spells, in whatever spelling. *)
Theorem adminTransition_failures (bookingId : string)
    (action adminNote rescheduledTo : value) (now : Z) (us : users) (bs : bookings) :
  (ObjectId_isValid bookingId = false →
   adminTransition bookingId action adminNote rescheduledTo now us bs
   = (fail 400 "Invalid booking id", bs)) ∧
  (ObjectId_isValid bookingId = true → bs !! castObjectId bookingId = None →
   adminTransition bookingId action adminNote rescheduledTo now us bs
   = (fail 404 "Booking not found", bs)) ∧
  (∀ b, ObjectId_isValid bookingId = true → bs !! castObjectId bookingId = Some b →
   action = VStr "reschedule" →
   (rescheduledTo = VUndefined ∨ truthy rescheduledTo = false ∨
    new_Date rescheduledTo = NaN) →
   adminTransition bookingId action adminNote rescheduledTo now us bs
   = (fail 400 "Invalid rescheduledTo date", bs)) ∧
  (∀ b, ObjectId_isValid bookingId = true → bs !! castObjectId bookingId = Some b →
   action ≠ VStr "approve" → action ≠ VStr "cancel" → action ≠ VStr "reschedule" →
   adminTransition bookingId action adminNote rescheduledTo now us bs
   = (fail 400 "Invalid action", bs)).
Proof.
  unfold adminTransition, findById. repeat split.
  - by intros ->.
  - by intros -> ->.
  - intros b -> -> -> Hto. cbn [negb]. cbv beta iota zeta. unfold transition.
    rewrite bool_decide_false by discriminate.
    rewrite bool_decide_false by discriminate.
    rewrite bool_decide_true by reflexivity.
    assert (Hd : default_to VNull rescheduledTo = rescheduledTo ∨
                 rescheduledTo = VUndefined) by (destruct rescheduledTo; auto).
    destruct Hto as [-> | [Hto | Hto]]; [reflexivity | |].
    + destruct Hd as [-> | ->]; [by rewrite Hto | reflexivity].
    + destruct Hd as [-> | ->]; [|reflexivity].
      rewrite Hto. by destruct (truthy rescheduledTo).
  - intros b -> -> Ha Hc Hr. simpl. unfold transition.
    by rewrite !bool_decide_false.
Qed.

Lemma create_201_duration (req_user : payload) (b : creation)
    (oid : string) (now : Z) (bs : bookings) (r : response) (bs' : bookings) :
  create req_user b oid now bs = (r, bs') →
  status r = 201 →
  ∃ booking,
    bs' !! oid = Some booking ∧
    truthy (c_duration b) = true ∧
    castNumber (c_duration b) = inr (Some (Booking.duration booking)).
Proof.
  intros Hc Hr.
  destruct (create_201 _ _ _ _ _ _ _ Hc Hr)
    as (userId & sd & booking & _ & _ & Hd & _ & _ & _ & Hb & -> & ->).
  apply build_inr in Hb as (_ & _ & _ & _ & Hcast).
  exists booking. by rewrite lookup_insert_eq.
Qed.

(** C9, as the code has it. A creation that succeeds stores the duration
    of the request converted to a number; that value was truthy in the
    request, so a duration sent as a number is not zero. Nothing checks
    its sign or its range. *)
Theorem stored_duration_is_the_given_one (req_user : payload) (b : creation)
    (oid : string) (now : Z) (bs : bookings) (r : response) (bs' : bookings) :
  create req_user b oid now bs = (r, bs') →
  status r = 201 →
  ∃ booking,
    bs' !! oid = Some booking ∧
    json r = BookingBody "Booking created" booking None ∧
    truthy (c_duration b) = true ∧
    castNumber (c_duration b) = inr (Some (Booking.duration booking)) ∧
    (∀ n, c_duration b = VNum n → Booking.duration booking = n ∧ n ≠ 0).
Proof.
  intros Hc Hr.
  destruct (create_201 _ _ _ _ _ _ _ Hc Hr)
    as (userId & sd & booking & _ & _ & Hd & _ & _ & _ & Hb & -> & ->).
  apply build_inr in Hb as (_ & _ & _ & _ & Hcast).
  exists booking. rewrite lookup_insert_eq.
  split; [done|]. split; [done|]. split; [done|]. split; [done|].
  intros n Hn. rewrite Hn in Hcast, Hd. simpl in Hcast, Hd.
  split; [congruence|]. intros ->. discriminate.
Qed.

(** C10, as the code has it. For a request with an authenticated user,
    if type, duration, platform or scheduledAt is falsy the creation
    fails with 400 and the message of missing fields, and stores
    nothing; this is the outcome of an absent field, and also that of a
    duration equal to the number 0 and of an empty string for type,
    platform or scheduledAt. Hence no request whose duration is the
    number 0 creates a booking. A stored duration of 0 can only come
    from a duration sent as a non-empty string. *)
Theorem presence_is_truthiness (req_user : payload) (userId : string) (b : creation)
    (oid : string) (now : Z) (bs : bookings) :
  Middleware.claimed_id req_user = Some userId →
  let missing := (fail 400 "Missing required fields.", bs) in
  (truthy (c_type b) = false ∨ truthy (c_duration b) = false ∨
   truthy (c_platform b) = false ∨ truthy (c_scheduledAt b) = false →
   create req_user b oid now bs = missing) ∧
  (c_type b = VUndefined ∨ c_duration b = VUndefined ∨
   c_platform b = VUndefined ∨ c_scheduledAt b = VUndefined →
   create req_user b oid now bs = missing) ∧
  (c_duration b = VNum 0 ∨ c_type b = VStr "" ∨ c_platform b = VStr "" ∨
   c_scheduledAt b = VStr "" →
   create req_user b oid now bs = missing) ∧
  (∀ r bs' booking,
     create req_user b oid now bs = (r, bs') → status r = 201 →
     bs' !! oid = Some booking → Booking.duration booking = 0 →
     ∃ s, c_duration b = VStr s ∧ s ≠ "").
Proof.
  intros Hu missing.
  assert (Hfalsy : truthy (c_type b) = false ∨ truthy (c_duration b) = false ∨
     truthy (c_platform b) = false ∨ truthy (c_scheduledAt b) = false →
     create req_user b oid now bs = missing).
  { intros Hf. unfold create. rewrite Hu.
    assert (negb (truthy (c_type b)) || negb (truthy (c_duration b))
            || negb (truthy (c_platform b)) || negb (truthy (c_scheduledAt b)) = true)
      as ->; [|reflexivity].
    destruct Hf as [-> | [-> | [-> | ->]]]; simpl; rewrite ?orb_true_r; done. }
  split; [exact Hfalsy|]. split; [|split].
  - intros [Hv | [Hv | [Hv | Hv]]]; apply Hfalsy; rewrite Hv; simpl; tauto.
  - intros [Hv | [Hv | [Hv | Hv]]]; apply Hfalsy; rewrite Hv; simpl; tauto.
  - intros r bs' booking Hc Hr Hb Hzero.
    destruct (create_201_duration _ _ _ _ _ _ _ Hc Hr)
      as (booking' & Hb' & Hd & Hcast).
    assert (booking' = booking) as -> by congruence.
    rewrite Hzero in Hcast.
    destruct (c_duration b) as [| |[]|n|s]; simpl in *; try done.
    + injection Hcast as ->. discriminate.
    + exists s. split; [done|]. intros ->. discriminate.
Qed.

End BookingLifecycle.

(** ** Accounts and guards *)

Section Accounts.
Context `{Host}.
Import Middleware AuthRoutes AdminRoutes.

Lemma findOne_Some {D : Type} (P : D → Prop) `{!∀ d, Decision (P d)}
    (c : gmap string D) (d : D) :
  findOne P c = Some d → P d ∧ ∃ i, c !! i = Some d.
Proof.
  unfold findOne. intros Hf. apply fmap_Some in Hf as ([n [i d']] & Hf & ->).
  apply list_find_Some in Hf as (Hl & HP & _). simpl in *.
  split; [done|]. exists i. apply elem_of_map_to_list.
  by eapply list_elem_of_lookup_2.
Qed.

Lemma find_elem_of {D : Type} (P : D → bool) (c : gmap string D) (d : D) :
  d ∈ find P c → P d = true ∧ ∃ i, c !! i = Some d.
Proof.
  unfold find. intros Hd. apply list_elem_of_filter in Hd as [HP Hd].
  apply list_elem_of_fmap in Hd as ([i d'] & -> & Hd).
  apply elem_of_map_to_list in Hd. split; [by apply Is_true_eq_true | eauto].
Qed.

Lemma page_slice_elem_of {D : Type} (createdAt : D → Z) (sk l : number)
    (ds : list D) (d : D) :
  d ∈ page_slice createdAt sk l ds → d ∈ ds.
Proof.
  unfold page_slice. intros Hd.
  assert (Hrest : d ∈ drop (match sk with Num sk => Z.to_nat sk | NaN => skip_NaN end)
                         (merge_sort (newest_first createdAt) ds)).
  { destruct l as [|n]; [destruct limit_NaN|]; try done;
      by apply (subseteq_take _ _ _) in Hd. }
  apply (subseteq_drop _ _ _) in Hrest.
  by rewrite merge_sort_Permutation in Hrest.
Qed.

Lemma toObject_has_passwordHash (u : User.doc) :
  User.toObject u !! "passwordHash" = Some (PStr (User.passwordHash u)).
Proof. reflexivity. Qed.

Lemma delete_passwordHash (u : User.doc) :
  sanitized_copy_of (delete "passwordHash" (User.toObject u)) u.
Proof.
  split; [apply lookup_delete_eq|]. intros k Hk. by apply lookup_delete_ne.
Qed.

Lemma sanitizeUser_Some (d : option User.doc) (o : obj) :
  sanitizeUser d = Some o → ∃ u, d = Some u ∧ sanitized_copy_of o u.
Proof.
  destruct d as [u|]; [|discriminate]. intros [= <-].
  exists u. split; [done | apply delete_passwordHash].
Qed.

(** C1, as the code has it. For a request whose bearer token verifies
    and asserts an id, the admin guard fetches the user with that id from
    the collection as it is now and decides on that record: no such user,
    401 Unauthorized; a role other than admin, 403 Forbidden; the role
    admin, the request goes on with the payload and the fresh record.
    The token's own role claim and the ban fields of the record play no
    part. An id that is not well formed makes the lookup throw, which is
    401 as well. *)
Theorem adminAuth_decides_on_fresh_record (authorization : option string)
    (us : users) (token : string) (p : payload) (i : string) :
  bearer (or_str authorization "") = Some token →
  jwt_verify token = Some p →
  claimed_id p = Some i →
  (ObjectId_isValid i = false →
   adminAuth authorization us = Rejected (fail 401 "Invalid or expired token")) ∧
  (ObjectId_isValid i = true →
   (us !! i = None →
    adminAuth authorization us = Rejected (fail 401 "Unauthorized")) ∧
   (∀ u, us !! i = Some u → User.role u ≠ User.admin →
    adminAuth authorization us = Rejected (fail 403 "Forbidden: admin only")) ∧
   (∀ u, us !! i = Some u → User.role u = User.admin →
    adminAuth authorization us = Next p (Some u))).
Proof.
  intros Hb Hv Hi. unfold adminAuth, findById. rewrite Hb, Hv, Hi.
  split; [by intros ->|]. intros ->. cbn [negb].
  split; [by intros ->|]. split; intros u -> Hr.
  - by rewrite bool_decide_true.
  - by rewrite bool_decide_false by (by intros ?).
Qed.

(** C2. If the email of a login request finds a user whose record has
    [isBanned] true, the login issues no token, whatever the password
    and whatever the comparison with the stored hash would say; and when
    an email and a password are supplied it fails with 403 and carries
    the ban: the reason of the record (or the default text when the
    record has none) and the [until] instant in ISO form (or null). *)
Theorem banned_user_cannot_log_in (email password : option string) (us : users)
    (user : User.doc) :
  findOne (λ d, User.email d
                = User.set_email (trim (toLowerCase (default "" email)))) us
  = Some user →
  User.isBanned user = true →
  token_of (login email password us) = None ∧
  (default "" email ≠ "" → default "" password ≠ "" →
   login email password us
   = {| status := 403;
        json := BanNotice "Account is banned."
                  (if empty (User.banReason user) then "No reason provided"
                   else User.banReason user)
                  (toISOString <$> User.bannedUntil user) |}).
Proof.
  intros Hfind Hban. unfold login.
  destruct (empty (default "" email) || empty (default "" password)) eqn:He.
  - split; [reflexivity|]. intros Hemail Hpw.
    apply orb_true_iff in He as [He|He]; apply bool_decide_eq_true in He; done.
  - rewrite Hfind, Hban. split; [reflexivity | done].
Qed.

(** Where the path spells the id as the token does, the handlers refuse:
    deleting fails with 400, banning fails with 400, and setting a role
    other than admin fails with 400, and the collection is returned as
    it was. Setting a role that is neither member nor admin fails with
    400 for every actor and target, and changes nothing. *)
Lemma same_spelling_is_refused (req_user : payload) (target : string) (us : users) :
  id req_user = Some target →
  (∃ m, deleteUser req_user target us = (fail 400 m, us)) ∧
  (∀ reason until now,
     ∃ m, banUser req_user target reason until now us = (fail 400 m, us)) ∧
  (∀ role now, role ≠ VStr "admin" →
     ∃ m, setRole req_user target role now us = (fail 400 m, us)) ∧
  (∀ actor other role now, role ≠ VStr "member" → role ≠ VStr "admin" →
     setRole actor other role now us = (fail 400 "Invalid role", us)).
Proof.
  intros Hself. split; [|split; [|split]].
  - unfold deleteUser. destruct (negb (ObjectId_isValid target)); [eauto|].
    rewrite bool_decide_true by done. eauto.
  - intros reason until now. unfold banUser.
    destruct (negb (ObjectId_isValid target)); [eauto|].
    rewrite bool_decide_true by done. eauto.
  - intros role now Hrole. unfold setRole.
    destruct (role_of_value role) as [r|] eqn:Hr; [|eauto].
    destruct (negb (ObjectId_isValid target)); [eauto|].
    rewrite bool_decide_true by done.
    assert (r ≠ User.admin) as Hne.
    { intros ->. unfold role_of_value in Hr.
      destruct role as [| | | |s]; try done.
      repeat case_bool_decide; simplify_eq. }
    rewrite bool_decide_true by done. simpl. eauto.
  - intros actor other role now Hm Ha. unfold setRole.
    assert (role_of_value role = None) as ->; [|reflexivity].
    unfold role_of_value. destruct role as [| | | |s]; try done.
    repeat case_bool_decide; simplify_eq; done.
Qed.

(** An update that keeps the id, the email and the username of the
    document it finds is written. *)
Lemma update_in_place (us : users) (i : string) (u : User.doc)
    (f : User.doc → User.doc) :
  well_formed us → us !! i = Some u →
  User._id (f u) = User._id u → User.email (f u) = User.email u →
  User.username (f u) = User.username u →
  findByIdAndUpdate (λ _, true) us i f = inr (Some (f u), <[i := f u]> us).
Proof.
  intros (Hkeyed & Hemail & Hname) Hu Hid He Hn. unfold findByIdAndUpdate. rewrite Hu.
  cbn [negb]. unfold violates.
  rewrite bool_decide_false.
  - rewrite bool_decide_false; [done|].
    intros [d Hd]. apply findOne_Some in Hd as ([Hsame Hother] & j & Hj).
    apply Hother. rewrite Hid, (Hkeyed _ _ Hj), (Hkeyed _ _ Hu).
    apply (Hname j i d u Hj Hu). by rewrite Hsame, Hn.
  - intros [d Hd]. apply findOne_Some in Hd as ([Hsame Hother] & j & Hj).
    apply Hother. rewrite Hid, (Hkeyed _ _ Hj), (Hkeyed _ _ Hu).
    apply (Hemail j i d u Hj Hu). by rewrite Hsame, He.
Qed.

(** C5, at the input where the code departs from it. The handlers
    compare the id of the token with the id of the path as strings, and
    the store call that follows casts the id of the path to an ObjectId.
    When the path spells the actor's own id otherwise than the token
    does, the comparison does not see that the target is the actor: in a
    collection with unique ids, emails and usernames, the deletion
    removes the actor's record, the ban is written to it, and so is the
    role member, each with status 200. *)
Theorem admin_acts_on_self_by_another_spelling (req_user : payload)
    (target : string) (us : users) (actor : User.doc) :
  well_formed us →
  ObjectId_isValid target = true →
  id req_user = Some (castObjectId target) →
  us !! castObjectId target = Some actor →
  target ≠ castObjectId target →
  let self := castObjectId target in
  deleteUser req_user target us = (ok (Message "User deleted."), delete self us) ∧
  (∀ now,
     banUser req_user target VUndefined VUndefined now us
     = (ok (BanState "User banned." self true "No reason provided" None),
        <[self := ban "No reason provided" None now actor]> us)) ∧
  (∀ now,
     setRole req_user target (VStr "member") now us
     = (ok (RoleState "Role updated." self User.member),
        <[self := with_role User.member now actor]> us)).
Proof.
  intros Hwf Hok Hself Hactor Hspelled self. subst self.
  assert (Hdiffer : id req_user ≠ Some target) by (rewrite Hself; congruence).
  assert (Hid : User._id actor = castObjectId target) by (by apply Hwf).
  split; [|split].
  - unfold deleteUser, findByIdAndDelete. rewrite Hok. cbn [negb].
    rewrite bool_decide_false by done. by rewrite Hactor.
  - intros now. unfold banUser. rewrite Hok. cbn [negb].
    rewrite bool_decide_false by done. cbn [default_to truthy castString default].
    rewrite (update_in_place us _ actor (ban "No reason provided" None now));
      try done.
    cbn [User._id User.isBanned User.banReason User.bannedUntil ban]. by rewrite Hid.
  - intros now. unfold setRole. cbn [role_of_value].
    rewrite bool_decide_true by done. rewrite Hok. cbn [negb].
    rewrite (bool_decide_false (id req_user = _)) by done. cbn [andb].
    rewrite (update_in_place us _ actor (with_role User.member now)); try done.
    cbn [User._id User.role with_role]. by rewrite Hid.
Qed.

(** C6. The user object in the response of register, login, the reading
    and the update of one's profile, and every user object of the admin
    listing, has no [passwordHash], and each of its other properties is
    that of a document of the collection (for register and the update,
    the collection after the request). *)
Theorem responses_hide_passwordHash :
  (∀ b oid now us r us' o,
     register b oid now us = (r, us') → user_of r = Some o →
     ∃ u, us' !! oid = Some u ∧ sanitized_copy_of o u) ∧
  (∀ email password us o,
     user_of (login email password us) = Some o →
     ∃ i u, us !! i = Some u ∧ sanitized_copy_of o u) ∧
  (∀ req_user us o,
     user_of (me req_user us) = Some o →
     ∃ i u, us !! i = Some u ∧ sanitized_copy_of o u) ∧
  (∀ req_user up now us r us' o,
     updateSelf req_user up now us = (r, us') → user_of r = Some o →
     ∃ i u, us' !! i = Some u ∧ sanitized_copy_of o u) ∧
  (∀ query us objs meta,
     json (listUsers query us) = UserPage objs meta →
     ∀ o, o ∈ objs → ∃ i u, us !! i = Some u ∧ sanitized_copy_of o u).
Proof.
  split; [|split; [|split; [|split]]].
  - intros b oid now us r us' o. unfold register. branches.
    intros [= <- <-] [= <-].
    match goal with
    | Hi : insertUser _ ?u = inr _ |- _ =>
        exists u; unfold insertUser in Hi; repeat case_match; simplify_eq
    end.
    rewrite lookup_insert_eq. split; [done | apply delete_passwordHash].
  - intros email password us o. unfold login.
    repeat (case_match; try discriminate).
    intros [= <-].
    match goal with
    | Hf : findOne _ _ = Some _ |- _ => apply findOne_Some in Hf as (_ & i & Hi)
    end.
    eexists _, _. split; [exact Hi | apply delete_passwordHash].
  - intros req_user us o. unfold me, findById.
    repeat (case_match; try discriminate).
    intros [= <-]. eexists _, _. split; [eassumption | apply delete_passwordHash].
  - intros req_user up now us r us' o. unfold updateSelf. branches.
    intros [= <- <-] [= <-].
    match goal with
    | Hu : findByIdAndUpdate _ _ ?i _ = inr _ |- _ =>
        exists i; unfold findByIdAndUpdate in Hu; repeat case_match; simplify_eq
    end.
    eexists. rewrite lookup_insert_eq. split; [done | apply delete_passwordHash].
  - intros query us objs meta. unfold listUsers.
    destruct (users_plan query) as [pl|]; [|discriminate].
    intros [= <- <-] o Ho. unfold hide_sensitive in Ho.
    apply list_elem_of_fmap in Ho as (u & -> & Hu).
    apply page_slice_elem_of, find_elem_of in Hu as (_ & i & Hi).
    exists i, u. split; [done | apply delete_passwordHash].
Qed.

End Accounts.

(** ** Closed examples on the sample data *)

Section Examples.
#[local] Existing Instance Sample.host.
Import Sample.

(** Against C1 as stated: Ada's record says she is banned, her token is
    valid, her fresh role is admin, and the guard lets her request go on. *)
Lemma banned_admin_passes_the_guard :
  people !! ada_id = Some ada ∧
  User.isBanned ada = true ∧
  jwt_verify "signed:64b7f0c2a1d3e4f5a6b7c8d9" = Some (of_id ada_id) ∧
  Middleware.adminAuth ada_header people = Middleware.Next (of_id ada_id) (Some ada).
Proof. repeat split; vm_compute; reflexivity. Qed.

Lemma adminAuth_decides_on_fresh_record_witness :
  Middleware.bearer (or_str bob_header "") = Some "signed:64b7f0c2a1d3e4f5a6b7c8da" ∧
  jwt_verify "signed:64b7f0c2a1d3e4f5a6b7c8da" = Some (of_id bob_id) ∧
  Middleware.claimed_id (of_id bob_id) = Some bob_id ∧
  ObjectId_isValid bob_id = true ∧
  people !! bob_id = Some bob ∧
  User.role bob ≠ User.admin ∧
  Middleware.adminAuth bob_header people
  = Middleware.Rejected (fail 403 "Forbidden: admin only").
Proof.
  assert (Hb : Middleware.bearer (or_str bob_header "")
               = Some "signed:64b7f0c2a1d3e4f5a6b7c8da") by (vm_compute; reflexivity).
  assert (Hv : jwt_verify "signed:64b7f0c2a1d3e4f5a6b7c8da" = Some (of_id bob_id))
    by (vm_compute; reflexivity).
  assert (Hi : Middleware.claimed_id (of_id bob_id) = Some bob_id)
    by (vm_compute; reflexivity).
  assert (Hok : ObjectId_isValid bob_id = true) by (vm_compute; reflexivity).
  assert (Hl : people !! bob_id = Some bob) by (vm_compute; reflexivity).
  assert (Hr : User.role bob ≠ User.admin) by discriminate.
  repeat (split; [assumption|]).
  exact (proj1 (proj2 (proj2 (adminAuth_decides_on_fresh_record
           bob_header people _ _ _ Hb Hv Hi) Hok)) bob Hl Hr).
Defined.

Lemma banned_user_cannot_log_in_witness :
  findOne (λ d, User.email d
                = User.set_email (trim (toLowerCase (default "" (Some " ADA@example.org ")))))
    people = Some ada ∧
  User.isBanned ada = true ∧
  bcrypt_compare "correct horse" (User.passwordHash ada) = true ∧
  token_of (AuthRoutes.login (Some " ADA@example.org ") (Some "correct horse") people)
  = None ∧
  AuthRoutes.login (Some " ADA@example.org ") (Some "correct horse") people
  = {| status := 403;
       json := BanNotice "Account is banned." "abuse" (Some "2030-01-01T00:00:00.000Z") |}.
Proof.
  assert (Hf : findOne (λ d, User.email d
                = User.set_email (trim (toLowerCase (default "" (Some " ADA@example.org ")))))
    people = Some ada) by (vm_compute; reflexivity).
  assert (Hban : User.isBanned ada = true) by reflexivity.
  destruct (banned_user_cannot_log_in (Some " ADA@example.org ")
              (Some "correct horse") people ada Hf Hban) as [Hno Hres].
  split; [exact Hf|]. split; [exact Hban|]. split; [vm_compute; reflexivity|].
  split; [exact Hno|].
  apply Hres; discriminate.
Defined.

Lemma people_well_formed : well_formed people.
Proof.
  unfold people. repeat split.
  - intros i u Hu.
    apply lookup_insert_Some in Hu as [[<- <-]|[_ Hu]]; [reflexivity|].
    apply lookup_insert_Some in Hu as [[<- <-]|[_ Hu]]; [reflexivity|].
    by rewrite lookup_empty in Hu.
  - intros i j u v Hu Hv He.
    apply lookup_insert_Some in Hu as [[<- <-]|[_ Hu]];
      [|apply lookup_insert_Some in Hu as [[<- <-]|[_ Hu]];
         [|by rewrite lookup_empty in Hu]];
      (apply lookup_insert_Some in Hv as [[<- <-]|[_ Hv]];
         [|apply lookup_insert_Some in Hv as [[<- <-]|[_ Hv]];
            [|by rewrite lookup_empty in Hv]]);
      first [reflexivity | discriminate He].
  - intros i j u v Hu Hv He.
    apply lookup_insert_Some in Hu as [[<- <-]|[_ Hu]];
      [|apply lookup_insert_Some in Hu as [[<- <-]|[_ Hu]];
         [|by rewrite lookup_empty in Hu]];
      (apply lookup_insert_Some in Hv as [[<- <-]|[_ Hv]];
         [|apply lookup_insert_Some in Hv as [[<- <-]|[_ Hv]];
            [|by rewrite lookup_empty in Hv]]);
      first [reflexivity | discriminate He].
Qed.

Lemma rescheduledTo_only_while_rescheduled_witness :
  all_consistent agenda ∧
  Middleware.claimed_id (of_id bob_id) = Some bob_id ∧
  agenda !! fresh_id = None ∧
  new_Date (VStr "2030-01-01T00:00:00.000Z") = Num 1893456000000 ∧
  ObjectId_isValid booking_id = true ∧
  agenda !! castObjectId booking_id = Some moved ∧
  Booking.rescheduledTo moved = Some 1893456000000 ∧
  (∃ booking,
     BookingRoutes.create (of_id bob_id) (wanted (VNum 30)) fresh_id 6000 agenda
     = ({| status := 201; json := BookingBody "Booking created" booking None |},
        <[fresh_id := booking]> agenda) ∧
     Booking.status booking = Booking.pending ∧
     Booking.rescheduledTo booking = None) ∧
  (∃ b',
     BookingRoutes.adminTransition booking_id (VStr "approve") (VStr "fine")
       VUndefined 7000 people agenda
     = (ok (BookingBody "Booking updated" b' (BookingRoutes.populate people b')),
        <[castObjectId booking_id := b']> agenda) ∧
     Booking.status b' = Booking.approved ∧ Booking.rescheduledTo b' = None ∧
     Booking.adminNote b' = Some "fine") ∧
  (∃ b',
     BookingRoutes.adminTransition booking_id (VStr "reschedule") (VStr "later")
       (VStr "2030-01-01T00:00:00.000Z") 7000 people agenda
     = (ok (BookingBody "Booking updated" b' (BookingRoutes.populate people b')),
        <[castObjectId booking_id := b']> agenda) ∧
     Booking.status b' = Booking.rescheduled ∧
     Booking.rescheduledTo b' = Some 1893456000000 ∧
     Booking.adminNote b' = Some "later").
Proof.
  assert (Hinv : all_consistent agenda).
  { apply all_consistent_insert; [apply all_consistent_empty|]. intros _. reflexivity. }
  assert (Hi : Middleware.claimed_id (of_id bob_id) = Some bob_id)
    by (vm_compute; reflexivity).
  assert (Hbob : ObjectId_isValid bob_id = true) by (vm_compute; reflexivity).
  assert (Hfree : agenda !! fresh_id = None) by (vm_compute; reflexivity).
  assert (Hd : new_Date (VStr "2030-01-01T00:00:00.000Z") = Num 1893456000000)
    by (vm_compute; reflexivity).
  assert (Hok : ObjectId_isValid booking_id = true) by (vm_compute; reflexivity).
  assert (Hl : agenda !! castObjectId booking_id = Some moved)
    by (vm_compute; reflexivity).
  destruct (proj2 rescheduledTo_only_while_rescheduled agenda Hinv)
    as (_ & Hcreate & _ & Hstored).
  split; [exact Hinv|]. split; [exact Hi|]. split; [exact Hfree|].
  split; [exact Hd|]. split; [exact Hok|]. split; [exact Hl|].
  split; [reflexivity|]. split; [|split].
  - apply (Hcreate (of_id bob_id) bob_id (wanted (VNum 30)) fresh_id 6000
             "session" Booking.session 30 "zoom" 1893456000000);
      first [assumption | reflexivity | discriminate].
  - exact (proj1 (Hstored booking_id moved (VStr "fine") VUndefined 7000 people
                    Hok Hl)).
  - exact (proj2 (proj2 (Hstored booking_id moved (VStr "later")
                           (VStr "2030-01-01T00:00:00.000Z") 7000 people Hok Hl))
             1893456000000 eq_refl Hd).
Defined.

Lemma adminTransition_failures_witness :
  ObjectId_isValid booking_id = true ∧
  agenda !! castObjectId booking_id = Some moved ∧
  new_Date (VStr "soon") = NaN ∧
  BookingRoutes.adminTransition booking_id (VStr "reschedule") VUndefined (VStr "soon")
    7000 people agenda
  = (fail 400 "Invalid rescheduledTo date", agenda).
Proof.
  assert (Hok : ObjectId_isValid booking_id = true) by (vm_compute; reflexivity).
  assert (Hl : agenda !! castObjectId booking_id = Some moved)
    by (vm_compute; reflexivity).
  assert (Hd : new_Date (VStr "soon") = NaN) by (vm_compute; reflexivity).
  repeat (split; [assumption|]).
  exact (proj1 (proj2 (proj2 (adminTransition_failures booking_id (VStr "reschedule")
           VUndefined (VStr "soon") 7000 people agenda)))
           moved Hok Hl eq_refl (or_intror (or_intror Hd))).
Defined.

(** Ada's id with its digits in capitals: the path of
    DELETE /api/admin/users/64B7F0C2A1D3E4F5A6B7C8D9, sent with Ada's own
    token, passes the guard and the comparison, and Ada's record is
    gone; with the role route she is a member afterwards. *)
Lemma admin_acts_on_self_by_another_spelling_witness :
  let spelled := "64B7F0C2A1D3E4F5A6B7C8D9" in
  well_formed people ∧
  ObjectId_isValid spelled = true ∧
  castObjectId spelled = ada_id ∧
  id (of_id ada_id) = Some ada_id ∧
  people !! ada_id = Some ada ∧
  spelled ≠ ada_id ∧
  Router.DELETE_admin_user ada_header ada_id people
  = (fail 400 "Cannot delete your own admin account.", people) ∧
  Router.DELETE_admin_user ada_header spelled people
  = (ok (Message "User deleted."), delete ada_id people) ∧
  AdminRoutes.deleteUser (of_id ada_id) spelled people
  = (ok (Message "User deleted."), delete ada_id people) ∧
  AdminRoutes.banUser (of_id ada_id) spelled VUndefined VUndefined 7000 people
  = (ok (BanState "User banned." ada_id true "No reason provided" None),
     <[ada_id := AdminRoutes.ban "No reason provided" None 7000 ada]> people) ∧
  AdminRoutes.setRole (of_id ada_id) spelled (VStr "member") 7000 people
  = (ok (RoleState "Role updated." ada_id User.member),
     <[ada_id := AdminRoutes.with_role User.member 7000 ada]> people).
Proof.
  intros spelled.
  assert (Hok : ObjectId_isValid spelled = true) by (vm_compute; reflexivity).
  assert (Hcast : castObjectId spelled = ada_id) by (vm_compute; reflexivity).
  assert (Hself : id (of_id ada_id) = Some (castObjectId spelled))
    by (vm_compute; reflexivity).
  assert (Hactor : people !! castObjectId spelled = Some ada)
    by (vm_compute; reflexivity).
  assert (Hne : spelled ≠ castObjectId spelled) by (vm_compute; discriminate).
  pose proof (admin_acts_on_self_by_another_spelling (of_id ada_id) spelled people
                ada people_well_formed Hok Hself Hactor Hne) as Hbug.
  cbv zeta in Hbug. rewrite Hcast in Hbug, Hactor, Hne.
  destruct Hbug as (Hdel & Hban & Hrole).
  split; [exact people_well_formed|]. split; [exact Hok|]. split; [exact Hcast|].
  split; [reflexivity|]. split; [exact Hactor|]. split; [exact Hne|].
  split; [vm_compute; reflexivity|].
  split; [vm_compute; reflexivity|].
  split; [exact Hdel|]. split; [exact (Hban 7000) | exact (Hrole 7000)].
Defined.

Lemma responses_hide_passwordHash_witness :
  user_of (AuthRoutes.login (Some "bob@example.org") (Some "hunter2hunter2") people)
  = Some (delete "passwordHash" (User.toObject bob)) ∧
  ∃ i u, people !! i = Some u ∧
    sanitized_copy_of (delete "passwordHash" (User.toObject bob)) u.
Proof.
  assert (Hu : user_of (AuthRoutes.login (Some "bob@example.org")
                          (Some "hunter2hunter2") people)
               = Some (delete "passwordHash" (User.toObject bob)))
    by (vm_compute; reflexivity).
  split; [exact Hu|].
  exact (proj1 (proj2 responses_hide_passwordHash) _ _ _ _ Hu).
Defined.


(** Against C9 as stated: a duration of -5 is accepted and stored. *)
Lemma negative_duration_is_stored :
  let out := BookingRoutes.create (of_id bob_id) (wanted (VNum (-5))) fresh_id 6000 agenda in
  status out.1 = 201 ∧
  Booking.duration <$> out.2 !! fresh_id = Some (-5) ∧
  ¬ (0 < -5).
Proof.
  intros out. split; [vm_compute; reflexivity|].
  split; [vm_compute; reflexivity | lia].
Qed.

Lemma stored_duration_is_the_given_one_witness :
  let out := BookingRoutes.create (of_id bob_id) (wanted (VNum 30)) fresh_id 6000 agenda in
  status out.1 = 201 ∧
  ∃ booking,
    out.2 !! fresh_id = Some booking ∧
    json out.1 = BookingBody "Booking created" booking None ∧
    truthy (VNum 30) = true ∧
    castNumber (VNum 30) = inr (Some (Booking.duration booking)) ∧
    (∀ n, VNum 30 = VNum n → Booking.duration booking = n ∧ n ≠ 0).
Proof.
  intros out.
  assert (Hr : status out.1 = 201) by (vm_compute; reflexivity).
  split; [exact Hr|].
  exact (stored_duration_is_the_given_one (of_id bob_id) (wanted (VNum 30)) fresh_id
           6000 agenda out.1 out.2 (surjective_pairing out) Hr).
Defined.

(** Against the last clause of C10 as stated: the duration ["0"] is a
    non-empty string, hence truthy; it is stored as the number 0. *)
Lemma string_zero_duration_is_stored :
  let out := BookingRoutes.create (of_id bob_id) (wanted (VStr "0")) fresh_id 6000 agenda in
  truthy (VStr "0") = true ∧
  status out.1 = 201 ∧
  Booking.duration <$> out.2 !! fresh_id = Some 0.
Proof. intros out. repeat split; vm_compute; reflexivity. Qed.

Lemma presence_is_truthiness_witness :
  Middleware.claimed_id (of_id bob_id) = Some bob_id ∧
  BookingRoutes.create (of_id bob_id) (wanted (VNum 0)) fresh_id 6000 agenda
  = (fail 400 "Missing required fields.", agenda).
Proof.
  assert (Hu : Middleware.claimed_id (of_id bob_id) = Some bob_id)
    by (vm_compute; reflexivity).
  split; [exact Hu|].
  apply (proj1 (proj2 (proj2 (presence_is_truthiness (of_id bob_id) bob_id
           (wanted (VNum 0)) fresh_id 6000 agenda Hu)))).
  left. reflexivity.
Defined.

End Examples.

(** * Further properties of the handlers *)

(** ** Normal forms of emails *)

Section Normal_forms.

Lemma lower_char_idem (c : ascii) : lower_char (lower_char c) = lower_char c.
Proof. destruct c as [[] [] [] [] [] [] [] []]; reflexivity. Qed.

Lemma is_white_lower_char (c : ascii) : is_white (lower_char c) = is_white c.
Proof. destruct c as [[] [] [] [] [] [] [] []]; reflexivity. Qed.

Lemma toLowerCase_idem (s : string) : toLowerCase (toLowerCase s) = toLowerCase s.
Proof. induction s as [|c s IH]; simpl; [done|]. by rewrite lower_char_idem, IH. Qed.

Lemma trimStart_toLowerCase (s : string) :
  trimStart (toLowerCase s) = toLowerCase (trimStart s).
Proof.
  induction s as [|c s IH]; simpl; [done|].
  rewrite is_white_lower_char. by destruct (is_white c).
Qed.

Lemma trimEnd_toLowerCase (s : string) :
  trimEnd (toLowerCase s) = toLowerCase (trimEnd s).
Proof.
  induction s as [|c s IH]; simpl; [done|].
  rewrite IH, is_white_lower_char.
  destruct (trimEnd s); simpl; [by destruct (is_white c) | done].
Qed.

Lemma trim_toLowerCase (s : string) : trim (toLowerCase s) = toLowerCase (trim s).
Proof. unfold trim. by rewrite trimStart_toLowerCase, trimEnd_toLowerCase. Qed.

Lemma trimEnd_idem (s : string) : trimEnd (trimEnd s) = trimEnd s.
Proof.
  induction s as [|c s IH]; simpl; [done|].
  destruct (trimEnd s) as [|d t] eqn:Ht.
  - destruct (is_white c) eqn:Hc; simpl; [done | by rewrite Hc].
  - cbn [trimEnd] in *. by rewrite IH.
Qed.

Lemma trimStart_head (s : string) (c : ascii) (t : string) :
  trimStart s = String c t → is_white c = false.
Proof.
  induction s as [|d s IH]; simpl; [done|].
  destruct (is_white d) eqn:Hd; [done|]. by intros [= <- <-].
Qed.

Lemma trimStart_trimEnd_trimStart (s : string) :
  trimStart (trimEnd (trimStart s)) = trimEnd (trimStart s).
Proof.
  destruct (trimStart s) as [|c t] eqn:Hs; [done|].
  apply trimStart_head in Hs. simpl.
  destruct (trimEnd t); rewrite ?Hs; simpl; by rewrite Hs.
Qed.

Lemma trim_idem (s : string) : trim (trim s) = trim s.
Proof.
  unfold trim. by rewrite trimStart_trimEnd_trimStart, trimEnd_idem.
Qed.

Lemma set_email_idem (e : string) : User.set_email (User.set_email e) = User.set_email e.
Proof.
  unfold User.set_email.
  by rewrite <- trim_toLowerCase, toLowerCase_idem, trim_idem.
Qed.

(** What the first login handler looks up is what the second looks up. *)
Lemma set_email_normalized (e : string) :
  User.set_email (trim (toLowerCase e)) = User.set_email (toLowerCase e).
Proof.
  unfold User.set_email.
  by rewrite <- !trim_toLowerCase, !toLowerCase_idem, trim_idem.
Qed.

End Normal_forms.

(** ** Lookups *)

Section Lookups.
Context {D : Type}.

Lemma findOne_None (P : D → Prop) `{!∀ d, Decision (P d)} (c : gmap string D) :
  findOne P c = None ↔ ∀ i d, c !! i = Some d → ¬ P d.
Proof.
  unfold findOne. rewrite fmap_None, list_find_None, Forall_forall. split.
  - intros Hall i d Hd. apply (Hall (i, d)). by apply elem_of_map_to_list.
  - intros Hnone [i d] Hin. apply (Hnone i d). by apply elem_of_map_to_list.
Qed.

(** When the documents that satisfy the filter are all the same one,
    that is the one found. *)
Lemma findOne_the (P : D → Prop) `{!∀ d, Decision (P d)} (c : gmap string D)
    (i : string) (d : D) :
  c !! i = Some d → P d →
  (∀ j e, c !! j = Some e → P e → e = d) →
  findOne P c = Some d.
Proof.
  intros Hd HP Hthe. destruct (findOne P c) as [e|] eqn:Hf.
  - apply findOne_Some in Hf as (HPe & j & Hj). f_equal. by eapply Hthe.
  - exfalso. eapply findOne_None in Hf; eauto.
Qed.

End Lookups.

(** ** Guards and routes *)

Section Guarded.
Context `{Host}.
Import Middleware.

(** One character of the header at a time. *)
Ltac peel h :=
  destruct h as [|[[] [] [] [] [] [] [] []] h]; try (intros; discriminate).

Lemma bearer_Some (header t : string) :
  bearer header = Some t →
  header = "Bearer " +:+ t ∧ t ≠ "" ∧ one_line t = true.
Proof.
  unfold bearer. peel header. peel header. peel header. peel header.
  peel header. peel header. peel header.
  destruct (negb (bool_decide (header = "")) && one_line header) eqn:Hc;
    [|discriminate].
  intros [= <-]. apply andb_true_iff in Hc as [Hne Hl].
  apply negb_true_iff, bool_decide_eq_false in Hne. done.
Qed.

Lemma bearer_of (t : string) :
  t ≠ "" → one_line t = true → bearer ("Bearer " +:+ t) = Some t.
Proof.
  intros Hne Hl.
  change (bearer ("Bearer " +:+ t))
    with (if negb (bool_decide (t = "")) && one_line t then Some t else None).
  by rewrite Hl, bool_decide_false.
Qed.

Lemma or_str_empty (a : option string) (h : string) :
  h ≠ "" → or_str a "" = h ↔ a = Some h.
Proof.
  intros Hh. unfold or_str. destruct a as [s|].
  - case_bool_decide; split; intros; simplify_eq; done.
  - split; intros; simplify_eq; done.
Qed.

(** The admin guard, read backwards. *)
Lemma adminAuth_Next (authorization : option string) (us : users)
    (p : payload) (d : option User.doc) :
  adminAuth authorization us = Next p d →
  ∃ token i u,
    bearer (or_str authorization "") = Some token ∧
    jwt_verify token = Some p ∧ claimed_id p = Some i ∧
    ObjectId_isValid i = true ∧ us !! i = Some u ∧
    User.role u = User.admin ∧ d = Some u.
Proof.
  unfold adminAuth, findById. intros Ha.
  destruct (bearer _) as [token|]; [|done].
  destruct (jwt_verify token) as [p'|] eqn:Hv; [|done].
  destruct (claimed_id p') as [i|] eqn:Hi; [|done].
  destruct (ObjectId_isValid i) eqn:Hok; [|done]. simpl in Ha.
  destruct (us !! i) as [u|] eqn:Hu; [|done].
  case_bool_decide as Hr; [done|]. simplify_eq.
  exists token, i, u. repeat split; done.
Qed.

Lemma adminAuth_Rejected (authorization : option string) (us : users) (r : response) :
  adminAuth authorization us = Rejected r → status r = 401 ∨ status r = 403.
Proof.
  unfold adminAuth. intros Ha. repeat case_match; simplify_eq; auto.
Qed.

Lemma auth_Next (authorization : option string) (p : payload) (d : option User.doc) :
  auth authorization = Next p d ↔
  d = None ∧
  ∃ t, authorization = Some ("Bearer " +:+ t) ∧ t ≠ "" ∧ one_line t = true ∧
    jwt_verify t = Some p.
Proof.
  unfold auth. split.
  - destruct (bearer _) as [t|] eqn:Hb; [|done].
    destruct (jwt_verify t) as [p'|] eqn:Hv; [|done]. intros [= <- <-].
    apply bearer_Some in Hb as (Hh & Hne & Hl).
    split; [done|]. exists t. repeat split; try done.
    by apply or_str_empty in Hh.
  - intros (-> & t & -> & Hne & Hl & Hv).
    change (or_str (Some ("Bearer " +:+ t)) "") with ("Bearer " +:+ t).
    by rewrite bearer_of, Hv.
Qed.

Lemma auth_Rejected (authorization : option string) (r : response) :
  auth authorization = Rejected r → status r = 401.
Proof. unfold auth. repeat case_match; intros; simplify_eq; done. Qed.

Lemma create_201_fresh (req_user : payload) (b : BookingRoutes.creation)
    (oid : string) (now : Z) (bs : bookings) (r : response) (bs' : bookings) :
  BookingRoutes.create req_user b oid now bs = (r, bs') →
  status r = 201 →
  bs !! oid = None.
Proof.
  unfold BookingRoutes.create. intros Hc Hr.
  destruct (Middleware.claimed_id req_user); [|by simplify_eq].
  destruct (_ || _); [by simplify_eq|].
  destruct (new_Date _); [by simplify_eq|].
  destruct (negb _); [by simplify_eq|].
  destruct (BookingRoutes.build _ _ _ _ _ _ _ _ _); [by simplify_eq|].
  case_bool_decide as Hfresh; [by simplify_eq|].
  by apply eq_None_not_Some.
Qed.

Lemma build_ids oid userId type duration platform platformDetails scheduledAt notes now b :
  BookingRoutes.build oid userId type duration platform platformDetails
    scheduledAt notes now = inr b →
  Booking._id b = oid ∧ Booking.user b = userId.
Proof.
  unfold BookingRoutes.build. intros Hb. repeat case_match; simplify_eq. done.
Qed.

(** X1. The admin guard is the plain guard and more: whenever it lets a
    request go on, the plain guard lets it go on with the same payload,
    and the record it attaches is the stored user with the id of the
    token, whose role is admin now. Whatever the plain guard rejects,
    the admin guard rejects with the same response, and its rejections
    are 401 or 403. *)
Theorem adminAuth_admits_only_fresh_admins (authorization : option string)
    (us : users) :
  (∀ p d, adminAuth authorization us = Next p d →
     auth authorization = Next p None ∧
     ∃ i u, claimed_id p = Some i ∧ us !! i = Some u ∧
       User.role u = User.admin ∧ d = Some u) ∧
  (∀ r, auth authorization = Rejected r → adminAuth authorization us = Rejected r) ∧
  (∀ r, adminAuth authorization us = Rejected r → status r = 401 ∨ status r = 403).
Proof.
  split; [|split].
  - intros p d Ha.
    apply adminAuth_Next in Ha as (token & i & u & Hb & Hv & Hi & _ & Hu & Hr & ->).
    split; [|by exists i, u]. unfold auth. by rewrite Hb, Hv.
  - intros r. unfold auth, adminAuth.
    destruct (bearer _) as [token|]; [|done].
    by destruct (jwt_verify token).
  - apply adminAuth_Rejected.
Qed.

(** X2. The plain guard lets a request go on exactly when its
    authorization header is the word Bearer, one space, and a non-empty
    token on one line that verifies; it then attaches the verified
    payload and no user record. Every other request is answered 401. *)
Theorem auth_admits_exactly_verified_bearers (authorization : option string) :
  (∀ p d, auth authorization = Next p d ↔
     d = None ∧
     ∃ t, authorization = Some ("Bearer " +:+ t) ∧ t ≠ "" ∧ one_line t = true ∧
       jwt_verify t = Some p) ∧
  (∀ r, auth authorization = Rejected r → status r = 401).
Proof.
  split; [intros p d; apply auth_Next | apply auth_Rejected].
Qed.

(** X3. Unless the request carries a token that verifies and whose id is
    that of a stored user with the role admin, every admin route answers
    with the guard's 401 or 403 and leaves both collections as they
    were: nothing is deleted, banned, unbanned, given a role, moderated
    or listed. *)
Theorem admin_routes_need_a_fresh_admin (authorization : option string)
    (us : users) (bs : bookings) :
  (¬ ∃ token p i u,
       bearer (or_str authorization "") = Some token ∧ jwt_verify token = Some p ∧
       claimed_id p = Some i ∧ us !! i = Some u ∧ User.role u = User.admin) →
  ∃ r, (status r = 401 ∨ status r = 403) ∧
    (∀ target, Router.DELETE_admin_user authorization target us = (r, us)) ∧
    (∀ target reason until now,
       Router.POST_admin_ban authorization target reason until now us = (r, us)) ∧
    (∀ target now, Router.POST_admin_unban authorization target now us = (Plain r, us)) ∧
    (∀ target role now,
       Router.PATCH_admin_role authorization target role now us = (r, us)) ∧
    (∀ bookingId action adminNote rescheduledTo now,
       Router.PATCH_admin_booking authorization bookingId action adminNote
         rescheduledTo now us bs = (r, bs)) ∧
    (∀ query, Router.GET_admin_users authorization query us = r) ∧
    (∀ query, Router.GET_admin_bookings authorization query us bs = r).
Proof.
  intros Hnone. destruct (adminAuth authorization us) as [r|p d] eqn:Ha.
  - exists r. split; [by eapply adminAuth_Rejected|].
    unfold Router.DELETE_admin_user, Router.POST_admin_ban, Router.POST_admin_unban,
      Router.PATCH_admin_role, Router.PATCH_admin_booking, Router.GET_admin_users,
      Router.GET_admin_bookings.
    rewrite Ha. simpl. repeat split; done.
  - exfalso. apply Hnone.
    apply adminAuth_Next in Ha as (token & i & u & Hb & Hv & Hi & _ & Hu & Hr & _).
    by exists token, p, i, u.
Qed.

(** X4. A booking created through the route belongs to the caller: when
    POST /api/bookings answers 201, the header carried a token that
    verifies, and the stored booking's user is the id of that token. A
    request that the guard rejects stores nothing. *)
Theorem created_booking_belongs_to_caller (authorization : option string)
    (b : BookingRoutes.creation) (oid : string) (now : Z) (bs : bookings) :
  (∀ r bs', Router.POST_bookings authorization b oid now bs = (r, bs') →
     status r = 201 →
     ∃ t p i booking,
       authorization = Some ("Bearer " +:+ t) ∧ jwt_verify t = Some p ∧
       claimed_id p = Some i ∧ bs' = <[oid := booking]> bs ∧
       bs !! oid = None ∧ Booking._id booking = oid ∧ Booking.user booking = i) ∧
  (∀ r, auth authorization = Rejected r →
     Router.POST_bookings authorization b oid now bs = (r, bs)).
Proof.
  unfold Router.POST_bookings. split.
  - intros r bs' Hr H201.
    destruct (auth authorization) as [r0|p d] eqn:Ha; simpl in Hr.
    { simplify_eq. apply auth_Rejected in Ha. rewrite Ha in H201. discriminate. }
    apply auth_Next in Ha as (_ & t & -> & _ & _ & Hv).
    pose proof (create_201_fresh _ _ _ _ _ _ _ Hr H201) as Hfresh.
    destruct (create_201 _ _ _ _ _ _ _ Hr H201)
      as (i & sd & booking & Hi & _ & _ & _ & _ & _ & Hb & _ & ->).
    apply build_ids in Hb as [Hid Hown].
    exists t, p, i, booking. repeat split; done.
  - intros r ->. done.
Qed.

End Guarded.

(** ** The users collection *)

Section Collection.
Context `{Host}.

Lemma violates_None (us : users) (u' : User.doc) :
  keyed us →
  violates us u' = None ↔
  ∀ j d, us !! j = Some d → j ≠ User._id u' →
    User.email d ≠ User.email u' ∧ User.username d ≠ User.username u'.
Proof.
  intros Hk. unfold violates. split.
  - intros Hv. repeat case_bool_decide; try done.
    match goal with
    | H1 : ¬ is_Some _, H2 : ¬ is_Some _ |- _ =>
        apply eq_None_not_Some in H1; apply eq_None_not_Some in H2;
        rename H1 into He; rename H2 into Hu
    end.
    intros j d Hd Hj. rewrite findOne_None in He, Hu.
    specialize (He j d Hd). specialize (Hu j d Hd).
    rewrite (Hk j d Hd) in He, Hu. split; intros Heq; [apply He | apply Hu]; done.
  - intros Hall.
    assert (He : findOne (λ d, User.email d = User.email u'
                              ∧ User._id d ≠ User._id u') us = None).
    { apply findOne_None. intros j d Hd [Heq Hne].
      rewrite (Hk j d Hd) in Hne. by destruct (Hall j d Hd Hne). }
    assert (Hu : findOne (λ d, User.username d = User.username u'
                              ∧ User._id d ≠ User._id u') us = None).
    { apply findOne_None. intros j d Hd [Heq Hne].
      rewrite (Hk j d Hd) in Hne. by destruct (Hall j d Hd Hne). }
    rewrite He, Hu.
    rewrite !bool_decide_false by (by intros [? [=]]). done.
Qed.

Lemma well_formed_empty : well_formed ∅.
Proof. repeat split; intros ? *; by rewrite lookup_empty. Qed.

Lemma well_formed_insert (us : users) (i : string) (u' : User.doc) :
  well_formed us → violates us u' = None → User._id u' = i →
  well_formed (<[i := u']> us).
Proof.
  intros (Hk & He & Hu) Hv Hi. rewrite violates_None in Hv by done. subst i.
  split; [|split].
  - intros j d. rewrite lookup_insert. case_decide; [by intros [= <-] | apply Hk].
  - intros j k d e. rewrite !lookup_insert.
    repeat case_decide; intros; simplify_eq; try done.
    + by destruct (Hv k e) as [? _]; eauto.
    + by destruct (Hv j d) as [? _]; eauto.
    + by eapply He.
  - intros j k d e. rewrite !lookup_insert.
    repeat case_decide; intros; simplify_eq; try done.
    + by destruct (Hv k e) as [_ ?]; eauto.
    + by destruct (Hv j d) as [_ ?]; eauto.
    + by eapply Hu.
Qed.

Lemma well_formed_delete (us : users) (i : string) :
  well_formed us → well_formed (delete i us).
Proof.
  intros (Hk & He & Hu). split; [|split].
  - intros j d Hd. apply lookup_delete_Some in Hd as [_ Hd]. by apply Hk.
  - intros j k d e Hd Hek. apply lookup_delete_Some in Hd as [_ Hd].
    apply lookup_delete_Some in Hek as [_ Hek]. by eapply He.
  - intros j k d e Hd Hek. apply lookup_delete_Some in Hd as [_ Hd].
    apply lookup_delete_Some in Hek as [_ Hek]. by eapply Hu.
Qed.

(** An update that keeps id, email and username passes the indexes. *)
Lemma violates_same_keys (us : users) (i : string) (u u' : User.doc) :
  well_formed us → us !! i = Some u →
  User._id u' = User._id u → User.email u' = User.email u →
  User.username u' = User.username u →
  violates us u' = None.
Proof.
  intros (Hk & He & Hu) Hi Hid Hem Hun. apply violates_None; [done|].
  intros j d Hd Hj. rewrite Hid, (Hk i u Hi) in Hj. rewrite Hem, Hun.
  split; intros Heq; apply Hj; [by eapply He | by eapply Hu].
Qed.

Lemma insertUser_well_formed (us us' : users) (u : User.doc) :
  well_formed us → insertUser us u = inr us' → well_formed us'.
Proof.
  unfold insertUser. intros Hwf Hi. repeat case_match; simplify_eq.
  by apply well_formed_insert.
Qed.

Lemma findByIdAndUpdate_well_formed (valid : User.doc → bool) (us us' : users)
    (i : string) (f : User.doc → User.doc) (o : option User.doc) :
  well_formed us → (∀ u, User._id (f u) = User._id u) →
  findByIdAndUpdate valid us i f = inr (o, us') → well_formed us'.
Proof.
  unfold findByIdAndUpdate. intros Hwf Hf Hu.
  destruct (us !! i) as [u|] eqn:Hi; [|by simplify_eq].
  repeat case_match; simplify_eq.
  apply well_formed_insert; [done | done|].
  rewrite Hf. by apply Hwf.
Qed.

Lemma saveUser_well_formed (now : Z) (us us' : users) (i : string)
    (before after : User.doc) :
  well_formed us → us !! i = Some before → User._id after = User._id before →
  saveUser now us i before after = inr us' → well_formed us'.
Proof.
  unfold saveUser. intros Hwf Hi Hid Hs. repeat case_match; simplify_eq; [done|].
  apply well_formed_insert; [done | |].
  - destruct Hwf as (Hk & _). rewrite violates_None in * by done. done.
  - simpl. rewrite Hid. by apply Hwf.
Qed.

Lemma writes_well_formed (us us' : users) :
  writes us us' → well_formed us → well_formed us'.
Proof.
  intros Hw Hwf. destruct Hw as [b oid now us|req_user up now us|req_user old new now us
    |req_user us|req_user target us|req_user target reason until now us
    |target now us|req_user target role now us].
  - unfold AuthRoutes.register.
    repeat (case_match; simpl; try done); eauto using insertUser_well_formed.
  - unfold AuthRoutes.updateSelf.
    repeat (case_match; simpl; try done); simplify_eq.
    eapply findByIdAndUpdate_well_formed; [done | | eassumption]. by intros.
  - unfold Account.changePassword, findById.
    repeat (case_match; simpl; try done); simplify_eq.
    eapply saveUser_well_formed; [done | eassumption | | eassumption]. done.
  - unfold Account.deleteSelf.
    repeat (case_match; simpl; try done). by apply well_formed_delete.
  - unfold AdminRoutes.deleteUser, findByIdAndDelete.
    repeat (case_match; simpl; try done); simplify_eq. by apply well_formed_delete.
  - unfold AdminRoutes.banUser.
    repeat (case_match; simpl; try done); simplify_eq;
      (eapply findByIdAndUpdate_well_formed; [done | | eassumption]; by intros).
  - unfold Moderation.unbanUser.
    repeat (case_match; simpl; try done); simplify_eq.
    eapply findByIdAndUpdate_well_formed; [done | | eassumption]. by intros.
  - unfold AdminRoutes.setRole.
    repeat (case_match; simpl; try done); simplify_eq.
    eapply findByIdAndUpdate_well_formed; [done | | eassumption]. by intros.
Qed.

(** X5. In every collection of users that registrations, profile
    updates, password changes, deletions, bans, unbans and role changes
    produce from the empty one, each user sits under its own id and no
    two users share an email or a username. *)
Theorem attainable_well_formed (us : users) : attainable us → well_formed us.
Proof.
  unfold attainable. revert us.
  apply (rtc_ind_r (λ us, well_formed us) ∅); [apply well_formed_empty|].
  intros us1 us2 _ Hw IH. by eapply writes_well_formed.
Qed.

End Collection.

(** ** Registration and login *)

Section Registration.
Context `{Host}.
Import AuthRoutes.

Lemma findOne_is_Some {D : Type} (P : D → Prop) `{!∀ d, Decision (P d)}
    (c : gmap string D) (i : string) (d : D) :
  c !! i = Some d → P d → is_Some (findOne P c).
Proof.
  intros Hd HP. destruct (findOne P c) eqn:Hf; [done|].
  exfalso. eapply findOne_None in Hf; eauto.
Qed.

(** The shape of a registration that answers 201. *)
Lemma register_201 (b : registration) (oid : string) (now : Z) (us : users)
    (r : response) (us' : users) :
  register b oid now us = (r, us') →
  status r = 201 →
  ∃ u,
    us' = <[oid := u]> us ∧ us !! oid = None ∧
    r = {| status := 201;
           json := UserBody (Some "Account created.") (sanitizeUser (Some u)) |} ∧
    u = {|
      User._id := oid;
      User.firstName := User.set_trimmed (default "" (r_firstName b));
      User.lastName := User.set_trimmed (default "" (r_lastName b));
      User.username := User.set_trimmed (default "" (r_username b));
      User.email := User.set_email (toLowerCase (default "" (r_email b)));
      User.phone := User.set_trimmed (default "" (r_phone b));
      User.country := User.set_trimmed (default "" (r_country b));
      User.passwordHash := bcrypt_hash (default "" (r_password b));
      User.dob := default "" (r_dob b);
      User.gender := default "" (r_gender b);
      User.role := User.member;
      User.isBanned := false;
      User.banReason := "";
      User.bannedUntil := None;
      User.createdAt := now;
      User.updatedAt := now |} ∧
    default "" (r_email b) ≠ "" ∧ default "" (r_password b) ≠ "" ∧
    8 ≤ Z.of_nat (String.length (default "" (r_password b))) ∧
    findOne (λ d, User.email d = User.email u) us = None ∧
    findOne (λ d, User.username d = User.username u) us = None.
Proof.
  unfold register. intros Hr H201.
  destruct (_ || _) eqn:Hpresent; [simplify_eq; discriminate|].
  destruct (_ <? 8) eqn:Hlen; [simplify_eq; discriminate|].
  case_bool_decide as Hemail; [simplify_eq; discriminate|].
  case_bool_decide as Huser; [simplify_eq; discriminate|].
  destruct (insertUser _ _) as [e|us''] eqn:Hi;
    [destruct e; simplify_eq; discriminate|].
  unfold insertUser in Hi.
  destruct (negb (User.validate _)); [done|].
  case_bool_decide as Hfree; [done|].
  destruct (violates _ _); [done|]. cbn [User._id] in *. simplify_eq.
  apply eq_None_not_Some in Hfree, Hemail, Huser.
  repeat rewrite orb_false_iff in Hpresent. unfold empty in Hpresent.
  destruct Hpresent as [[[[[[[[_ _] _] He] _] _] Hp] _] _].
  apply bool_decide_eq_false in He, Hp. apply Z.ltb_ge in Hlen.
  eexists. repeat split; done.
Qed.

Lemma register_not_201 (b : registration) (oid : string) (now : Z) (us : users)
    (r : response) (us' : users) :
  register b oid now us = (r, us') → status r ≠ 201 → us' = us.
Proof.
  unfold register. intros Hr H201. repeat case_match; simplify_eq; done.
Qed.

(** X6. A registration that answers 201 adds exactly one document, under
    an id that was free: its role is member and it is not banned,
    whatever the body says; its email is the given one in lower case and
    trimmed; its credential is the hash of a password of at least eight
    characters; and no stored user had that email or that username. A
    registration that answers anything else stores nothing. *)
Theorem register_creates_plain_member (b : registration) (oid : string) (now : Z)
    (us : users) (r : response) (us' : users) :
  register b oid now us = (r, us') →
  (status r ≠ 201 → us' = us) ∧
  (status r = 201 →
   ∃ u, us' = <[oid := u]> us ∧ us !! oid = None ∧ User._id u = oid ∧
     User.role u = User.member ∧ User.isBanned u = false ∧
     User.banReason u = "" ∧ User.bannedUntil u = None ∧
     User.email u = trim (toLowerCase (default "" (r_email b))) ∧
     User.passwordHash u = bcrypt_hash (default "" (r_password b)) ∧
     8 ≤ Z.of_nat (String.length (default "" (r_password b))) ∧
     (∀ j v, us !! j = Some v →
        User.email v ≠ User.email u ∧ User.username v ≠ User.username u)).
Proof.
  intros Hr. split; [intros ?; by eapply register_not_201|]. intros H201.
  destruct (register_201 _ _ _ _ _ _ Hr H201)
    as (u & -> & Hfree & _ & Hu & _ & _ & Hlen & He & Hn).
  exists u. rewrite findOne_None in He, Hn.
  split; [done|]. split; [done|]. rewrite Hu at 1 2 3 4 5 6 7. simpl.
  repeat split; try done.
  - unfold User.set_email. by rewrite toLowerCase_idem.
  - by apply (He j v).
  - by apply (Hn j v).
Qed.

(** X7. After a registration that answers 201, a second registration
    whose email is the same up to case and surrounding white space
    stores nothing: it answers 409 for the email, unless its own body
    is incomplete or its password too short, which is 400. *)
Theorem register_twice_same_email (b : registration) (oid : string) (now : Z)
    (us : users) (r : response) (us' : users) :
  register b oid now us = (r, us') →
  status r = 201 →
  ∀ b2 oid2 now2,
    trim (toLowerCase (default "" (r_email b2)))
    = trim (toLowerCase (default "" (r_email b))) →
    (register b2 oid2 now2 us').2 = us' ∧
    (status (register b2 oid2 now2 us').1 = 400 ∨
     (register b2 oid2 now2 us').1 = fail 409 "Email already registered.").
Proof.
  intros Hr H201 b2 oid2 now2 Hsame.
  destruct (register_201 _ _ _ _ _ _ Hr H201)
    as (u & -> & Hfree & _ & Hu & _ & _ & _ & _ & _).
  assert (Hfound : is_Some (findOne
    (λ d, User.email d = User.set_email (toLowerCase (default "" (r_email b2))))
    (<[oid := u]> us))).
  { apply (findOne_is_Some _ _ oid u); [by rewrite lookup_insert_eq|].
    rewrite Hu. simpl. unfold User.set_email.
    by rewrite !toLowerCase_idem, Hsame. }
  unfold register.
  destruct (_ || _); [by auto|]. destruct (_ <? 8); [by auto|].
  rewrite bool_decide_true by done. auto.
Qed.

(** X8. After a registration that answers 201, a login with the same
    password and with the same email up to case and surrounding white
    space succeeds, provided the hash compares equal to its password:
    the token is signed for the new id, the stored email and username
    and the role member, and the user object is the stored document
    without its hash. *)
Theorem register_then_login (b : registration) (oid : string) (now : Z)
    (us : users) (r : response) (us' : users) (email : string) :
  register b oid now us = (r, us') →
  status r = 201 →
  bcrypt_compare (default "" (r_password b))
    (bcrypt_hash (default "" (r_password b))) = true →
  email ≠ "" →
  trim (toLowerCase email) = trim (toLowerCase (default "" (r_email b))) →
  ∃ u, us' !! oid = Some u ∧
    login (Some email) (r_password b) us'
    = ok (LoginBody "Login successful."
            (jwt_sign {| id := Some oid;
                         p_email := Some (User.email u);
                         p_username := Some (User.username u);
                         p_role := Some "member" |})
            (sanitizeUser (Some u))).
Proof.
  intros Hr H201 Hbcrypt Hemail Hsame.
  destruct (register_201 _ _ _ _ _ _ Hr H201)
    as (u & -> & Hfree & _ & Hu & _ & Hpw & _ & He & _).
  exists u. split; [by rewrite lookup_insert_eq|].
  assert (Hkey : User.set_email (trim (toLowerCase email)) = User.email u).
  { rewrite set_email_normalized, Hu. simpl. unfold User.set_email.
    by rewrite !toLowerCase_idem, Hsame. }
  assert (Hfind : findOne
    (λ d, User.email d = User.set_email (trim (toLowerCase email)))
    (<[oid := u]> us) = Some u).
  { apply (findOne_the _ _ oid); [by rewrite lookup_insert_eq | done|].
    intros j e. rewrite lookup_insert. case_decide; [by intros [= <-]|].
    intros Hj Heq. rewrite findOne_None in He. rewrite Hkey in Heq.
    by destruct (He j e Hj). }
  unfold login. change (default "" (Some email)) with email.
  assert (empty email = false) as -> by (by apply bool_decide_eq_false).
  assert (empty (default "" (r_password b)) = false) as ->
    by (by apply bool_decide_eq_false).
  cbn [orb]. rewrite Hfind.
  assert (User.isBanned u = false ∧ User._id u = oid ∧ User.role u = User.member ∧
          User.passwordHash u = bcrypt_hash (default "" (r_password b)))
    as (-> & -> & -> & ->) by (by rewrite Hu).
  by rewrite Hbcrypt.
Qed.

End Registration.

(** ** Passwords, profiles and deletions *)

Section Self_service.
Context `{Host}.
Import AuthRoutes Account.

Lemma stamped_with_passwordHash (now : Z) (h : string) (u : User.doc) :
  with_passwordHash (User.passwordHash u)
    (stamped (User.updatedAt u) (stamped now (with_passwordHash h u))) = u.
Proof. by destruct u. Qed.

(** The shape of a password change that answers 200. *)
Lemma changePassword_200 (req_user : payload) (old new : option string) (now : Z)
    (us : users) (r : response) (us' : users) :
  changePassword req_user old new now us = (r, us') →
  status r = 200 →
  ∃ userId u,
    Middleware.claimed_id req_user = Some userId ∧ us !! userId = Some u ∧
    bcrypt_compare (default "" old) (User.passwordHash u) = true ∧
    8 ≤ Z.of_nat (String.length (default "" new)) ∧
    ((with_passwordHash (bcrypt_hash (default "" new)) u = u ∧ us' = us) ∨
     us' = <[userId := stamped now (with_passwordHash (bcrypt_hash (default "" new)) u)]> us).
Proof.
  unfold changePassword, findById. intros Hc H200.
  destruct (Middleware.claimed_id req_user) as [userId|]; [|by simplify_eq].
  destruct (_ || _); [by simplify_eq|].
  destruct (_ <? 8) eqn:Hlen; [by simplify_eq|].
  destruct (negb (ObjectId_isValid userId)); [by simplify_eq|].
  destruct (us !! userId) as [u|] eqn:Hu; [|by simplify_eq].
  destruct (bcrypt_compare _ _) eqn:Hcmp; cbn [negb] in Hc; [|by simplify_eq].
  destruct (saveUser _ _ _ _ _) as [e|us''] eqn:Hs; [by simplify_eq|].
  simplify_eq. apply Z.ltb_ge in Hlen.
  exists userId, u. repeat split; try done.
  unfold saveUser in Hs. repeat case_match; simplify_eq; [left | right]; try done.
  split; [|done]. by eapply bool_decide_eq_true_1.
Qed.

Lemma changePassword_not_200 (req_user : payload) (old new : option string) (now : Z)
    (us : users) (r : response) (us' : users) :
  changePassword req_user old new now us = (r, us') → status r ≠ 200 → us' = us.
Proof.
  unfold changePassword. intros Hc H200. repeat case_match; simplify_eq; done.
Qed.

(** X9. A password change that does not answer 200 changes nothing. One
    that answers 200 was asked with an old password that compares equal
    to the stored hash and a new one of at least eight characters; it
    leaves every other user as it was, and the caller's record differs
    from the old one in its hash, now the hash of the new password, and
    its [updatedAt] only. *)
Theorem changePassword_changes_only_the_hash (req_user : payload)
    (old new : option string) (now : Z) (us : users) (r : response) (us' : users) :
  changePassword req_user old new now us = (r, us') →
  (status r ≠ 200 → us' = us) ∧
  (status r = 200 →
   ∃ userId u u',
     Middleware.claimed_id req_user = Some userId ∧
     us !! userId = Some u ∧ us' !! userId = Some u' ∧
     (∀ j, j ≠ userId → us' !! j = us !! j) ∧
     bcrypt_compare (default "" old) (User.passwordHash u) = true ∧
     8 ≤ Z.of_nat (String.length (default "" new)) ∧
     User.passwordHash u' = bcrypt_hash (default "" new) ∧
     with_passwordHash (User.passwordHash u) (stamped (User.updatedAt u) u') = u).
Proof.
  intros Hc. split; [intros ?; by eapply changePassword_not_200|]. intros H200.
  destruct (changePassword_200 _ _ _ _ _ _ _ Hc H200)
    as (userId & u & Hi & Hu & Hcmp & Hlen & [[Hsame ->] | ->]).
  - exists userId, u, u. repeat split; try done.
    + by rewrite <- Hsame.
    + by destruct u.
  - exists userId, u, (stamped now (with_passwordHash (bcrypt_hash (default "" new)) u)).
    rewrite lookup_insert_eq. repeat split; try done.
    + intros j Hj. by rewrite lookup_insert_ne.
    + apply stamped_with_passwordHash.
Qed.

Lemma changePassword_ok (req_user : payload) (userId old new : string) (now : Z)
    (us : users) (u : User.doc) :
  well_formed us →
  Middleware.claimed_id req_user = Some userId → ObjectId_isValid userId = true →
  us !! userId = Some u → User.validate u = true →
  old ≠ "" → 8 ≤ Z.of_nat (String.length new) → bcrypt_hash new ≠ "" →
  bcrypt_compare old (User.passwordHash u) = true →
  ∃ u', changePassword req_user (Some old) (Some new) now us
        = (ok (Message "Password updated."), <[userId := u']> us) ∧
    User.passwordHash u' = bcrypt_hash new ∧
    with_passwordHash (User.passwordHash u) (stamped (User.updatedAt u) u') = u.
Proof.
  intros Hwf Hi Hok Hu Hval Hold Hlen Hhash Hcmp.
  unfold changePassword, findById. rewrite Hi.
  change (default "" (Some old)) with old. change (default "" (Some new)) with new.
  cbv zeta.
  assert (new ≠ "") by (intros ->; simpl in Hlen; lia).
  unfold empty. rewrite !bool_decide_false by done. cbn [orb].
  assert ((Z.of_nat (String.length new) <? 8) = false) as ->
    by (by apply Z.ltb_ge).
  rewrite Hok, Hu, Hcmp. cbn [negb]. unfold saveUser.
  assert (User.validate (with_passwordHash (bcrypt_hash new) u) = true) as ->.
  { unfold User.validate in *. cbn. unfold User.required at 7.
    rewrite (bool_decide_false _ Hhash). cbn [negb].
    repeat (apply andb_true_iff in Hval as [Hval ?]).
    repeat (apply andb_true_iff; split); done. }
  cbn [negb]. case_bool_decide as Hsame.
  - exists u. rewrite insert_id by done. split; [done|]. split.
    + by rewrite <- Hsame.
    + by destruct u.
  - rewrite (violates_same_keys us userId u) by done.
    eexists. split; [reflexivity|]. split; [done|].
    apply stamped_with_passwordHash.
Qed.

(** X10. In a collection where emails are unique, let a user who is not
    banned change the password, with the old password that matches the
    stored hash. If the new hash compares equal to the new password and
    unequal to the old one, then afterwards a login with the user's
    email and the new password issues a token for that user, and a
    login with the old password fails with 401. *)
Theorem changePassword_then_login (req_user : payload) (userId old new : string)
    (now : Z) (us : users) (u : User.doc) (email : string) :
  well_formed us →
  Middleware.claimed_id req_user = Some userId → ObjectId_isValid userId = true →
  us !! userId = Some u → User.validate u = true → User.isBanned u = false →
  old ≠ "" → 8 ≤ Z.of_nat (String.length new) → bcrypt_hash new ≠ "" →
  bcrypt_compare old (User.passwordHash u) = true →
  bcrypt_compare new (bcrypt_hash new) = true →
  bcrypt_compare old (bcrypt_hash new) = false →
  email ≠ "" → trim (toLowerCase email) = User.email u →
  ∃ us',
    changePassword req_user (Some old) (Some new) now us
    = (ok (Message "Password updated."), us') ∧
    token_of (login (Some email) (Some new) us')
    = Some (jwt_sign {| id := Some userId;
                        p_email := Some (User.email u);
                        p_username := Some (User.username u);
                        p_role := Some (User.role_name (User.role u)) |}) ∧
    login (Some email) (Some old) us' = fail 401 "Invalid credentials.".
Proof.
  intros Hwf Hi Hok Hu Hval Hban Hold Hlen Hhash Hcmp Hnew Hnot Hemail Hnorm.
  destruct (changePassword_ok req_user userId old new now us u)
    as (u' & Hc & Hh & Hrest); try done.
  exists (<[userId := u']> us). split; [done|].
  assert (Hfields : User.email u' = User.email u ∧ User.username u' = User.username u ∧
                    User._id u' = User._id u ∧ User.isBanned u' = User.isBanned u ∧
                    User.role u' = User.role u).
  { rewrite <- Hrest. by destruct u'. }
  destruct Hfields as (He & Hn & Hid & Hb & Hr).
  assert (Hwf' : well_formed (<[userId := u']> us)).
  { apply well_formed_insert; [done | |].
    - by apply (violates_same_keys us userId u).
    - rewrite Hid. by apply Hwf. }
  assert (Hfind : findOne
    (λ d, User.email d = User.set_email (trim (toLowerCase email)))
    (<[userId := u']> us) = Some u').
  { assert (Hkey : User.set_email (trim (toLowerCase email)) = User.email u').
    { rewrite He, <- Hnorm. unfold User.set_email.
      by rewrite <- !trim_toLowerCase, !toLowerCase_idem, !trim_idem. }
    apply (findOne_the _ _ userId); [by rewrite lookup_insert_eq | done|].
    intros j e Hj Heq. rewrite Hkey in Heq.
    destruct Hwf' as (_ & Hunique & _).
    assert (j = userId) as -> by
      (eapply Hunique; [exact Hj | by rewrite lookup_insert_eq | done]).
    rewrite lookup_insert_eq in Hj. congruence. }
  unfold login. change (default "" (Some email)) with email.
  change (default "" (Some new)) with new. change (default "" (Some old)) with old.
  assert (new ≠ "") by (intros ->; simpl in Hlen; lia).
  unfold empty. rewrite !bool_decide_false by done. cbn [orb].
  rewrite Hfind, Hb, Hban, Hh, Hnew, Hnot. cbn [negb token_of json ok].
  split; [|done]. rewrite He, Hn, Hr, Hid. f_equal. f_equal. f_equal.
  f_equal. by apply Hwf.
Qed.

End Self_service.

Section Profiles.
Context `{Host}.
Import Middleware AuthRoutes Account.

(** X11. A profile update never creates or deletes a user and never
    touches another user's record; in the caller's record it leaves the
    id, the role, the ban fields, the password hash and the creation time
    as they were, whatever the body contains. *)
Theorem updateSelf_keeps_privileges (req_user : payload) (up : updates) (now : Z)
    (us : users) (r : response) (us' : users) :
  updateSelf req_user up now us = (r, us') →
  ∀ j, match us !! j, us' !! j with
       | Some u, Some u' =>
           User._id u' = User._id u ∧ User.role u' = User.role u ∧
           User.isBanned u' = User.isBanned u ∧
           User.banReason u' = User.banReason u ∧
           User.bannedUntil u' = User.bannedUntil u ∧
           User.passwordHash u' = User.passwordHash u ∧
           User.createdAt u' = User.createdAt u ∧
           (claimed_id req_user ≠ Some j → u' = u)
       | None, None => True
       | _, _ => False
       end.
Proof.
  unfold updateSelf. intros Hu j.
  assert (Hsame : us' = us →
    match us !! j, us' !! j with
    | Some u, Some u' =>
        User._id u' = User._id u ∧ User.role u' = User.role u ∧
        User.isBanned u' = User.isBanned u ∧ User.banReason u' = User.banReason u ∧
        User.bannedUntil u' = User.bannedUntil u ∧
        User.passwordHash u' = User.passwordHash u ∧
        User.createdAt u' = User.createdAt u ∧
        (claimed_id req_user ≠ Some j → u' = u)
    | None, None => True
    | _, _ => False
    end).
  { intros ->. by destruct (us !! j). }
  destruct (claimed_id req_user) as [userId|]; [|by simplify_eq; apply Hsame].
  destruct (negb _); [by simplify_eq; apply Hsame|].
  destruct (_ && _); [by simplify_eq; apply Hsame|].
  destruct (_ && _); [by simplify_eq; apply Hsame|].
  destruct (findByIdAndUpdate _ _ _ _) as [e|[[u'|] us'']] eqn:Hf;
    [by simplify_eq; apply Hsame | | by simplify_eq; apply Hsame].
  clear Hsame. simplify_eq. unfold findByIdAndUpdate in Hf.
  destruct (us !! userId) as [u|] eqn:Hi; [|done].
  destruct (negb _); [done|]. destruct (violates _ _); [done|]. simplify_eq.
  destruct (decide (j = userId)) as [->|Hj].
  - rewrite Hi, lookup_insert_eq. repeat split; try done.
  - rewrite lookup_insert_ne by done. destruct (us !! j); [|done].
    repeat split; done.
Qed.

(** X12. A profile update that asks for an email which another user
    has, up to case and surrounding white space, answers 409 and changes
    nothing. *)
Theorem updateSelf_refuses_a_taken_email (req_user : payload) (up : updates)
    (now : Z) (us : users) (userId e : string) (j : string) (v : User.doc) :
  claimed_id req_user = Some userId → ObjectId_isValid userId = true →
  u_email up = Some e → e ≠ "" →
  us !! j = Some v → User._id v ≠ userId →
  User.email v = trim (toLowerCase e) →
  updateSelf req_user up now us = (fail 409 "Email already in use.", us).
Proof.
  intros Hi Hok He Hne Hv Hother Hemail.
  unfold updateSelf. rewrite Hi, Hok, He. cbn [negb given default].
  change (default "" (Some e)) with e.
  unfold empty. rewrite (bool_decide_false _ Hne). cbn [negb andb].
  rewrite bool_decide_true; [done|].
  eapply findOne_is_Some; [exact Hv|]. split; [|done].
  rewrite Hemail. unfold User.set_email. by rewrite toLowerCase_idem.
Qed.

(** X13. Deleting one's account through the route removes exactly the
    caller's record. With the same token afterwards, the profile is 404,
    the admin guard answers 401, and a second deletion answers 200 again
    and changes nothing more. *)
Theorem deleteSelf_locks_out (authorization : option string) (p : payload)
    (userId : string) (us : users) :
  auth authorization = Next p None →
  claimed_id p = Some userId → ObjectId_isValid userId = true →
  let us' := (Router.DELETE_delete authorization us).2 in
  Router.DELETE_delete authorization us = (ok (Message "Account deleted."), us') ∧
  us' !! userId = None ∧
  (∀ j, j ≠ userId → us' !! j = us !! j) ∧
  Router.GET_me authorization us' = fail 404 "User not found" ∧
  adminAuth authorization us' = Rejected (fail 401 "Unauthorized") ∧
  Router.DELETE_delete authorization us' = (ok (Message "Account deleted."), us').
Proof.
  intros Ha Hi Hok us'.
  assert (Hd : ∀ c, Router.DELETE_delete authorization c
                    = (ok (Message "Account deleted."), delete userId c)).
  { intros c. unfold Router.DELETE_delete, deleteSelf. rewrite Ha. simpl.
    by rewrite Hi, Hok. }
  subst us'. rewrite !Hd. cbn [snd].
  split; [done|]. split; [apply lookup_delete_eq|].
  split; [intros j Hj; by apply lookup_delete_ne|].
  split; [|split].
  - unfold Router.GET_me, me, findById. rewrite Ha. simpl.
    by rewrite Hi, Hok, lookup_delete_eq.
  - apply auth_Next in Ha as (_ & t & -> & Hne & Hl & Hv).
    unfold adminAuth, findById.
    change (or_str (Some ("Bearer " +:+ t)) "") with ("Bearer " +:+ t).
    by rewrite bearer_of, Hv, Hi, Hok, lookup_delete_eq.
  - by rewrite delete_delete_eq.
Qed.

(** X14. When an admin deletes a stored user, under an id that the
    path does not spell as the caller's token does, the answer is 200 and
    exactly that record is removed; the deleted user's token, which
    carries the id in the form the store holds, then gets 404 for the
    profile and 401 from the admin guard, and deleting the same id again
    answers 404. *)
Theorem deleteUser_locks_out (req_user : payload) (target : string) (us : users)
    (v : User.doc) :
  ObjectId_isValid target = true → id req_user ≠ Some target →
  let stored := castObjectId target in
  us !! stored = Some v →
  let us' := delete stored us in
  AdminRoutes.deleteUser req_user target us = (ok (Message "User deleted."), us') ∧
  AdminRoutes.deleteUser req_user target us' = (fail 404 "User not found", us') ∧
  ∀ authorization p,
    auth authorization = Next p None → claimed_id p = Some stored →
    ObjectId_isValid stored = true →
    Router.GET_me authorization us' = fail 404 "User not found" ∧
    adminAuth authorization us' = Rejected (fail 401 "Unauthorized").
Proof.
  intros Hok Hother stored Hv us'. subst us' stored.
  unfold AdminRoutes.deleteUser, findByIdAndDelete.
  rewrite Hok. cbn [negb]. rewrite bool_decide_false by done.
  rewrite Hv, lookup_delete_eq. split; [done|]. split; [done|].
  intros authorization p Ha Hi Hok'. split.
  - unfold Router.GET_me, me, findById. rewrite Ha. simpl.
    by rewrite Hi, Hok', lookup_delete_eq.
  - apply auth_Next in Ha as (_ & t & -> & Hne & Hl & Hver).
    unfold adminAuth, findById.
    change (or_str (Some ("Bearer " +:+ t)) "") with ("Bearer " +:+ t).
    by rewrite bearer_of, Hver, Hi, Hok', lookup_delete_eq.
Qed.

End Profiles.

(** ** Moderation of users *)

Section User_moderation.
Context `{Host}.
Import Middleware AuthRoutes AdminRoutes Moderation.

(** In a collection with unique emails, a login finds the user whose
    stored email is the given one in lower case and trimmed. *)
Lemma login_lookup (us : users) (i : string) (u : User.doc) (email : string) :
  well_formed us → us !! i = Some u →
  trim (toLowerCase email) = User.email u →
  findOne (λ d, User.email d = User.set_email (trim (toLowerCase email))) us = Some u.
Proof.
  intros (_ & Hunique & _) Hu Hnorm.
  assert (Hkey : User.set_email (trim (toLowerCase email)) = User.email u).
  { rewrite <- Hnorm. unfold User.set_email.
    by rewrite <- !trim_toLowerCase, !toLowerCase_idem, !trim_idem. }
  apply (findOne_the _ _ i); [done | done|].
  intros j e Hj Heq. rewrite Hkey in Heq.
  assert (j = i) as -> by (by eapply Hunique). congruence.
Qed.

Lemma findByIdAndUpdate_ok (us : users) (i : string) (u : User.doc)
    (f : User.doc → User.doc) :
  well_formed us → us !! i = Some u →
  User._id (f u) = User._id u → User.email (f u) = User.email u →
  User.username (f u) = User.username u →
  findByIdAndUpdate (λ _, true) us i f = inr (Some (f u), <[i := f u]> us) ∧
  well_formed (<[i := f u]> us).
Proof.
  intros Hwf Hu Hid He Hn. unfold findByIdAndUpdate. rewrite Hu. cbn [negb].
  assert (Hv : violates us (f u) = None) by (by eapply violates_same_keys).
  rewrite Hv. split; [done|].
  apply well_formed_insert; [done | done|]. rewrite Hid. by apply Hwf.
Qed.

(** X15. In a collection with unique emails, an admin who bans a stored
    user, under an id that the path does not spell as the caller's token
    does, with an [until] that is absent, falsy or a valid date, gets
    200; the record is then banned with the given reason (the default
    text when none is given) and date, and every login with that user's
    email and any password is answered 403 with that reason and date. *)
Theorem banUser_then_login (req_user : payload) (target : string)
    (reason until : value) (now : Z) (us : users) (u : User.doc) :
  well_formed us → ObjectId_isValid target = true →
  id req_user ≠ Some target → us !! castObjectId target = Some u →
  let until' := default_to VNull until in
  let reason' := default_to (VStr "") reason in
  (truthy until' = true → new_Date until' ≠ NaN) →
  let bannedUntil :=
    if truthy until' then
      match new_Date until' with Num t => Some t | NaN => None end
    else None in
  let banReason :=
    default "No reason provided"
      (castString None (if truthy reason' then reason' else VStr "No reason provided")) in
  let us' := <[castObjectId target := ban banReason bannedUntil now u]> us in
  banUser req_user target reason until now us
  = (ok (BanState "User banned." (User._id u) true banReason bannedUntil), us') ∧
  ∀ email password, email ≠ "" → password ≠ "" →
    trim (toLowerCase email) = User.email u →
    login (Some email) (Some password) us'
    = {| status := 403;
         json := BanNotice "Account is banned."
                   (if empty banReason then "No reason provided" else banReason)
                   (toISOString <$> bannedUntil) |}.
Proof.
  intros Hwf Hok Hother Hu until' reason' Hdate bannedUntil banReason us'.
  destruct (findByIdAndUpdate_ok us (castObjectId target) u
              (ban banReason bannedUntil now)) as [Hupd Hwf']; try done.
  split.
  - unfold banUser. rewrite Hok. cbn [negb]. rewrite bool_decide_false by done.
    fold until' reason'. subst bannedUntil.
    destruct (truthy until') eqn:Ht.
    + destruct (new_Date until') as [|t] eqn:Hd; [by destruct Hdate|].
      fold banReason. by rewrite Hupd.
    + fold banReason. by rewrite Hupd.
  - intros email password Hemail Hpw Hnorm.
    unfold login. change (default "" (Some email)) with email.
    change (default "" (Some password)) with password.
    unfold empty at 1 2. rewrite !bool_decide_false by done. cbn [orb].
    rewrite (login_lookup us' (castObjectId target)
               (ban banReason bannedUntil now u)); try done.
    by apply lookup_insert_eq.
Qed.

(** X16. An unban with a malformed id answers 400 and with an unknown
    id 404, both without a change. In a collection with unique emails,
    unbanning a stored user answers 200 with [isBanned] false and clears
    the three ban fields of that record only; a login with that user's
    email is then no longer answered 403, and issues a token when the
    password compares equal to the stored hash. The user is the one whose
    id the path spells, in whatever spelling. *)
Theorem unbanUser_then_login (target : string) (now : Z) (us : users) :
  (ObjectId_isValid target = false →
   unbanUser target now us = (Plain (fail 400 "Invalid user id"), us)) ∧
  (ObjectId_isValid target = true → us !! castObjectId target = None →
   unbanUser target now us = (Plain (fail 404 "User not found"), us)) ∧
  (∀ u, well_formed us → ObjectId_isValid target = true →
   us !! castObjectId target = Some u →
   let us' := <[castObjectId target := lifted now u]> us in
   unbanUser target now us = (Unbanned "User unbanned." (User._id u) false, us') ∧
   ∀ email password, email ≠ "" → password ≠ "" →
     trim (toLowerCase email) = User.email u →
     status (login (Some email) (Some password) us') ≠ 403 ∧
     (bcrypt_compare password (User.passwordHash u) = true →
      token_of (login (Some email) (Some password) us')
      = Some (jwt_sign {| id := Some (User._id u);
                          p_email := Some (User.email u);
                          p_username := Some (User.username u);
                          p_role := Some (User.role_name (User.role u)) |}))).
Proof.
  unfold unbanUser. split; [by intros ->|]. split.
  - intros -> Hu. unfold findByIdAndUpdate. by rewrite Hu.
  - intros u Hwf Hok Hu. set (us' := <[castObjectId target := lifted now u]> us).
    destruct (findByIdAndUpdate_ok us (castObjectId target) u (lifted now))
      as [Hupd Hwf']; try done.
    rewrite Hok. cbn [negb]. rewrite Hupd. split; [done|].
    intros email password Hemail Hpw Hnorm.
    unfold login. change (default "" (Some email)) with email.
    change (default "" (Some password)) with password.
    unfold empty. rewrite !bool_decide_false by done. cbn [orb].
    rewrite (login_lookup us' (castObjectId target) (lifted now u)); try done;
      [|by apply lookup_insert_eq].
    cbn [User.isBanned lifted User.passwordHash].
    destruct (bcrypt_compare password (User.passwordHash u)); cbn [negb].
    + split; [done|]. intros _. reflexivity.
    + split; [done | discriminate].
Qed.

(** X17. In a collection with unique emails, an admin who sets the role
    of a stored user to member or admin, under an id that the path does
    not spell as the caller's token does, gets 200, and the change
    counts at the next request: with the target's token, which carries
    the id in the form the store holds, the admin guard answers 403
    after a change to member, and lets the request go on after a change
    to admin. *)
Theorem setRole_counts_at_once (req_user : payload) (target : string) (r : User.Role)
    (now : Z) (us : users) (u : User.doc) :
  well_formed us → ObjectId_isValid target = true →
  id req_user ≠ Some target →
  let stored := castObjectId target in
  us !! stored = Some u →
  let us' := <[stored := with_role r now u]> us in
  setRole req_user target (VStr (User.role_name r)) now us
  = (ok (RoleState "Role updated." (User._id u) r), us') ∧
  ∀ authorization p,
    auth authorization = Next p None → claimed_id p = Some stored →
    ObjectId_isValid stored = true →
    adminAuth authorization us'
    = match r with
      | User.admin => Next p (Some (with_role r now u))
      | User.member => Rejected (fail 403 "Forbidden: admin only")
      end.
Proof.
  intros Hwf Hok Hother stored Hu us'. subst stored.
  destruct (findByIdAndUpdate_ok us (castObjectId target) u (with_role r now))
    as [Hupd Hwf']; try done.
  split.
  - unfold setRole.
    assert (role_of_value (VStr (User.role_name r)) = Some r) as ->
      by (by destruct r).
    rewrite Hok. cbn [negb]. rewrite (bool_decide_false (id req_user = _)) by done.
    cbn [andb]. by rewrite Hupd.
  - intros authorization p Ha Hi Hok'.
    apply auth_Next in Ha as (_ & t & -> & Hne & Hl & Hv).
    unfold adminAuth, findById.
    change (or_str (Some ("Bearer " +:+ t)) "") with ("Bearer " +:+ t).
    rewrite bearer_of, Hv, Hi, Hok' by done. cbn [negb]. subst us'.
    rewrite lookup_insert_eq. by destruct r.
Qed.

End User_moderation.

(** ** The second login handler *)

Section Second_login.
Context `{Host}.
Import AuthRoutes Account.

(** X18. The handler registered a second time for POST /login answers
    as the first one does: the same status and the same user object for
    every request, and the same response whenever no token is issued.
    When a token is issued, it is signed for the same id, email and
    username, without the role that the first handler adds. *)
Theorem login_again_differs_in_the_role_claim (email password : option string)
    (us : users) :
  status (login_again email password us) = status (login email password us) ∧
  user_of (login_again email password us) = user_of (login email password us) ∧
  (token_of (login email password us) = None →
   login_again email password us = login email password us) ∧
  (∀ t, token_of (login email password us) = Some t →
   ∃ user,
     t = jwt_sign {| id := Some (User._id user);
                     p_email := Some (User.email user);
                     p_username := Some (User.username user);
                     p_role := Some (User.role_name (User.role user)) |} ∧
     token_of (login_again email password us)
     = Some (jwt_sign {| id := Some (User._id user);
                         p_email := Some (User.email user);
                         p_username := Some (User.username user);
                         p_role := None |})).
Proof.
  unfold login, login_again. rewrite set_email_normalized.
  destruct (_ || _); [by repeat split|].
  destruct (findOne _ us) as [user|]; [|by repeat split].
  destruct (User.isBanned user); [by repeat split|].
  destruct (bcrypt_compare _ _); cbn [negb]; [|by repeat split].
  repeat split; try done. intros t [= <-]. by exists user.
Qed.

End Second_login.

(** ** Bookings: listings and moderation *)

Section Booking_lists.
Context `{Host}.
Import BookingRoutes Own.

Lemma own_elem_of (userId : string) (bs : bookings) (b : Booking.doc) :
  b ∈ merge_sort (newest_first Booking.createdAt)
        (find (λ b, bool_decide (Booking.user b = userId)) bs) ↔
  Booking.user b = userId ∧ ∃ i, bs !! i = Some b.
Proof.
  rewrite merge_sort_Permutation. unfold find.
  rewrite list_elem_of_filter, list_elem_of_fmap. split.
  - intros [Hu ([i b'] & -> & Hin)]. apply elem_of_map_to_list in Hin.
    split; [by apply bool_decide_unpack in Hu | by exists i].
  - intros [Hu [i Hi]]. split; [by apply bool_decide_pack|].
    exists (i, b). split; [done|]. by apply elem_of_map_to_list.
Qed.

(** X19. With a well-formed id in the token, the listing of one's own
    bookings contains exactly the stored bookings whose user is the
    caller, each as often as it is stored, ordered from the newest to
    the oldest creation time. Without an id in the token the answer is
    401, and with a malformed id 500. *)
Theorem listOwn_is_exactly_own (req_user : payload) (bs : bookings) :
  (Middleware.claimed_id req_user = None →
   listOwn req_user bs = Plain (fail 401 "Unauthorized")) ∧
  (∀ userId, Middleware.claimed_id req_user = Some userId →
     ObjectId_isValid userId = false →
     listOwn req_user bs = Plain (fail 500 "Server error")) ∧
  (∀ userId, Middleware.claimed_id req_user = Some userId →
     ObjectId_isValid userId = true →
     ∃ l, listOwn req_user bs = OwnBookings l ∧
       l ≡ₚ find (λ b, bool_decide (Booking.user b = userId)) bs ∧
       (∀ b, b ∈ l ↔ Booking.user b = userId ∧ ∃ i, bs !! i = Some b) ∧
       Sorted (newest_first Booking.createdAt) l).
Proof.
  unfold listOwn. split; [by intros ->|]. split; [by intros userId -> ->|].
  intros userId -> ->. eexists. split; [reflexivity|].
  split; [apply merge_sort_Permutation|]. split; [apply own_elem_of|].
  apply Sorted_merge_sort. apply _.
Qed.

(** X20. After a creation that answers 201, the new booking is in its
    owner's listing, and in nobody else's: for every reader, the
    listing after the creation has the elements it had before, plus the
    new booking when the reader is the creator. *)
Theorem created_booking_is_listed (req_user : payload) (b : creation) (oid : string)
    (now : Z) (bs : bookings) (r : response) (bs' : bookings) :
  create req_user b oid now bs = (r, bs') →
  status r = 201 →
  ∃ i booking,
    Middleware.claimed_id req_user = Some i ∧ bs' !! oid = Some booking ∧
    Booking.user booking = i ∧
    ∀ reader j, Middleware.claimed_id reader = Some j → ObjectId_isValid j = true →
      ∃ l l', listOwn reader bs = OwnBookings l ∧
        listOwn reader bs' = OwnBookings l' ∧
        ∀ x, x ∈ l' ↔ x ∈ l ∨ (j = i ∧ x = booking).
Proof.
  intros Hc H201.
  pose proof (create_201_fresh _ _ _ _ _ _ _ Hc H201) as Hfresh.
  destruct (create_201 _ _ _ _ _ _ _ Hc H201)
    as (i & sd & booking & Hi & _ & _ & _ & _ & _ & Hb & _ & ->).
  apply build_ids in Hb as [_ Hown].
  exists i, booking. split; [done|]. split; [by rewrite lookup_insert_eq|].
  split; [done|]. intros reader j Hj Hok.
  unfold listOwn. rewrite Hj, Hok. cbn [negb]. eexists _, _.
  split; [reflexivity|]. split; [reflexivity|].
  intros x. rewrite !own_elem_of. split.
  - intros [Hu [k Hk]]. apply lookup_insert_Some in Hk as [[<- <-]|[Hne Hk]].
    + right. split; [congruence | done].
    + left. eauto.
  - intros [[Hu [k Hk]] | [-> ->]].
    + split; [done|]. exists k. rewrite lookup_insert_ne; [done|]. congruence.
    + split; [done|]. exists oid. by rewrite lookup_insert_eq.
Qed.

Lemma Math_max_Num (a : Z) (x : number) (p : Z) :
  Math_max (Num a) x = Num p → ∃ n, x = Num n ∧ p = Z.max a n.
Proof. destruct x as [|n]; [done|]. intros [= <-]. by exists n. Qed.

Lemma Math_min_Num (a : Z) (x : number) (p : Z) :
  Math_min (Num a) x = Num p → ∃ n, x = Num n ∧ p = Z.min a n.
Proof. destruct x as [|n]; [done|]. intros [= <-]. by exists n. Qed.





End Booking_lists.

Section More_lists.
Context `{Host}.
Import AdminRoutes.

Lemma users_plan_Some (query : query) :
  ∃ pl, users_plan query = Some pl ∧
    page pl = Math_max (Num 1) (parseInt (or_str (q_page query) "1")) ∧
    limit pl = Math_min (Num 100)
                 (Math_max (Num 5) (parseInt (or_str (q_limit query) "20"))) ∧
    skip pl = skip_of (page pl) (limit pl).
Proof.
  unfold users_plan. case_bool_decide; [by eexists|].
  rewrite RegExp_new_escaped. by eexists.
Qed.


(** The order of a list whose elements have different creation times is
    fixed by the sort: two arrangements of it from the newest to the
    oldest are the same list. *)
Lemma sorted_unique {D : Type} (createdAt : D → Z) (l l' : list D) :
  NoDup (createdAt <$> l) → l ≡ₚ l' →
  Sorted (newest_first createdAt) l → Sorted (newest_first createdAt) l' →
  l = l'.
Proof.
  intros Hnd Hp Hs Hs'.
  apply Sorted_StronglySorted in Hs; [|apply _].
  apply Sorted_StronglySorted in Hs'; [|apply _].
  revert l' Hp Hs'. induction Hs as [|a t Ht IH Ha]; intros l' Hp Hs'.
  { by apply Permutation_nil_l in Hp. }
  destruct Hs' as [|a' t' Ht' Ha']; [by apply Permutation_nil_r in Hp|].
  rewrite fmap_cons in Hnd. apply NoDup_cons in Hnd as [Hfresh Hnd].
  rewrite Forall_forall in Ha, Ha'.
  assert (Hin : a' ∈ a :: t) by (rewrite Hp; left).
  assert (Hin' : a ∈ a' :: t') by (rewrite <- Hp; left).
  assert (a' = a) as ->.
  { apply elem_of_cons in Hin as [->|Hin]; [done|].
    exfalso. apply Hfresh.
    assert (createdAt a = createdAt a') as ->; [|by apply list_elem_of_fmap_2].
    pose proof (Ha a' Hin) as H1. unfold newest_first in H1.
    apply elem_of_cons in Hin' as [->|Hin']; [done|].
    pose proof (Ha' a Hin') as H2. unfold newest_first in H2. lia. }
  f_equal. apply IH; [done | by apply Permutation_cons_inv in Hp | done].
Qed.

(** X23. Consecutive pages of the users listing are adjacent slices of
    one ordered result, provided no two matching users were created at
    the same instant, which leaves the sort no choice: the pages [p] and
    [p + 1] of the same search with the same limit are, one after the
    other, the users from position [(p - 1) * limit] on, [2 * limit] of
    them or as many as there are, in any arrangement of the matching
    users from the newest to the oldest. No user is left out between
    the two pages, and none comes twice. *)
Theorem consecutive_pages_are_adjacent (query query' : query) (us : users)
    (pl pl' : plan) (p l : Z) (sorted : list User.doc) :
  users_plan query = Some pl → users_plan query' = Some pl' →
  filter pl' = filter pl →
  page pl = Num p → page pl' = Num (p + 1) →
  limit pl = Num l → limit pl' = Num l →
  NoDup (User.createdAt <$> find (user_matches (filter pl)) us) →
  sorted ≡ₚ find (user_matches (filter pl)) us →
  Sorted (newest_first User.createdAt) sorted →
  ∃ objs objs' m m',
    listUsers query us = ok (UserPage objs m) ∧
    listUsers query' us = ok (UserPage objs' m') ∧
    objs = hide_sensitive (take (Z.to_nat l) (drop (Z.to_nat ((p - 1) * l)) sorted)) ∧
    objs' = hide_sensitive (take (Z.to_nat l) (drop (Z.to_nat (p * l)) sorted)) ∧
    objs ++ objs'
    = hide_sensitive (take (Z.to_nat (2 * l)) (drop (Z.to_nat ((p - 1) * l)) sorted)).
Proof.
  intros Hpl Hpl' Hfilter Hp Hp' Hl Hl' Hnd Hperm Hsorted.
  destruct (users_plan_Some query) as (pl0 & Hpl0 & Hpage & Hlimit & Hskip).
  rewrite Hpl in Hpl0. injection Hpl0 as <-.
  destruct (users_plan_Some query') as (pl0 & Hpl0 & _ & _ & Hskip').
  rewrite Hpl' in Hpl0. injection Hpl0 as <-.
  rewrite Hp in Hpage. rewrite Hl in Hlimit. symmetry in Hpage, Hlimit.
  apply Math_max_Num in Hpage as (n & _ & ->).
  apply Math_min_Num in Hlimit as (x & Hx & ->).
  apply Math_max_Num in Hx as (n' & _ & ->).
  rewrite Hp, Hl in Hskip. rewrite Hp', Hl' in Hskip'. cbn [skip_of] in Hskip, Hskip'.
  assert (Hsame : merge_sort (newest_first User.createdAt)
                    (find (user_matches (filter pl)) us) = sorted).
  { apply (sorted_unique User.createdAt).
    - by rewrite merge_sort_Permutation.
    - by rewrite merge_sort_Permutation, Hperm.
    - apply Sorted_merge_sort. apply _.
    - done. }
  unfold listUsers. rewrite Hpl, Hpl'. eexists _, _, _, _.
  split; [reflexivity|]. split; [reflexivity|].
  unfold page_slice. rewrite Hfilter, Hskip, Hskip', Hl, Hl', Hsame.
  replace (Z.max 1 n + 1 - 1) with (Z.max 1 n) by lia.
  split; [reflexivity|]. split; [reflexivity|].
  unfold hide_sensitive. rewrite <- fmap_app. f_equal.
  set (lim := Z.min 100 (Z.max 5 n')).
  replace (Z.to_nat (Z.max 1 n * lim))
    with (Z.to_nat ((Z.max 1 n - 1) * lim) + Z.to_nat lim)%nat by (subst lim; nia).
  replace (Z.to_nat (2 * lim)) with (Z.to_nat lim + Z.to_nat lim)%nat by lia.
  rewrite <- drop_drop. apply take_take_drop.
Qed.

End More_lists.

Section Booking_moderation.
Context `{Host}.
Import BookingRoutes.

(** X24. A moderation request never creates or deletes a booking and
    never touches a booking other than the one whose id the path
    spells; of that one it leaves the id, the owner, the type, the
    duration, the platform and its details, the scheduled time, the
    user's notes and the creation time as they were. *)
Theorem adminTransition_touches_only_moderation_fields (bookingId : string)
    (action adminNote rescheduledTo : value) (now : Z) (us : users) (bs : bookings)
    (r : response) (bs' : bookings) :
  adminTransition bookingId action adminNote rescheduledTo now us bs = (r, bs') →
  ∀ j, match bs !! j, bs' !! j with
       | Some b, Some b' =>
           Booking._id b' = Booking._id b ∧ Booking.user b' = Booking.user b ∧
           Booking.type b' = Booking.type b ∧
           Booking.duration b' = Booking.duration b ∧
           Booking.platform b' = Booking.platform b ∧
           Booking.platformDetails b' = Booking.platformDetails b ∧
           Booking.scheduledAt b' = Booking.scheduledAt b ∧
           Booking.notes b' = Booking.notes b ∧
           Booking.createdAt b' = Booking.createdAt b ∧
           (j ≠ castObjectId bookingId → b' = b)
       | None, None => True
       | _, _ => False
       end.
Proof.
  unfold adminTransition, findById. intros Ht j.
  assert (Hsame : bs' = bs →
    match bs !! j, bs' !! j with
    | Some b, Some b' =>
        Booking._id b' = Booking._id b ∧ Booking.user b' = Booking.user b ∧
        Booking.type b' = Booking.type b ∧ Booking.duration b' = Booking.duration b ∧
        Booking.platform b' = Booking.platform b ∧
        Booking.platformDetails b' = Booking.platformDetails b ∧
        Booking.scheduledAt b' = Booking.scheduledAt b ∧
        Booking.notes b' = Booking.notes b ∧
        Booking.createdAt b' = Booking.createdAt b ∧
        (j ≠ castObjectId bookingId → b' = b)
    | None, None => True
    | _, _ => False
    end).
  { intros ->. by destruct (bs !! j). }
  destruct (negb _); [by simplify_eq; apply Hsame|].
  destruct (bs !! castObjectId bookingId) as [b|] eqn:Hb;
    [|by simplify_eq; apply Hsame].
  destruct (transition _ _ _ _) as [e|assigned] eqn:Htr;
    [by simplify_eq; apply Hsame|].
  clear Hsame. simplify_eq.
  assert (Hfields :
    Booking._id (save now b assigned) = Booking._id b ∧
    Booking.user (save now b assigned) = Booking.user b ∧
    Booking.type (save now b assigned) = Booking.type b ∧
    Booking.duration (save now b assigned) = Booking.duration b ∧
    Booking.platform (save now b assigned) = Booking.platform b ∧
    Booking.platformDetails (save now b assigned) = Booking.platformDetails b ∧
    Booking.scheduledAt (save now b assigned) = Booking.scheduledAt b ∧
    Booking.notes (save now b assigned) = Booking.notes b ∧
    Booking.createdAt (save now b assigned) = Booking.createdAt b).
  { unfold save. case_bool_decide; [done|].
    unfold transition in Htr.
    repeat (case_bool_decide || case_match); simplify_eq; done. }
  destruct (decide (j = castObjectId bookingId)) as [->|Hj].
  - rewrite Hb, lookup_insert_eq. destruct Hfields as (?&?&?&?&?&?&?&?&?).
    repeat split; done.
  - rewrite lookup_insert_ne by done. destruct (bs !! j); [|done].
    repeat split; done.
Qed.

Lemma assign_save (now : Z) (st : Booking.Status) (note : option string)
    (to : option Z) (b : Booking.doc) :
  assign st note to (save now b (assign st note to b)) = save now b (assign st note to b).
Proof. unfold save. case_bool_decide as Hs; [by rewrite Hs | done]. Qed.

(** X25. Moderation is idempotent: the same request made twice in a row
    leaves the collection as the first one left it, whenever the second
    is made, and is answered with the same status. *)
Theorem adminTransition_twice (bookingId : string) (action adminNote rescheduledTo : value)
    (now now' : Z) (us : users) (bs : bookings) :
  let once := adminTransition bookingId action adminNote rescheduledTo now us bs in
  let twice := adminTransition bookingId action adminNote rescheduledTo now' us once.2 in
  twice.2 = once.2 ∧ status twice.1 = status once.1.
Proof.
  unfold adminTransition, findById. cbv zeta.
  destruct (negb _); [done|].
  destruct (bs !! castObjectId bookingId) as [b|] eqn:Hb; cbn [snd fst];
    [|by rewrite Hb].
  destruct (transition _ _ _ b) as [e|assigned] eqn:Htr; cbn [snd fst].
  - rewrite Hb, Htr. done.
  - rewrite lookup_insert_eq.
    assert (Hagain : transition action (default_to (VStr "") adminNote)
               (default_to VNull rescheduledTo) (save now b assigned)
             = inr (save now b assigned)).
    { unfold transition in *.
      repeat (case_bool_decide || case_match); simplify_eq;
        by rewrite assign_save. }
    rewrite Hagain. cbn [snd fst]. split; [|done].
    assert (save now' (save now b assigned) (save now b assigned)
            = save now b assigned) as ->.
    { unfold save at 1. by rewrite bool_decide_true. }
    by rewrite insert_insert_eq.
Qed.

End Booking_moderation.

Section Escaping.
Import RegExp.

Lemma list_ascii_inj (q1 q2 : string) :
  String.list_ascii_of_string q1 = String.list_ascii_of_string q2 → q1 = q2.
Proof.
  revert q2. induction q1 as [|c q1 IH]; intros [|d q2]; simpl; try done.
  intros [= -> Hq]. f_equal. by apply IH.
Qed.

(** X26. Escaping loses nothing and adds at most one backslash per
    character: two different queries have different escaped patterns,
    and the escaped pattern is at least as long as the query and at most
    twice as long. *)
Theorem escapeRegExp_is_injective (q1 q2 : string) :
  (escapeRegExp q1 = escapeRegExp q2 → q1 = q2) ∧
  (String.length q1 ≤ String.length (escapeRegExp q1) ≤ 2 * String.length q1)%nat.
Proof.
  split.
  - intros He. apply list_ascii_inj.
    pose proof (tokens_escapeRegExp q1) as H1.
    pose proof (tokens_escapeRegExp q2) as H2.
    rewrite He in H1. rewrite H1 in H2. injection H2 as H2.
    assert (Inj (=) (=) TLit) by (by intros ?? [=]).
    by apply (inj (fmap TLit)) in H2.
  - induction q1 as [|c q IH]; simpl; [lia|].
    case_bool_decide; simpl; lia.
Qed.

End Escaping.

(** ** Closed examples for the further properties *)

Section More_examples.
#[local] Existing Instance Sample.host.
Import Sample Fixture.

Lemma adminAuth_admits_only_fresh_admins_witness :
  Middleware.adminAuth ada_header people = Middleware.Next (of_id ada_id) (Some ada) ∧
  Middleware.auth ada_header = Middleware.Next (of_id ada_id) None.
Proof.
  assert (Ha : Middleware.adminAuth ada_header people
               = Middleware.Next (of_id ada_id) (Some ada))
    by (vm_compute; reflexivity).
  split; [exact Ha|].
  exact (proj1 (proj1 (adminAuth_admits_only_fresh_admins ada_header people) _ _ Ha)).
Defined.

Lemma auth_admits_exactly_verified_bearers_witness :
  jwt_verify "signed:64b7f0c2a1d3e4f5a6b7c8da" = Some (of_id bob_id) ∧
  Middleware.auth bob_header = Middleware.Next (of_id bob_id) None.
Proof.
  assert (Hv : jwt_verify "signed:64b7f0c2a1d3e4f5a6b7c8da" = Some (of_id bob_id))
    by (vm_compute; reflexivity).
  split; [exact Hv|].
  apply (proj1 (auth_admits_exactly_verified_bearers bob_header)).
  split; [reflexivity|]. exists "signed:64b7f0c2a1d3e4f5a6b7c8da".
  split; [reflexivity|]. split; [discriminate|]. split; [vm_compute; reflexivity|].
  exact Hv.
Defined.

Lemma admin_routes_need_a_fresh_admin_witness :
  (¬ ∃ token p i u,
       Middleware.bearer (or_str bob_header "") = Some token ∧
       jwt_verify token = Some p ∧ Middleware.claimed_id p = Some i ∧
       people !! i = Some u ∧ User.role u = User.admin) ∧
  ∃ r, (status r = 401 ∨ status r = 403) ∧
    Router.DELETE_admin_user bob_header ada_id people = (r, people) ∧
    Router.PATCH_admin_booking bob_header booking_id (VStr "cancel") VUndefined
      VUndefined 7000 people agenda = (r, agenda).
Proof.
  assert (Hnone : ¬ ∃ token p i u,
       Middleware.bearer (or_str bob_header "") = Some token ∧
       jwt_verify token = Some p ∧ Middleware.claimed_id p = Some i ∧
       people !! i = Some u ∧ User.role u = User.admin).
  { intros (token & p & i & u & Hb & Hv & Hi & Hu & Hr).
    vm_compute in Hb. injection Hb as <-.
    vm_compute in Hv. injection Hv as <-.
    vm_compute in Hi. injection Hi as <-.
    vm_compute in Hu. injection Hu as <-. discriminate Hr. }
  split; [exact Hnone|].
  destruct (admin_routes_need_a_fresh_admin bob_header people agenda Hnone)
    as (r & Hr & Hdel & _ & _ & _ & Hpatch & _).
  exists r. split; [exact Hr|]. split; [apply Hdel | apply Hpatch].
Defined.

Lemma created_booking_belongs_to_caller_witness :
  let out := Router.POST_bookings bob_header (wanted (VNum 30)) fresh_id 6000 agenda in
  status out.1 = 201 ∧
  ∃ t p i booking,
    bob_header = Some ("Bearer " +:+ t) ∧ jwt_verify t = Some p ∧
    Middleware.claimed_id p = Some i ∧ out.2 = <[fresh_id := booking]> agenda ∧
    agenda !! fresh_id = None ∧ Booking._id booking = fresh_id ∧
    Booking.user booking = i.
Proof.
  intros out.
  assert (H201 : status out.1 = 201) by (vm_compute; reflexivity).
  split; [exact H201|].
  exact (proj1 (created_booking_belongs_to_caller bob_header (wanted (VNum 30))
                  fresh_id 6000 agenda) out.1 out.2 (surjective_pairing out) H201).
Defined.

Lemma attainable_well_formed_witness :
  let one := (AuthRoutes.register carol_form carol_id 8000 ∅).2 in
  let two := (AuthRoutes.register dave_form dave_id 8100 one).2 in
  let three :=
    (AuthRoutes.updateSelf (of_id dave_id) (new_email "Dave@Example.net") 8200 two).2 in
  attainable three ∧ well_formed three ∧
  ∃ carol dave,
    three !! carol_id = Some carol ∧ three !! dave_id = Some dave ∧
    User.email dave = "dave@example.net" ∧
    User.email carol ≠ User.email dave ∧ User.username carol ≠ User.username dave.
Proof.
  intros one two three.
  assert (Ha : attainable three).
  { eapply rtc_r; [eapply rtc_r; [apply rtc_once|]|].
    - apply (w_register carol_form carol_id 8000).
    - apply (w_register dave_form dave_id 8100).
    - apply (w_updateSelf (of_id dave_id) (new_email "Dave@Example.net") 8200). }
  pose proof (attainable_well_formed three Ha) as Hwf.
  split; [exact Ha|]. split; [exact Hwf|].
  destruct (three !! carol_id) as [carol|] eqn:Hc; [|vm_compute in Hc; discriminate Hc].
  destruct (three !! dave_id) as [dave|] eqn:Hd; [|vm_compute in Hd; discriminate Hd].
  exists carol, dave. split; [reflexivity|]. split; [reflexivity|].
  destruct Hwf as (_ & Hemail & Hname).
  split; [vm_compute in Hd; injection Hd as <-; reflexivity|].
  split; intros Hsame.
  - by pose proof (Hemail _ _ _ _ Hc Hd Hsame).
  - by pose proof (Hname _ _ _ _ Hc Hd Hsame).
Defined.

Lemma register_creates_plain_member_witness :
  let out := AuthRoutes.register carol_form carol_id 8000 people in
  status out.1 = 201 ∧
  ∃ u, out.2 = <[carol_id := u]> people ∧ people !! carol_id = None ∧
    User._id u = carol_id ∧ User.role u = User.member ∧ User.isBanned u = false ∧
    User.banReason u = "" ∧ User.bannedUntil u = None ∧
    User.email u = trim (toLowerCase " Carol@Example.org") ∧
    User.passwordHash u = bcrypt_hash "s3cretpass" ∧
    8 ≤ Z.of_nat (String.length "s3cretpass") ∧
    (∀ j v, people !! j = Some v →
       User.email v ≠ User.email u ∧ User.username v ≠ User.username u).
Proof.
  intros out.
  assert (H201 : status out.1 = 201) by (vm_compute; reflexivity).
  split; [exact H201|].
  exact (proj2 (register_creates_plain_member carol_form carol_id 8000 people
                  out.1 out.2 (surjective_pairing out)) H201).
Defined.

Lemma register_twice_same_email_witness :
  let out := AuthRoutes.register carol_form carol_id 8000 people in
  status out.1 = 201 ∧
  trim (toLowerCase "CAROL@EXAMPLE.ORG ") = trim (toLowerCase " Carol@Example.org") ∧
  (AuthRoutes.register carol_again fresh_id 9000 out.2).2 = out.2 ∧
  (status (AuthRoutes.register carol_again fresh_id 9000 out.2).1 = 400 ∨
   (AuthRoutes.register carol_again fresh_id 9000 out.2).1
   = fail 409 "Email already registered.").
Proof.
  intros out.
  assert (H201 : status out.1 = 201) by (vm_compute; reflexivity).
  assert (Hsame : trim (toLowerCase "CAROL@EXAMPLE.ORG ")
                  = trim (toLowerCase " Carol@Example.org"))
    by (vm_compute; reflexivity).
  split; [exact H201|]. split; [exact Hsame|].
  exact (register_twice_same_email carol_form carol_id 8000 people out.1 out.2
           (surjective_pairing out) H201 carol_again fresh_id 9000 Hsame).
Defined.

Lemma register_then_login_witness :
  let out := AuthRoutes.register carol_form carol_id 8000 people in
  status out.1 = 201 ∧
  bcrypt_compare "s3cretpass" (bcrypt_hash "s3cretpass") = true ∧
  trim (toLowerCase "CAROL@example.org") = trim (toLowerCase " Carol@Example.org") ∧
  ∃ u, out.2 !! carol_id = Some u ∧
    AuthRoutes.login (Some "CAROL@example.org") (Some "s3cretpass") out.2
    = ok (LoginBody "Login successful."
            (jwt_sign {| id := Some carol_id;
                         p_email := Some (User.email u);
                         p_username := Some (User.username u);
                         p_role := Some "member" |})
            (AuthRoutes.sanitizeUser (Some u))).
Proof.
  intros out.
  assert (H201 : status out.1 = 201) by (vm_compute; reflexivity).
  assert (Hb : bcrypt_compare "s3cretpass" (bcrypt_hash "s3cretpass") = true)
    by (vm_compute; reflexivity).
  assert (Hsame : trim (toLowerCase "CAROL@example.org")
                  = trim (toLowerCase " Carol@Example.org"))
    by (vm_compute; reflexivity).
  split; [exact H201|]. split; [exact Hb|]. split; [exact Hsame|].
  refine (register_then_login carol_form carol_id 8000 people out.1 out.2
            "CAROL@example.org" (surjective_pairing out) H201 Hb _ Hsame).
  discriminate.
Defined.

Lemma changePassword_changes_only_the_hash_witness :
  let out := Account.changePassword (of_id bob_id) (Some "hunter2hunter2")
               (Some "n3wpassword") 9000 people in
  status out.1 = 200 ∧
  ∃ userId u u',
    Middleware.claimed_id (of_id bob_id) = Some userId ∧
    people !! userId = Some u ∧ out.2 !! userId = Some u' ∧
    (∀ j, j ≠ userId → out.2 !! j = people !! j) ∧
    bcrypt_compare "hunter2hunter2" (User.passwordHash u) = true ∧
    8 ≤ Z.of_nat (String.length "n3wpassword") ∧
    User.passwordHash u' = bcrypt_hash "n3wpassword" ∧
    Account.with_passwordHash (User.passwordHash u) (stamped (User.updatedAt u) u') = u.
Proof.
  intros out.
  assert (H200 : status out.1 = 200) by (vm_compute; reflexivity).
  split; [exact H200|].
  exact (proj2 (changePassword_changes_only_the_hash (of_id bob_id)
                  (Some "hunter2hunter2") (Some "n3wpassword") 9000 people
                  out.1 out.2 (surjective_pairing out)) H200).
Defined.

Lemma changePassword_then_login_witness :
  well_formed people ∧
  people !! bob_id = Some bob ∧
  bcrypt_compare "hunter2hunter2" (User.passwordHash bob) = true ∧
  bcrypt_compare "n3wpassword" (bcrypt_hash "n3wpassword") = true ∧
  bcrypt_compare "hunter2hunter2" (bcrypt_hash "n3wpassword") = false ∧
  trim (toLowerCase " Bob@Example.org") = User.email bob ∧
  ∃ us',
    Account.changePassword (of_id bob_id) (Some "hunter2hunter2")
      (Some "n3wpassword") 9000 people
    = (ok (Message "Password updated."), us') ∧
    token_of (AuthRoutes.login (Some " Bob@Example.org") (Some "n3wpassword") us')
    = Some (jwt_sign {| id := Some bob_id;
                        p_email := Some (User.email bob);
                        p_username := Some (User.username bob);
                        p_role := Some (User.role_name (User.role bob)) |}) ∧
    AuthRoutes.login (Some " Bob@Example.org") (Some "hunter2hunter2") us'
    = fail 401 "Invalid credentials.".
Proof.
  assert (Hu : people !! bob_id = Some bob) by (vm_compute; reflexivity).
  assert (H1 : bcrypt_compare "hunter2hunter2" (User.passwordHash bob) = true)
    by (vm_compute; reflexivity).
  assert (H2 : bcrypt_compare "n3wpassword" (bcrypt_hash "n3wpassword") = true)
    by (vm_compute; reflexivity).
  assert (H3 : bcrypt_compare "hunter2hunter2" (bcrypt_hash "n3wpassword") = false)
    by (vm_compute; reflexivity).
  assert (H4 : trim (toLowerCase " Bob@Example.org") = User.email bob)
    by (vm_compute; reflexivity).
  split; [exact people_well_formed|]. split; [exact Hu|]. split; [exact H1|].
  split; [exact H2|]. split; [exact H3|]. split; [exact H4|].
  refine (changePassword_then_login (of_id bob_id) bob_id "hunter2hunter2"
            "n3wpassword" 9000 people bob " Bob@Example.org" people_well_formed
            _ _ Hu _ _ _ _ _ H1 H2 H3 _ H4);
    first [vm_compute; reflexivity | discriminate | (vm_compute; discriminate)].
Defined.

Lemma updateSelf_keeps_privileges_witness :
  let out := AuthRoutes.updateSelf (of_id bob_id) (new_email "Robert@Example.org")
               9000 people in
  status out.1 = 200 ∧
  User.email <$> out.2 !! bob_id = Some "robert@example.org" ∧
  match people !! bob_id, out.2 !! bob_id with
  | Some u, Some u' =>
      User._id u' = User._id u ∧ User.role u' = User.role u ∧
      User.isBanned u' = User.isBanned u ∧ User.banReason u' = User.banReason u ∧
      User.bannedUntil u' = User.bannedUntil u ∧
      User.passwordHash u' = User.passwordHash u ∧
      User.createdAt u' = User.createdAt u ∧
      (Middleware.claimed_id (of_id bob_id) ≠ Some bob_id → u' = u)
  | None, None => True
  | _, _ => False
  end.
Proof.
  intros out.
  split; [vm_compute; reflexivity|]. split; [vm_compute; reflexivity|].
  exact (updateSelf_keeps_privileges (of_id bob_id) (new_email "Robert@Example.org")
           9000 people out.1 out.2 (surjective_pairing out) bob_id).
Defined.

Lemma updateSelf_refuses_a_taken_email_witness :
  people !! ada_id = Some ada ∧
  User.email ada = trim (toLowerCase " ADA@example.org") ∧
  AuthRoutes.updateSelf (of_id bob_id) (new_email " ADA@example.org") 9000 people
  = (fail 409 "Email already in use.", people).
Proof.
  assert (Hv : people !! ada_id = Some ada) by (vm_compute; reflexivity).
  assert (He : User.email ada = trim (toLowerCase " ADA@example.org"))
    by (vm_compute; reflexivity).
  split; [exact Hv|]. split; [exact He|].
  refine (updateSelf_refuses_a_taken_email (of_id bob_id)
            (new_email " ADA@example.org") 9000 people bob_id " ADA@example.org"
            ada_id ada _ _ _ _ Hv _ He);
    first [vm_compute; reflexivity | discriminate | (vm_compute; discriminate)].
Defined.

Lemma deleteSelf_locks_out_witness :
  Middleware.auth ada_header = Middleware.Next (of_id ada_id) None ∧
  let us' := (Router.DELETE_delete ada_header people).2 in
  us' !! ada_id = None ∧
  Router.GET_me ada_header us' = fail 404 "User not found" ∧
  Middleware.adminAuth ada_header us' = Middleware.Rejected (fail 401 "Unauthorized").
Proof.
  assert (Ha : Middleware.auth ada_header = Middleware.Next (of_id ada_id) None)
    by (vm_compute; reflexivity).
  split; [exact Ha|]. intros us'.
  destruct (deleteSelf_locks_out ada_header (of_id ada_id) ada_id people Ha)
    as (_ & Hgone & _ & Hme & Hadmin & _);
    [vm_compute; reflexivity | vm_compute; reflexivity|].
  split; [exact Hgone|]. split; [exact Hme | exact Hadmin].
Defined.

Lemma deleteUser_locks_out_witness :
  let spelled := "64B7F0C2A1D3E4F5A6B7C8DA" in
  castObjectId spelled = bob_id ∧
  people !! bob_id = Some bob ∧
  AdminRoutes.deleteUser (of_id ada_id) spelled people
  = (ok (Message "User deleted."), delete bob_id people) ∧
  AdminRoutes.deleteUser (of_id ada_id) bob_id people
  = (ok (Message "User deleted."), delete bob_id people) ∧
  Router.GET_me bob_header (delete bob_id people) = fail 404 "User not found".
Proof.
  intros spelled.
  assert (Hcast : castObjectId spelled = bob_id) by (vm_compute; reflexivity).
  assert (Hcast' : castObjectId bob_id = bob_id) by (vm_compute; reflexivity).
  assert (Hv : people !! bob_id = Some bob) by (vm_compute; reflexivity).
  assert (Hok : ObjectId_isValid spelled = true) by (vm_compute; reflexivity).
  assert (Hok' : ObjectId_isValid bob_id = true) by (vm_compute; reflexivity).
  assert (Hother : id (of_id ada_id) ≠ Some spelled) by (vm_compute; discriminate).
  assert (Hother' : id (of_id ada_id) ≠ Some bob_id) by (vm_compute; discriminate).
  pose proof (deleteUser_locks_out (of_id ada_id) spelled people bob Hok Hother) as Hs.
  pose proof (deleteUser_locks_out (of_id ada_id) bob_id people bob Hok' Hother') as Hb.
  cbv zeta in Hs, Hb. rewrite Hcast in Hs. rewrite Hcast' in Hb.
  destruct (Hs Hv) as (Hdel & _ & _). destruct (Hb Hv) as (Hdel' & _ & Hafter).
  split; [exact Hcast|]. split; [exact Hv|]. split; [exact Hdel|].
  split; [exact Hdel'|].
  apply (Hafter bob_header (of_id bob_id)); [vm_compute; reflexivity
    | vm_compute; reflexivity | exact Hok'].
Defined.

Lemma banUser_then_login_witness :
  well_formed people ∧ castObjectId bob_id = bob_id ∧ people !! bob_id = Some bob ∧
  new_Date (VStr "2030-01-01T00:00:00.000Z") = Num 1893456000000 ∧
  status (AdminRoutes.banUser (of_id ada_id) bob_id (VStr "spam")
            (VStr "2030-01-01T00:00:00.000Z") 9000 people).1 = 200 ∧
  AuthRoutes.login (Some "bob@example.org") (Some "hunter2hunter2")
    (AdminRoutes.banUser (of_id ada_id) bob_id (VStr "spam")
       (VStr "2030-01-01T00:00:00.000Z") 9000 people).2
  = {| status := 403;
       json := BanNotice "Account is banned." "spam" (Some "2030-01-01T00:00:00.000Z") |}.
Proof.
  assert (Hcast : castObjectId bob_id = bob_id) by (vm_compute; reflexivity).
  assert (Hv : people !! castObjectId bob_id = Some bob) by (vm_compute; reflexivity).
  assert (Hd : new_Date (VStr "2030-01-01T00:00:00.000Z") = Num 1893456000000)
    by (vm_compute; reflexivity).
  assert (Hok : ObjectId_isValid bob_id = true) by (vm_compute; reflexivity).
  assert (Hother : id (of_id ada_id) ≠ Some bob_id) by (vm_compute; discriminate).
  destruct (banUser_then_login (of_id ada_id) bob_id (VStr "spam")
              (VStr "2030-01-01T00:00:00.000Z") 9000 people bob
              people_well_formed Hok Hother Hv) as [Hban Hlogin].
  { intros _. cbn [default_to]. rewrite Hd. discriminate. }
  split; [exact people_well_formed|]. split; [exact Hcast|].
  split; [rewrite <- Hcast; exact Hv|]. split; [exact Hd|].
  rewrite Hban. split; [reflexivity|].
  pose proof (Hlogin "bob@example.org" "hunter2hunter2" ltac:(discriminate)
                ltac:(discriminate) ltac:(vm_compute; reflexivity)) as Hl.
  cbn [snd]. rewrite Hl. vm_compute. reflexivity.
Defined.

Lemma unbanUser_then_login_witness :
  well_formed people ∧ castObjectId ada_id = ada_id ∧ people !! ada_id = Some ada ∧
  User.isBanned ada = true ∧
  bcrypt_compare "correct horse" (User.passwordHash ada) = true ∧
  (Moderation.unbanUser ada_id 9000 people).1
  = Unbanned "User unbanned." ada_id false ∧
  token_of (AuthRoutes.login (Some "ada@example.org") (Some "correct horse")
              (Moderation.unbanUser ada_id 9000 people).2)
  = Some "signed:64b7f0c2a1d3e4f5a6b7c8d9".
Proof.
  assert (Hcast : castObjectId ada_id = ada_id) by (vm_compute; reflexivity).
  assert (Hv : people !! castObjectId ada_id = Some ada) by (vm_compute; reflexivity).
  assert (Hok : ObjectId_isValid ada_id = true) by (vm_compute; reflexivity).
  assert (Hc : bcrypt_compare "correct horse" (User.passwordHash ada) = true)
    by (vm_compute; reflexivity).
  destruct (proj2 (proj2 (unbanUser_then_login ada_id 9000 people)) ada
              people_well_formed Hok Hv) as [Hun Hlogin].
  split; [exact people_well_formed|]. split; [exact Hcast|].
  split; [rewrite <- Hcast; exact Hv|]. split; [reflexivity|].
  split; [exact Hc|]. rewrite Hun. split; [reflexivity|].
  destruct (Hlogin "ada@example.org" "correct horse") as [_ Htoken];
    [discriminate | discriminate | vm_compute; reflexivity|].
  cbn [snd]. rewrite (Htoken Hc). vm_compute. reflexivity.
Defined.

Lemma setRole_counts_at_once_witness :
  well_formed people ∧ castObjectId bob_id = bob_id ∧ people !! bob_id = Some bob ∧
  Middleware.auth bob_header = Middleware.Next (of_id bob_id) None ∧
  Middleware.adminAuth bob_header people
  = Middleware.Rejected (fail 403 "Forbidden: admin only") ∧
  Middleware.adminAuth bob_header
    (AdminRoutes.setRole (of_id ada_id) bob_id (VStr "admin") 9000 people).2
  = Middleware.Next (of_id bob_id) (Some (AdminRoutes.with_role User.admin 9000 bob)).
Proof.
  assert (Hcast : castObjectId bob_id = bob_id) by (vm_compute; reflexivity).
  assert (Hv : people !! castObjectId bob_id = Some bob) by (vm_compute; reflexivity).
  assert (Hok : ObjectId_isValid bob_id = true) by (vm_compute; reflexivity).
  assert (Hother : id (of_id ada_id) ≠ Some bob_id) by (vm_compute; discriminate).
  assert (Ha : Middleware.auth bob_header = Middleware.Next (of_id bob_id) None)
    by (vm_compute; reflexivity).
  destruct (setRole_counts_at_once (of_id ada_id) bob_id User.admin 9000 people bob
              people_well_formed Hok Hother Hv) as [Hset Hguard].
  split; [exact people_well_formed|]. split; [exact Hcast|].
  split; [rewrite <- Hcast; exact Hv|]. split; [exact Ha|].
  split; [vm_compute; reflexivity|].
  change (VStr "admin") with (VStr (User.role_name User.admin)).
  rewrite Hset. cbn [snd].
  apply (Hguard bob_header (of_id bob_id) Ha); [vm_compute; reflexivity|].
  rewrite Hcast. exact Hok.
Defined.

Lemma login_again_differs_in_the_role_claim_witness :
  token_of (AuthRoutes.login (Some "bob@example.org") (Some "hunter2hunter2") people)
  = Some "signed:64b7f0c2a1d3e4f5a6b7c8da" ∧
  ∃ user,
    "signed:64b7f0c2a1d3e4f5a6b7c8da"
    = jwt_sign {| id := Some (User._id user);
                  p_email := Some (User.email user);
                  p_username := Some (User.username user);
                  p_role := Some (User.role_name (User.role user)) |} ∧
    token_of (Account.login_again (Some "bob@example.org") (Some "hunter2hunter2") people)
    = Some (jwt_sign {| id := Some (User._id user);
                        p_email := Some (User.email user);
                        p_username := Some (User.username user);
                        p_role := None |}).
Proof.
  assert (Ht : token_of (AuthRoutes.login (Some "bob@example.org")
                           (Some "hunter2hunter2") people)
               = Some "signed:64b7f0c2a1d3e4f5a6b7c8da") by (vm_compute; reflexivity).
  split; [exact Ht|].
  exact (proj2 (proj2 (proj2 (login_again_differs_in_the_role_claim
           (Some "bob@example.org") (Some "hunter2hunter2") people))) _ Ht).
Defined.

Lemma listOwn_is_exactly_own_witness :
  Middleware.claimed_id (of_id bob_id) = Some bob_id ∧ ObjectId_isValid bob_id = true ∧
  ∃ l, Own.listOwn (of_id bob_id) agenda = OwnBookings l ∧
    l ≡ₚ find (λ b, bool_decide (Booking.user b = bob_id)) agenda ∧
    (∀ b, b ∈ l ↔ Booking.user b = bob_id ∧ ∃ i, agenda !! i = Some b) ∧
    Sorted (newest_first Booking.createdAt) l.
Proof.
  assert (Hi : Middleware.claimed_id (of_id bob_id) = Some bob_id)
    by (vm_compute; reflexivity).
  assert (Hok : ObjectId_isValid bob_id = true) by (vm_compute; reflexivity).
  split; [exact Hi|]. split; [exact Hok|].
  exact (proj2 (proj2 (listOwn_is_exactly_own (of_id bob_id) agenda)) bob_id Hi Hok).
Defined.

Lemma created_booking_is_listed_witness :
  let out := BookingRoutes.create (of_id ada_id) (wanted (VNum 45)) fresh_id 6000 agenda in
  status out.1 = 201 ∧
  ∃ i booking,
    Middleware.claimed_id (of_id ada_id) = Some i ∧ out.2 !! fresh_id = Some booking ∧
    Booking.user booking = i ∧
    ∀ reader j, Middleware.claimed_id reader = Some j → ObjectId_isValid j = true →
      ∃ l l', Own.listOwn reader agenda = OwnBookings l ∧
        Own.listOwn reader out.2 = OwnBookings l' ∧
        ∀ x, x ∈ l' ↔ x ∈ l ∨ (j = i ∧ x = booking).
Proof.
  intros out.
  assert (H201 : status out.1 = 201) by (vm_compute; reflexivity).
  split; [exact H201|].
  exact (created_booking_is_listed (of_id ada_id) (wanted (VNum 45)) fresh_id 6000
           agenda out.1 out.2 (surjective_pairing out) H201).
Defined.



Lemma consecutive_pages_are_adjacent_witness :
  let sorted :=
    merge_sort (newest_first User.createdAt) (find (AdminRoutes.user_matches None) crowd) in
  sorted = member_no <$> [6; 5; 4; 3; 2; 1; 0]%nat ∧
  NoDup (User.createdAt <$> find (AdminRoutes.user_matches None) crowd) ∧
  ∃ objs objs' m m',
    AdminRoutes.listUsers (page_no "1") crowd = ok (UserPage objs m) ∧
    AdminRoutes.listUsers (page_no "2") crowd = ok (UserPage objs' m') ∧
    objs = AdminRoutes.hide_sensitive (member_no <$> [6; 5; 4; 3; 2]%nat) ∧
    objs' = AdminRoutes.hide_sensitive (member_no <$> [1; 0]%nat) ∧
    objs ++ objs' = AdminRoutes.hide_sensitive (member_no <$> [6; 5; 4; 3; 2; 1; 0]%nat).
Proof.
  intros sorted.
  assert (Hsorted : sorted = member_no <$> [6; 5; 4; 3; 2; 1; 0]%nat)
    by (vm_compute; reflexivity).
  assert (Hnd : NoDup (User.createdAt <$> find (AdminRoutes.user_matches None) crowd)).
  { refine (bool_decide_unpack _ _). vm_compute. exact I. }
  split; [exact Hsorted|]. split; [exact Hnd|].
  destruct (consecutive_pages_are_adjacent (page_no "1") (page_no "2") crowd
              {| AdminRoutes.page := Num 1; AdminRoutes.limit := Num 5;
                 AdminRoutes.skip := Num 0; AdminRoutes.filter := None |}
              {| AdminRoutes.page := Num 2; AdminRoutes.limit := Num 5;
                 AdminRoutes.skip := Num 5; AdminRoutes.filter := None |}
              1 5 sorted)
    as (objs & objs' & m & m' & H1 & H2 & Ho & Ho' & Happ);
    try reflexivity; try exact Hnd.
  - apply merge_sort_Permutation.
  - apply Sorted_merge_sort. apply _.
  - exists objs, objs', m, m'. split; [exact H1|]. split; [exact H2|].
    rewrite Hsorted in Ho, Ho', Happ. split; [exact Ho|]. split; [exact Ho'|].
    exact Happ.
Defined.

Lemma adminTransition_touches_only_moderation_fields_witness :
  let out := BookingRoutes.adminTransition booking_id (VStr "cancel") (VStr "no show")
               VUndefined 7000 people agenda in
  status out.1 = 200 ∧
  Booking.status <$> out.2 !! booking_id = Some Booking.cancelled ∧
  match agenda !! booking_id, out.2 !! booking_id with
  | Some b, Some b' =>
      Booking._id b' = Booking._id b ∧ Booking.user b' = Booking.user b ∧
      Booking.type b' = Booking.type b ∧ Booking.duration b' = Booking.duration b ∧
      Booking.platform b' = Booking.platform b ∧
      Booking.platformDetails b' = Booking.platformDetails b ∧
      Booking.scheduledAt b' = Booking.scheduledAt b ∧
      Booking.notes b' = Booking.notes b ∧
      Booking.createdAt b' = Booking.createdAt b ∧
      (booking_id ≠ castObjectId booking_id → b' = b)
  | None, None => True
  | _, _ => False
  end.
Proof.
  intros out.
  split; [vm_compute; reflexivity|]. split; [vm_compute; reflexivity|].
  exact (adminTransition_touches_only_moderation_fields booking_id (VStr "cancel")
           (VStr "no show") VUndefined 7000 people agenda out.1 out.2
           (surjective_pairing out) booking_id).
Defined.

Lemma escapeRegExp_is_injective_witness :
  RegExp.escapeRegExp "a.b" ≠ RegExp.escapeRegExp "a\.b".
Proof.
  intros He.
  pose proof (proj1 (escapeRegExp_is_injective "a.b" "a\.b") He) as Hq.
  discriminate Hq.
Defined.

End More_examples.
